(** * TaskFlow Pro API (backend/server.py): a shallow embedding

    The development follows the layout of [server.py]: the Python values and
    calendar dates the handlers manipulate, the document store with its
    filters and sort, the token helpers, the response normalizer
    [prepare_task_for_response], and then the route handlers.  Handlers that
    touch the store are functions from a store to an outcome and a store. *)

From Stdlib Require Import ZArith Lia Ascii String List Sorted Permutation.
From stdpp Require Import gmap strings list fin_maps sorting.

Local Open Scope string_scope.
Local Open Scope list_scope.
Local Open Scope Z_scope.

(** ** [datetime.date]

    A calendar date is a year, a month and a day.  Python only ever builds
    dates that satisfy [valid]; a [date] that occurs in a record is assumed
    to satisfy it where a statement needs it. *)

Record date := mkDate { year : Z; month : Z; day : Z }.

Global Instance date_eq_dec : EqDecision date.
Proof. solve_decision. Defined.

Definition is_leap (y : Z) : bool :=
  ((y mod 4 =? 0) && negb (y mod 100 =? 0)) || (y mod 400 =? 0).

Definition days_in_month (y m : Z) : Z :=
  match m with
  | 2 => if is_leap y then 29 else 28
  | 4 | 6 | 9 | 11 => 30
  | _ => 31
  end.

Definition valid (d : date) : bool :=
  (1 <=? year d) && (year d <=? 9999) &&
  (1 <=? month d) && (month d <=? 12) &&
  (1 <=? day d) && (day d <=? days_in_month (year d) (month d)).

(** [d1 < d2] on dates: the order of the triples (year, month, day). *)
Definition date_ltb (a b : date) : bool :=
  (year a <? year b) ||
  ((year a =? year b) &&
   ((month a <? month b) || ((month a =? month b) && (day a <? day b)))).

(** Decimal rendering with leading zeros, as [%04d] and [%02d]. *)
Definition digit (n : Z) : ascii := ascii_of_N (Z.to_N (48 + n mod 10)).

Definition pad2 (n : Z) (k : string) : string :=
  String (digit (n / 10)) (String (digit n) k).

Definition pad4 (n : Z) (k : string) : string :=
  String (digit (n / 1000)) (String (digit (n / 100)) (pad2 n k)).

(** [date.isoformat()]: [YYYY-MM-DD]. *)
Definition isoformat (d : date) : string :=
  pad4 (year d) (String "-" (pad2 (month d) (String "-" (pad2 (day d) "")))).

Definition digit_val (c : ascii) : option Z :=
  let n := Z.of_N (N_of_ascii c) in
  if (48 <=? n) && (n <=? 57) then Some (n - 48) else None.

Definition num2 (a b : ascii) : option Z :=
  x ← digit_val a; y ← digit_val b; Some (10 * x + y).

Definition num4 (a b c e : ascii) : option Z :=
  x ← num2 a b; y ← num2 c e; Some (100 * x + y).

(** The time part of an ISO string, as every version of
    [datetime.fromisoformat] reads it: a clock [HH], [HH:MM], [HH:MM:SS],
    or [HH:MM:SS] with a fraction of three or six digits, followed or not
    by a UTC offset [+HH:MM], [+HH:MM:SS] or [+HH:MM:SS.ffffff] (or with
    [-]). *)
Definition all_digits (s : string) : bool :=
  forallb (fun c => bool_decide (is_Some (digit_val c))) (list_ascii_of_string s).

Definition below (lim : Z) (a b : ascii) : bool :=
  match num2 a b with
  | Some n => n <? lim
  | None => false
  end.

(** [HH[:MM[:SS[.fff[fff]]]]]; an offset has at least the minutes and no
    fraction of three digits. *)
Definition clock_ok (offset : bool) (s : string) : bool :=
  match s with
  | String h1 (String h2 rest) =>
      below 24 h1 h2 &&
      match rest with
      | "" => negb offset
      | String ":" (String m1 (String m2 rest)) =>
          below 60 m1 m2 &&
          match rest with
          | "" => true
          | String ":" (String s1 (String s2 rest)) =>
              below 60 s1 s2 &&
              match rest with
              | "" => true
              | String "." frac =>
                  ((String.length frac =? 6)%nat
                   || (negb offset && (String.length frac =? 3)%nat))
                  && all_digits frac
              | _ => false
              end
          | _ => false
          end
      | _ => false
      end
  | _ => false
  end.

(** The clock and the offset of a time part, split at the first sign. *)
Fixpoint split_offset (s : string) : string * option string :=
  match s with
  | "" => ("", None)
  | String c rest =>
      if Ascii.eqb c "+" || Ascii.eqb c "-" then ("", Some rest)
      else let '(clock, offset) := split_offset rest in (String c clock, offset)
  end.

Definition time_part_ok (s : string) : bool :=
  let '(clock, offset) := split_offset s in
  clock_ok false clock &&
  match offset with
  | Some o => clock_ok true o
  | None => true
  end.

(** [datetime.fromisoformat(s).date()].  The model reads the forms that
    [isoformat()] of a date and of a datetime produce, which every version
    of Python reads: [YYYY-MM-DD], alone or followed by one separator
    character and a time part.  [None] stands for the [ValueError] that
    Python raises; the further spellings that later versions of Python
    read (a date without hyphens, a week date, a fraction of another
    length, the offset [Z]) are outside the model and read as [None] too. *)
Definition fromisoformat_date (s : string) : option date :=
  match s with
  | String y1 (String y2 (String y3 (String y4 (String "-"
      (String m1 (String m2 (String "-" (String d1 (String d2 rest))))))))) =>
      y ← num4 y1 y2 y3 y4;
      m ← num2 m1 m2;
      d ← num2 d1 d2;
      let r := mkDate y m d in
      if valid r then
        match rest with
        | "" => Some r
        | String _ t => if time_part_ok t then Some r else None
        end
      else None
  | _ => None
  end.

(** ** Instants

    [datetime.now(timezone.utc)] is an instant: a whole number of seconds
    since the epoch, the resolution of the [exp] claim of a token.  A
    [timedelta] is a number of seconds. *)

Definition timedelta_minutes (n : Z) : Z := n * 60.

(** Days since the epoch to a calendar date (proleptic Gregorian). *)
Definition civil_from_days (z0 : Z) : date :=
  let z := z0 + 719468 in
  let era := z / 146097 in
  let doe := z - era * 146097 in
  let yoe := (doe - doe / 1460 + doe / 36524 - doe / 146096) / 365 in
  let doy := doe - (365 * yoe + yoe / 4 - yoe / 100) in
  let mp := (5 * doy + 2) / 153 in
  let d := doy - (153 * mp + 2) / 5 + 1 in
  let m := if mp <? 10 then mp + 3 else mp - 9 in
  mkDate (yoe + era * 400 + (if m <=? 2 then 1 else 0)) m d.

(** [datetime.isoformat()] of a naive datetime: [YYYY-MM-DDTHH:MM:SS]. *)
Definition datetime_isoformat (t : Z) : string :=
  let d := civil_from_days (t / 86400) in
  let s := t mod 86400 in
  pad4 (year d) (String "-" (pad2 (month d) (String "-" (pad2 (day d)
    (String "T" (pad2 (s / 3600) (String ":" (pad2 (s / 60 mod 60)
      (String ":" (pad2 (s mod 60) "")))))))))).

(** ** Python values and documents

    The values the handlers put in, and read from, a document: [None],
    booleans, integers, strings, dates and datetimes.  A document (a Python
    [dict] with string keys, a MongoDB document) is a finite map. *)

Inductive value :=
| VNone
| VBool (b : bool)
| VInt (n : Z)
| VStr (s : string)
| VDate (d : date)
| VDateTime (t : Z).

Global Instance value_eq_dec : EqDecision value.
Proof. solve_decision. Defined.

Abbreviation doc := (gmap string value).

(** Truth value of an object in a condition. *)
Definition truthy (v : value) : bool :=
  match v with
  | VNone => false
  | VBool b => b
  | VInt n => negb (n =? 0)
  | VStr s => negb (String.eqb s "")
  | VDate _ | VDateTime _ => true
  end.

(** [a == b]: booleans are the integers 0 and 1; values of different types
    are different otherwise. *)
Definition py_eqb (a b : value) : bool :=
  match a, b with
  | VBool x, VInt n | VInt n, VBool x => n =? (if x then 1 else 0)
  | _, _ => bool_decide (a = b)
  end.

(** [d.get(k, dflt)] and [d.setdefault(k, v)]. *)
Definition py_get (d : doc) (k : string) (dflt : value) : value :=
  default dflt (d !! k).

Definition setdefault (k : string) (v : value) (d : doc) : doc :=
  match d !! k with
  | Some _ => d
  | None => <[k := v]> d
  end.

(** ** Exceptions *)

Inductive exn :=
| ValueError
| TypeError
| AttributeError
| KeyError (k : string)
| ValidationError
| OperationFailure
| ExpiredSignatureError
| InvalidTokenError
| HTTPException (status : nat) (detail : string).

Inductive result (A : Type) :=
| Ok (a : A)
| Raise (e : exn).
Arguments Ok {A} a.
Arguments Raise {A} e.

Global Instance result_ret : MRet result := fun A a => Ok a.
Global Instance result_bind : MBind result := fun A B f m =>
  match m with
  | Ok a => f a
  | Raise e => Raise e
  end.

Fixpoint mapM_result {A B : Type} (f : A → result B) (l : list A)
  : result (list B) :=
  match l with
  | [] => Ok []
  | x :: l' => y ← f x; ys ← mapM_result f l'; Ok (y :: ys)
  end.

(** [d[k]] *)
Definition py_item (d : doc) (k : string) : result value :=
  match d !! k with
  | Some v => Ok v
  | None => Raise (KeyError k)
  end.

(** ** The response normalizer *)

(** The lines shared by [prepare_task_for_response] and [get_task_stats]:
<<
    if isinstance(task['due_date'], str):
        due_date = datetime.fromisoformat(task['due_date']).date()
    else:
        due_date = task['due_date']
>> *)
Definition read_due_date (task : doc) : result value :=
  v ← py_item task "due_date";
  match v with
  | VStr s =>
      match fromisoformat_date s with
      | Some d => Ok (VDate d)
      | None => Raise ValueError
      end
  | _ => Ok v
  end.

(** [due_date < date.today()]: defined between dates only; a [datetime]
    does not compare with a [date]. *)
Definition lt_today (today : date) (v : value) : result bool :=
  match v with
  | VDate d => Ok (date_ltb d today)
  | _ => Raise TypeError
  end.

(** [isinstance(v, date)]; [datetime] is a subclass of [date]. *)
Definition isinstance_date (v : value) : bool :=
  match v with
  | VDate _ | VDateTime _ => true
  | _ => false
  end.

Definition value_isoformat (v : value) : value :=
  match v with
  | VDate d => VStr (isoformat d)
  | VDateTime t => VStr (datetime_isoformat t)
  | _ => v
  end.

Definition prepare_task_for_response (today : date) (task : doc) : result doc :=
  let task := setdefault "due_date" VNone task in
  let task := setdefault "priority" (VStr "medium") task in
  let task := setdefault "category" (VStr "General") task in
  is_overdue ←
    (if truthy (py_get task "due_date" VNone)
        && negb (truthy (py_get task "completed" (VBool false)))
     then due_date ← read_due_date task; lt_today today due_date
     else Ok false);
  let task := <["is_overdue" := VBool is_overdue]> task in
  if truthy (py_get task "due_date" VNone)
     && isinstance_date (py_get task "due_date" VNone)
  then Ok (<["due_date" := value_isoformat (py_get task "due_date" VNone)]> task)
  else Ok task.



(** ** Regular expressions of the store's [$regex] operator

    [server.py] hands the search string to the store as a pattern.  The
    model covers the patterns made of ordinary characters, the wildcard [.]
    and a backslash followed by a metacharacter; [compile] answers [None]
    for any other pattern (an invalid one, or one that uses operators that
    are not modelled).  A pattern is searched for anywhere in the subject. *)

Inductive atom :=
| Lit (c : ascii)
| AnyChar.

Definition is_meta (c : ascii) : bool :=
  existsb (Ascii.eqb c) (list_ascii_of_string "\^$.[]|()?*+{}").

Fixpoint compile (p : list ascii) : option (list atom) :=
  match p with
  | [] => Some []
  | c :: r =>
      if Ascii.eqb c "\" then
        match r with
        | c' :: r' => if is_meta c' then cons (Lit c') <$> compile r' else None
        | [] => None
        end
      else if Ascii.eqb c "." then cons AnyChar <$> compile r
      else if is_meta c then None
      else cons (Lit c) <$> compile r
  end.

(** Case folding of the option [i], on the letters A to Z. *)
Definition lower (c : ascii) : ascii :=
  let n := N_of_ascii c in
  if ((65 <=? n) && (n <=? 90))%N then ascii_of_N (n + 32) else c.

Definition atom_matches (ci : bool) (a : atom) (c : ascii) : bool :=
  match a with
  | Lit x => if ci then Ascii.eqb (lower x) (lower c) else Ascii.eqb x c
  | AnyChar => negb (Ascii.eqb c "010")
  end.

Fixpoint match_here (ci : bool) (atoms : list atom) (s : list ascii) : bool :=
  match atoms, s with
  | [], _ => true
  | _ :: _, [] => false
  | a :: atoms', c :: s' => atom_matches ci a c && match_here ci atoms' s'
  end.

Fixpoint search_from (ci : bool) (atoms : list atom) (s : list ascii) : bool :=
  match_here ci atoms s ||
  match s with
  | [] => false
  | _ :: s' => search_from ci atoms s'
  end.

(** Of the options only [i] is interpreted. *)
Definition regex_search (pattern options subject : string) : option bool :=
  atoms ← compile (list_ascii_of_string pattern);
  Some (search_from (existsb (Ascii.eqb "i") (list_ascii_of_string options))
          atoms (list_ascii_of_string subject)).

(** ** The document store

    A collection is the list of its documents in insertion order; the
    [_id] that the store gives each document is left out.  A filter is a
    conjunction of clauses: a field equal to a value, a field matching
    a pattern, or a disjunction of clauses ([$or]). *)

Record store := mkStore { users : list doc; tasks : list doc }.

#[warning="-register-all"]
Inductive clause :=
| FieldEq (k : string) (v : value)
| FieldRegex (k : string) (pattern options : string)
| Or (cs : list clause).

Abbreviation query := (list clause).

(** Patterns are compiled when the query is received. *)
Fixpoint clause_ok (c : clause) : bool :=
  match c with
  | FieldEq _ _ => true
  | FieldRegex _ p _ => bool_decide (is_Some (compile (list_ascii_of_string p)))
  | Or cs => forallb clause_ok cs
  end.

(** A missing field equals [null]; a pattern matches string fields only. *)
Fixpoint matches_clause (d : doc) (c : clause) : bool :=
  match c with
  | FieldEq k v => bool_decide (default VNone (d !! k) = v)
  | FieldRegex k p o =>
      match d !! k with
      | Some (VStr s) => default false (regex_search p o s)
      | _ => false
      end
  | Or cs => existsb (matches_clause d) cs
  end.

Definition matches (q : query) (d : doc) : bool := forallb (matches_clause d) q.

(** [collection.find(q)] *)
Definition find (q : query) (coll : list doc) : result (list doc) :=
  if forallb clause_ok q then Ok (List.filter (matches q) coll)
  else Raise OperationFailure.

(** [collection.find_one(q)]: the first match, or [None]. *)
Definition find_one (q : query) (coll : list doc) : result (option doc) :=
  l ← find q coll; Ok (head l).

(** [collection.update_one(q, {"$set": upd})]: the first match gets the
    fields of [upd]. *)
Fixpoint set_first (q : query) (upd : doc) (coll : list doc) : list doc :=
  match coll with
  | [] => []
  | d :: coll' =>
      if matches q d then (upd ∪ d) :: coll' else d :: set_first q upd coll'
  end.

Definition update_one (q : query) (upd : doc) (coll : list doc)
  : result (list doc) :=
  if forallb clause_ok q then Ok (set_first q upd coll)
  else Raise OperationFailure.

(** [collection.delete_one(q)]: the list without its first match, and
    [deleted_count]. *)
Fixpoint delete_first (q : query) (coll : list doc) : list doc * Z :=
  match coll with
  | [] => ([], 0)
  | d :: coll' =>
      if matches q d then (coll', 1)
      else let '(r, n) := delete_first q coll' in (d :: r, n)
  end.

(** [cursor.to_list(n)] *)
Definition to_list (n : nat) (l : list doc) : list doc := take n l.


(** ** Sorting

    The store orders values by type first (null and missing fields, then
    numbers, strings, booleans, dates) and inside a type by value.  A date
    without a time is not a value the store can hold; it is ranked last so
    that the order is total. *)

Definition sort_key (v : value) : Z * Z * string :=
  match v with
  | VNone => (0, 0, "")
  | VInt n => (1, n, "")
  | VStr s => (2, 0, s)
  | VBool b => (3, if b then 1 else 0, "")
  | VDateTime t => (4, t, "")
  | VDate d => (5, (year d * 100 + month d) * 100 + day d, "")
  end.

Definition lex (c1 c2 : comparison) : comparison :=
  match c1 with
  | Eq => c2
  | _ => c1
  end.

Definition bson_compare (a b : value) : comparison :=
  let '(r1, n1, s1) := sort_key a in
  let '(r2, n2, s2) := sort_key b in
  lex (r1 ?= r2) (lex (n1 ?= n2) (String.compare s1 s2)).

(** A sort specification lists fields with a direction, [1] ascending and
    [-1] descending, the first field being the most significant. *)
Fixpoint doc_compare (spec : list (string * Z)) (a b : doc) : comparison :=
  match spec with
  | [] => Eq
  | (k, dir) :: spec' =>
      let c := bson_compare (default VNone (a !! k)) (default VNone (b !! k)) in
      lex (if dir =? 1 then c else CompOpp c) (doc_compare spec' a b)
  end.

Definition doc_leb (spec : list (string * Z)) (a b : doc) : bool :=
  match doc_compare spec a b with
  | Gt => false
  | _ => true
  end.

(** [a] may come before [b] in a result sorted by [spec]. *)
Definition doc_le (spec : list (string * Z)) (a b : doc) : Prop :=
  doc_leb spec a b = true.

Global Instance doc_le_dec (spec : list (string * Z)) (a b : doc) :
  Decision (doc_le spec a b) := decide (doc_leb spec a b = true).

(** The sort of the store is modelled by a merge sort; the store promises
    an ordered result, and no order among documents whose keys are all
    equal. *)
Definition sort_docs (spec : list (string * Z)) (l : list doc) : list doc :=
  merge_sort (doc_le spec) l.

(** The [$switch] of the priority pipeline, and its [$addFields] stage. *)
Definition priority_order (v : value) : Z :=
  if bool_decide (v = VStr "high") then 3
  else if bool_decide (v = VStr "medium") then 2
  else if bool_decide (v = VStr "low") then 1
  else 0.

Definition add_priority_order (d : doc) : doc :=
  <["priority_order" := VInt (priority_order (default VNone (d !! "priority")))]> d.

(** ** Tokens

    [jwt.encode] signs a payload with a key; a datetime [exp] becomes a
    number.  [jwt.decode] checks the signature and then the expiry against
    the clock.  A token is modelled by what it was made from; any other
    string is [Garbage]. *)

Inductive token :=
| Signed (key : string) (payload : doc)
| Garbage (s : string).

Definition jwt_encode (payload : doc) (key : string) : token :=
  Signed key
    match payload !! "exp" with
    | Some (VDateTime t) => <["exp" := VInt t]> payload
    | _ => payload
    end.

Definition jwt_decode (now : Z) (tok : token) (key : string) : result doc :=
  match tok with
  | Garbage _ => Raise InvalidTokenError
  | Signed k payload =>
      if negb (String.eqb k key) then Raise InvalidTokenError
      else match payload !! "exp" with
           | None => Ok payload
           | Some (VInt exp) =>
               if exp <=? now then Raise ExpiredSignatureError else Ok payload
           | Some _ => Raise InvalidTokenError
           end
  end.

Definition ACCESS_TOKEN_EXPIRE_MINUTES : Z := 30.


(** ** Request models *)

Inductive priority_literal := low | medium | high.

Definition priority_str (p : priority_literal) : string :=
  match p with
  | low => "low"
  | medium => "medium"
  | high => "high"
  end.

Module UserCreate.
Record t := mk { email : string; name : string; password : string }.
End UserCreate.

Module UserLogin.
Record t := mk { email : string; password : string }.
End UserLogin.

Module TaskCreate.
Record t := mk {
  title : string;
  description : option string;
  due_date : option date;
  priority : priority_literal;
  category : option string;
  completed : bool }.
End TaskCreate.

Module TaskUpdate.
Record t := mk {
  title : option string;
  description : option string;
  due_date : option date;
  priority : option priority_literal;
  category : option string;
  completed : option bool }.
End TaskUpdate.

Module Token.
Record t := mk { access_token : token; token_type : string; user : doc }.
End Token.

Module TaskStats.
Record t := mk {
  total : Z;
  completed : Z;
  pending : Z;
  overdue : Z;
  high_priority : Z;
  categories : list (value * Z * string) }.
End TaskStats.

(** ** Response models

    The constructors [UserResponse] and [TaskResponse] check the declared
    fields against their declared types and raise [ValidationError] when a
    required field is missing or holds a value of another type; fields
    that are not declared are ignored.  The model answers the dictionary it
    was given when every declared field holds a value of its declared type:
    a string, a boolean, a datetime, and for [due_date] null, a date or a
    string [YYYY-MM-DD].  Values of another type that the library would
    convert to the declared one are refused by the model. *)

Definition is_str (v : value) : bool :=
  match v with VStr _ => true | _ => false end.

Definition is_bool (v : value) : bool :=
  match v with VBool _ => true | _ => false end.

Definition is_datetime (v : value) : bool :=
  match v with VDateTime _ => true | _ => false end.

Definition is_optional_date (v : value) : bool :=
  match v with
  | VNone | VDate _ => true
  | VStr s =>
      (String.length s =? 10)%nat && bool_decide (is_Some (fromisoformat_date s))
  | _ => false
  end.

(** The field [k] of [d] is present and holds a value that passes [p]. *)
Definition field (d : doc) (k : string) (p : value → bool) : bool :=
  match d !! k with
  | Some v => p v
  | None => false
  end.

Definition UserResponse (d : doc) : result doc :=
  if field d "id" is_str && field d "email" is_str && field d "name" is_str
     && field d "created_at" is_datetime
  then Ok d
  else Raise ValidationError.

Definition TaskResponse (d : doc) : result doc :=
  if field d "id" is_str && field d "title" is_str
     && field d "description" is_str && field d "due_date" is_optional_date
     && field d "priority" is_str && field d "category" is_str
     && field d "completed" is_bool && field d "is_overdue" is_bool
     && field d "user_id" is_str && field d "created_at" is_datetime
     && field d "updated_at" is_datetime
  then Ok d
  else Raise ValidationError.

Definition opt_str (o : option string) : value :=
  match o with
  | Some s => VStr s
  | None => VNone
  end.

(** Truth value of an optional string ([if category:]) and of the result of
    [find_one] ([if existing_user:]): [None] and the empty string or
    document are false. *)
Definition nonempty (o : option string) : bool :=
  match o with
  | Some s => negb (String.eqb s "")
  | None => false
  end.

Definition found (o : option doc) : bool :=
  match o with
  | Some d => negb (bool_decide (d = ∅))
  | None => false
  end.

(** ** The server

    The signing key comes from the environment and the password hash from
    [bcrypt]; both are parameters.  What Python draws at run time is an
    argument of the handler: identifiers from [uuid4], salts, the clock
    and today's date. *)

Section Server.

Variable SECRET_KEY : string.
Variable bcrypt_hashpw : string → string → string.
Variable bcrypt_checkpw : string → string → result bool.

Definition hash_password (salt : string) (password : string) : string :=
  bcrypt_hashpw password salt.

Definition verify_password (plain_password : string) (hashed_password : value)
  : result bool :=
  match hashed_password with
  | VStr h => bcrypt_checkpw plain_password h
  | _ => Raise AttributeError
  end.

(** A [timedelta] is false when it is zero; [None] is false. *)
Definition create_access_token (now : Z) (data : doc) (expires_delta : option Z)
  : token :=
  let to_encode := data in
  let expire :=
    match expires_delta with
    | Some delta => if delta =? 0 then now + timedelta_minutes 15 else now + delta
    | None => now + timedelta_minutes 15
    end in
  let to_encode := <["exp" := VDateTime expire]> to_encode in
  jwt_encode to_encode SECRET_KEY.

Definition credentials_exception : exn :=
  HTTPException 401 "Could not validate credentials".

Definition get_current_user (now : Z) (credentials : option token) (db : store)
  : result doc :=
  match credentials with
  | None => Raise credentials_exception
  | Some tok =>
      match jwt_decode now tok SECRET_KEY with
      | Raise ExpiredSignatureError => Raise (HTTPException 401 "Token expired")
      | Raise InvalidTokenError => Raise credentials_exception
      | Raise e => Raise e
      | Ok payload =>
          match py_get payload "sub" VNone with
          | VNone => Raise credentials_exception
          | user_id =>
              user ← find_one [FieldEq "id" user_id] (users db);
              match user with
              | None => Raise credentials_exception
              | Some u => Ok u
              end
          end
      end
  end.

(** [now] is the clock when the user document is built, [now'] when the
    token is made. *)
Definition signup (uuid salt : string) (now now' : Z) (user_data : UserCreate.t)
    (db : store) : result Token.t * store :=
  match find_one [FieldEq "email" (VStr (UserCreate.email user_data))] (users db) with
  | Raise e => (Raise e, db)
  | Ok existing_user =>
      if found existing_user
      then (Raise (HTTPException 400 "Email already registered"), db)
      else
        let user_id := uuid in
        let hashed_password := hash_password salt (UserCreate.password user_data) in
        let user_doc : doc :=
          {[ "id" := VStr user_id;
             "email" := VStr (UserCreate.email user_data);
             "name" := VStr (UserCreate.name user_data);
             "password" := VStr hashed_password;
             "created_at" := VDateTime now ]} in
        let db := mkStore (users db ++ [user_doc]) (tasks db) in
        let access_token_expires := timedelta_minutes ACCESS_TOKEN_EXPIRE_MINUTES in
        let access_token :=
          create_access_token now' {[ "sub" := VStr user_id ]}
            (Some access_token_expires) in
        let user_response : doc :=
          {[ "id" := VStr user_id;
             "email" := VStr (UserCreate.email user_data);
             "name" := VStr (UserCreate.name user_data);
             "created_at" := VDateTime now ]} in
        (Ok (Token.mk access_token "bearer" user_response), db)
  end.

Definition login (now : Z) (login_data : UserLogin.t) (db : store)
  : result Token.t :=
  user ← find_one [FieldEq "email" (VStr (UserLogin.email login_data))] (users db);
  let unauthorized := HTTPException 401 "Incorrect email or password" in
  match user with
  | Some u =>
      if found user then
        hashed ← py_item u "password";
        ok ← verify_password (UserLogin.password login_data) hashed;
        if (ok : bool) then
          let access_token_expires :=
            timedelta_minutes ACCESS_TOKEN_EXPIRE_MINUTES in
          uid ← py_item u "id";
          let access_token :=
            create_access_token now {[ "sub" := uid ]}
              (Some access_token_expires) in
          email ← py_item u "email";
          name ← py_item u "name";
          created_at ← py_item u "created_at";
          user_response ←
            UserResponse {[ "id" := uid; "email" := email; "name" := name;
                            "created_at" := created_at ]};
          Ok (Token.mk access_token "bearer" user_response)
        else Raise unauthorized
      else Raise unauthorized
  | None => Raise unauthorized
  end.


(** *** Task routes

    A handler answers the dictionary from which it builds its
    [TaskResponse], when that constructor accepts it. *)

Definition create_task (uuid : string) (now : Z) (today : date)
    (task_data : TaskCreate.t) (current_user : doc) (db : store)
  : result doc * store :=
  match py_item current_user "id" with
  | Raise e => (Raise e, db)
  | Ok uid =>
      let task_id := uuid in
      let task_doc : doc :=
        {[ "id" := VStr task_id;
           "title" := VStr (TaskCreate.title task_data);
           "description" := opt_str (TaskCreate.description task_data);
           "due_date" :=
             match TaskCreate.due_date task_data with
             | Some d => VStr (isoformat d)
             | None => VNone
             end;
           "priority" := VStr (priority_str (TaskCreate.priority task_data));
           "category" :=
             (if nonempty (TaskCreate.category task_data)
              then opt_str (TaskCreate.category task_data)
              else VStr "General");
           "completed" := VBool (TaskCreate.completed task_data);
           "user_id" := uid;
           "created_at" := VDateTime now;
           "updated_at" := VDateTime now ]} in
      let db := mkStore (users db) (tasks db ++ [task_doc]) in
      (response_task ← prepare_task_for_response today task_doc;
       TaskResponse response_task, db)
  end.

(** The block [# Build query filter] of [get_tasks]. *)
Definition build_query (uid : value) (completed : option bool)
    (search category priority : option string) : query :=
  let query := [FieldEq "user_id" uid] in
  let query :=
    match completed with
    | Some b => (query ++ [FieldEq "completed" (VBool b)])%list
    | None => query
    end in
  let query :=
    if nonempty category
    then (query ++ [FieldEq "category" (opt_str category)])%list
    else query in
  let query :=
    if nonempty priority
    then (query ++ [FieldEq "priority" (opt_str priority)])%list
    else query in
  match search with
  | Some s =>
      if nonempty search
      then (query ++ [Or [FieldRegex "title" s "i";
                          FieldRegex "description" s "i";
                          FieldRegex "category" s "i"]])%list
      else query
  | None => query
  end.

(** The patterns of the two [Query(..., regex=...)] declarations. *)
Definition sort_by_ok (s : string) : bool :=
  bool_decide (s ∈ ["created_at"; "title"; "due_date"; "priority"]).

Definition sort_order_ok (s : string) : bool :=
  bool_decide (s ∈ ["asc"; "desc"]).

Definition get_tasks (today : date) (completed : option bool)
    (search category priority : option string) (sort_by sort_order : string)
    (current_user : doc) (db : store) : result (list doc) :=
  if negb (sort_by_ok sort_by && sort_order_ok sort_order)
  then Raise (HTTPException 422 "string does not match regex")
  else
    uid ← py_item current_user "id";
    let query := build_query uid completed search category priority in
    let sort_direction := if String.eqb sort_order "asc" then 1 else -1 in
    let sort_field :=
      if String.eqb sort_by "" then "default_field_name" else sort_by in
    tasks ←
      (if String.eqb sort_by "priority" then
         matched ← find query (tasks db);
         Ok (to_list 1000
               (sort_docs [("priority_order", sort_direction); ("created_at", -1)]
                  (add_priority_order <$> matched)))
       else
         matched ← find query (tasks db);
         Ok (to_list 1000 (sort_docs [(sort_field, sort_direction)] matched)));
    mapM_result
      (fun task =>
         response_task ← prepare_task_for_response today task;
         TaskResponse response_task)
      tasks.

(** [categories[category] += 1], or [= 1] for a new key; keys keep the
    order in which they were first seen. *)
Fixpoint count_category (category : value) (categories : list (value * Z))
  : list (value * Z) :=
  match categories with
  | [] => [(category, 1)]
  | (k, n) :: rest =>
      if py_eqb k category then (k, n + 1) :: rest
      else (k, n) :: count_category category rest
  end.

Definition category_colors : list (string * string) :=
  [("General", "#6B7280"); ("Work", "#DC2626"); ("Personal", "#059669");
   ("Health", "#7C3AED"); ("Learning", "#EA580C"); ("Shopping", "#0891B2")].

Definition category_color (name : value) : string :=
  match name with
  | VStr s =>
      match List.find (fun p => String.eqb (fst p) s) category_colors with
      | Some p => snd p
      | None => "#6B7280"
      end
  | _ => "#6B7280"
  end.

(** The loop of [get_task_stats] over the tasks, on the three accumulators
    [overdue], [high_priority] and [categories]. *)
Fixpoint stats_loop (today : date) (tasks : list doc)
    (acc : Z * Z * list (value * Z)) : result (Z * Z * list (value * Z)) :=
  match tasks with
  | [] => Ok acc
  | task :: tasks' =>
      let '(overdue, high_priority, categories) := acc in
      let high_priority :=
        if py_eqb (py_get task "priority" VNone) (VStr "high")
        then high_priority + 1 else high_priority in
      overdue ←
        (if truthy (py_get task "due_date" VNone)
            && negb (truthy (py_get task "completed" (VBool false)))
         then
           due_date ← read_due_date task;
           b ← lt_today today due_date;
           Ok (if (b : bool) then overdue + 1 else overdue)
         else Ok overdue);
      let category := py_get task "category" (VStr "General") in
      stats_loop today tasks' (overdue, high_priority, count_category category categories)
  end.

Definition get_task_stats (today : date) (current_user : doc) (db : store)
  : result TaskStats.t :=
  uid ← py_item current_user "id";
  found_tasks ← find [FieldEq "user_id" uid] (tasks db);
  let tasks := to_list 1000 found_tasks in
  let total := Z.of_nat (length tasks) in
  let completed :=
    Z.of_nat (length (List.filter
                (fun t => truthy (py_get t "completed" (VBool false))) tasks)) in
  let pending := total - completed in
  '(overdue, high_priority, categories) ← stats_loop today tasks (0, 0, []);
  let categories_list :=
    (fun '(name, count) => (name, count, category_color name)) <$> categories in
  Ok (TaskStats.mk total completed pending overdue high_priority categories_list).


Definition not_found : exn := HTTPException 404 "Task not found".

Definition get_task (today : date) (task_id : string) (current_user : doc)
    (db : store) : result doc :=
  uid ← py_item current_user "id";
  task ← find_one [FieldEq "id" (VStr task_id); FieldEq "user_id" uid] (tasks db);
  match task with
  | Some t =>
      if found task then
        response_task ← prepare_task_for_response today t;
        TaskResponse response_task
      else Raise not_found
  | None => Raise not_found
  end.

(** The block [# Prepare update data] of [update_task]: one entry for each
    field of the request that is not [None]. *)
Definition update_data_of (task_update : TaskUpdate.t) : doc :=
  let update_data : doc := ∅ in
  let update_data :=
    match TaskUpdate.title task_update with
    | Some x => <["title" := VStr x]> update_data
    | None => update_data
    end in
  let update_data :=
    match TaskUpdate.description task_update with
    | Some x => <["description" := VStr x]> update_data
    | None => update_data
    end in
  let update_data :=
    match TaskUpdate.due_date task_update with
    | Some x => <["due_date" := VStr (isoformat x)]> update_data
    | None => update_data
    end in
  let update_data :=
    match TaskUpdate.priority task_update with
    | Some x => <["priority" := VStr (priority_str x)]> update_data
    | None => update_data
    end in
  let update_data :=
    match TaskUpdate.category task_update with
    | Some x => <["category" := VStr x]> update_data
    | None => update_data
    end in
  match TaskUpdate.completed task_update with
  | Some x => <["completed" := VBool x]> update_data
  | None => update_data
  end.

Definition update_task (now : Z) (today : date) (task_id : string)
    (task_update : TaskUpdate.t) (current_user : doc) (db : store)
  : result doc * store :=
  match py_item current_user "id" with
  | Raise e => (Raise e, db)
  | Ok uid =>
      let q := [FieldEq "id" (VStr task_id); FieldEq "user_id" uid] in
      match find_one q (tasks db) with
      | Raise e => (Raise e, db)
      | Ok existing_task =>
          if negb (found existing_task) then (Raise not_found, db)
          else
            let update_data := update_data_of task_update in
            let respond (db : store) : result doc * store :=
              match find_one q (tasks db) with
              | Raise e => (Raise e, db)
              | Ok None => (Raise not_found, db)
              | Ok (Some updated_task) =>
                  (response_task ← prepare_task_for_response today updated_task;
                   TaskResponse response_task, db)
              end in
            if negb (bool_decide (update_data = ∅)) then
              let update_data := <["updated_at" := VDateTime now]> update_data in
              match update_one q update_data (tasks db) with
              | Raise e => (Raise e, db)
              | Ok tasks' => respond (mkStore (users db) tasks')
              end
            else respond db
      end
  end.

Definition delete_task (task_id : string) (current_user : doc) (db : store)
  : result string * store :=
  match py_item current_user "id" with
  | Raise e => (Raise e, db)
  | Ok uid =>
      let q := [FieldEq "id" (VStr task_id); FieldEq "user_id" uid] in
      if forallb clause_ok q then
        let '(tasks', deleted_count) := delete_first q (tasks db) in
        if deleted_count =? 0 then (Raise not_found, db)
        else (Ok "Task deleted successfully", mkStore (users db) tasks')
      else (Raise OperationFailure, db)
  end.

End Server.

(** ** Vocabulary of the statements *)

(** *** The normalizer *)

(** The record after the three [setdefault] calls. *)
Definition backfilled (task : doc) : doc :=
  setdefault "category" (VStr "General")
    (setdefault "priority" (VStr "medium") (setdefault "due_date" VNone task)).

(** What the overdue test of the normalizer computes, as a function of the
    stored due date [dd] and of the truth value [c] of [completed]. *)
Definition overdue_of (today : date) (dd : value) (c : bool) : result bool :=
  if truthy dd && negb c then
    match dd with
    | VStr s =>
        match fromisoformat_date s with
        | Some d => Ok (date_ltb d today)
        | None => Raise ValueError
        end
    | VDate d => Ok (date_ltb d today)
    | _ => Raise TypeError
    end
  else Ok false.

(** The due date as it is served: a date or datetime in string form. *)
Definition canonical (dd : value) : value :=
  if truthy dd && isinstance_date dd then value_isoformat dd else dd.

(** The due date a record carries, if any: an ISO string or a date. *)
Definition due_date_of (task : doc) : option date :=
  match task !! "due_date" with
  | Some (VStr s) => fromisoformat_date s
  | Some (VDate d) => Some d
  | _ => None
  end.

Definition is_completed (task : doc) : bool :=
  truthy (py_get task "completed" (VBool false)).

(** The due date of a record is absent, null, or denotes a date. *)
Definition due_date_ok (task : doc) : Prop :=
  py_get task "due_date" VNone = VNone ∨ is_Some (due_date_of task).

(** Dates inside a record are dates Python could have built. *)
Definition dates_valid (task : doc) : Prop :=
  ∀ d, task !! "due_date" = Some (VDate d) → valid d = true.

(** A stored task that can be served: it has the fields that
    [TaskResponse] requires and the normalizer does not supply, with values
    of the declared types, and its due date, priority and category are
    absent or of the declared type (a due date also null, or a date). *)
Definition optional_field (d : doc) (k : string) (p : value → bool) : bool :=
  match d !! k with
  | Some v => p v
  | None => true
  end.

Definition stored_due_date_ok (v : value) : bool :=
  match v with
  | VNone => true
  | VStr s =>
      (String.length s =? 10)%nat && bool_decide (is_Some (fromisoformat_date s))
  | VDate d => valid d
  | _ => false
  end.

Definition complete_task (t : doc) : bool :=
  field t "id" is_str && field t "title" is_str
  && field t "description" is_str
  && optional_field t "due_date" stored_due_date_ok
  && optional_field t "priority" is_str && optional_field t "category" is_str
  && field t "completed" is_bool && field t "user_id" is_str
  && field t "created_at" is_datetime && field t "updated_at" is_datetime.

(** *** The store *)

(** No stored task carries the derived flag. *)
Definition flag_free (db : store) : Prop :=
  Forall (fun t : doc => t !! "is_overdue" = None) (tasks db).

(** A user with this email is in the store. *)
Definition registered (email : string) (db : store) : Prop :=
  ∃ u : doc, u ∈ users db ∧ u !! "email" = Some (VStr email).

(** The filter of the task routes that address one task, and the task it
    finds. *)
Definition task_filter (task_id : string) (uid : value) : query :=
  [FieldEq "id" (VStr task_id); FieldEq "user_id" uid].

Definition stored_task (task_id : string) (uid : value) (db : store)
  : option doc :=
  match find_one (task_filter task_id uid) (tasks db) with
  | Ok o => o
  | Raise _ => None
  end.

(** *** Partial update *)

(** The fields a partial update sets at time [now], the fields a request
    can name, and the request that supplies none. *)
Definition update_fields (now : Z) (task_update : TaskUpdate.t) : doc :=
  <["updated_at" := VDateTime now]> (update_data_of task_update).

Definition request_fields : list string :=
  ["title"; "description"; "due_date"; "priority"; "category"; "completed"].

Definition no_fields : TaskUpdate.t :=
  TaskUpdate.mk None None None None None None.

(** *** Statistics *)

(** The sum of the counts of a category table, in the loop and in the
    response. *)
Definition sum_counts (categories : list (value * Z)) : Z :=
  foldr (fun p acc => p.2 + acc) 0 categories.

Definition category_total (categories : list (value * Z * string)) : Z :=
  foldr (fun p acc => p.1.2 + acc) 0 categories.

(** *** Search *)

(** [needle] occurs in [hay] when letter case is ignored. *)
Definition ci_substring (needle hay : string) : Prop :=
  ∃ pre post : list ascii,
    lower <$> list_ascii_of_string hay
    = pre ++ (lower <$> list_ascii_of_string needle) ++ post.

(** The field [k] of a record is a string in which [needle] occurs. *)
Definition field_contains (d : doc) (k needle : string) : Prop :=
  ∃ s, d !! k = Some (VStr s) ∧ ci_substring needle s.

(** A string without any character that the pattern syntax reserves. *)
Definition plain (s : string) : bool :=
  forallb (fun c => negb (is_meta c)) (list_ascii_of_string s).

(** *** Order *)

(** A comparison function that is a total preorder: swapping the arguments
    mirrors the result, equal arguments compare alike, and each result is
    transitive. *)
Class TotalCmp {A : Type} (cmp : A → A → comparison) : Prop := {
  cmp_antisym : ∀ a b, cmp a b = CompOpp (cmp b a);
  cmp_eq_l : ∀ a b c, cmp a b = Eq → cmp a c = cmp b c;
  cmp_trans : ∀ a b c x, cmp a b = x → cmp b c = x → cmp a c = x }.

(** The ordinal and the creation time by which the priority pipeline sorts
    a task. *)
Definition ordinal (t : doc) : Z :=
  priority_order (default VNone (t !! "priority")).

Definition created_at (t : doc) : value := default VNone (t !! "created_at").

(** ** Sample data *)

Definition sample_task : doc :=
  {[ "title" := VStr "report"; "due_date" := VStr "2024-01-15";
     "completed" := VBool false ]}.

Definition legacy_task : doc :=
  {[ "title" := VStr "old"; "due_date" := VDate (mkDate 2024 1 15) ]}.

(** Stand-ins for the key and for [bcrypt] in the examples. *)
Definition sample_key : string := "k".

Definition sample_hashpw (password salt : string) : string := salt +:+ password.

Definition sample_checkpw (password hashed : string) : result bool :=
  Ok (String.eqb hashed ("s" +:+ password)).

Definition empty_store : store := mkStore [] [].

Definition alice : UserCreate.t := UserCreate.mk "a@x.com" "Alice" "pw".

Definition bob : doc := {[ "id" := VStr "u1"; "email" := VStr "b@x.com" ]}.

Definition bob_task : doc :=
  {[ "id" := VStr "t1"; "user_id" := VStr "u1"; "title" := VStr "a";
     "description" := VStr ""; "due_date" := VStr "2024-01-15";
     "priority" := VStr "low"; "category" := VStr "General";
     "completed" := VBool false;
     "created_at" := VDateTime 100; "updated_at" := VDateTime 100 ]}.

Definition bob_store : store := mkStore [bob] [bob_task].

Definition same_title : TaskUpdate.t :=
  TaskUpdate.mk (Some "a") None None None None None.

(** Three tasks of one user, of priority low, high and medium, created in
    this order. *)
Definition a_task (id priority : string) (created : Z) : doc :=
  {[ "id" := VStr id; "user_id" := VStr "u1"; "title" := VStr id;
     "description" := VStr ""; "due_date" := VNone;
     "priority" := VStr priority; "category" := VStr "General";
     "completed" := VBool false;
     "created_at" := VDateTime created; "updated_at" := VDateTime created ]}.

Definition three_tasks : store :=
  mkStore [bob] [a_task "t1" "low" 1; a_task "t2" "high" 2; a_task "t3" "medium" 3].

(** The priorities of a response, in order. *)
Definition priorities (resp : result (list doc)) : result (list value) :=
  match resp with
  | Ok l => Ok ((fun r : doc => default VNone (r !! "priority")) <$> l)
  | Raise e => Raise e
  end.

Definition bob_token : token :=
  create_access_token sample_key 1000 {[ "sub" := VStr "u1" ]}
    (Some (timedelta_minutes ACCESS_TOKEN_EXPIRE_MINUTES)).

(** ** Further routes

    [get_profile] and [get_categories] use neither the key nor [bcrypt]. *)

Definition get_profile (current_user : doc) : result doc :=
  id ← py_item current_user "id";
  email ← py_item current_user "email";
  name ← py_item current_user "name";
  created ← py_item current_user "created_at";
  UserResponse {[ "id" := id; "email" := email; "name" := name;
                  "created_at" := created ]}.

(** [a < b] between Python values: strings with strings, numbers (booleans
    are numbers) with numbers, datetimes with datetimes, dates with dates;
    any other pair raises [TypeError]. *)
Definition py_lt (a b : value) : result bool :=
  match a, b with
  | VStr s, VStr t =>
      Ok match String.compare s t with Lt => true | _ => false end
  | VInt n, VInt m => Ok (n <? m)
  | VInt n, VBool y => Ok (n <? (if y then 1 else 0))
  | VBool x, VInt m => Ok ((if x then 1 else 0) <? m)
  | VBool x, VBool y => Ok ((if x then 1 else 0) <? (if y then 1 else 0))
  | VDateTime t, VDateTime u => Ok (t <? u)
  | VDate d, VDate e => Ok (date_ltb d e)
  | _, _ => Raise TypeError
  end.

(** [sorted(l)], as a stable insertion sort that compares with [<] only:
    it raises as soon as it compares two values that do not compare. *)
Fixpoint py_insert (x : value) (l : list value) : result (list value) :=
  match l with
  | [] => Ok [x]
  | y :: l' =>
      b ← py_lt y x;
      if (b : bool) then r ← py_insert x l'; Ok (y :: r)
      else Ok (x :: y :: l')
  end.

Fixpoint py_sorted (l : list value) : result (list value) :=
  match l with
  | [] => Ok []
  | x :: l' => s ← py_sorted l'; py_insert x s
  end.

(** The [$group] stage of [get_categories]: one document for each distinct
    value of [category], a missing field counting as null. *)
Definition group_by_category (docs : list doc) : list doc :=
  (fun v : value => ({[ "_id" := v ]} : doc))
    <$> remove_dups ((fun d : doc => default VNone (d !! "category")) <$> docs).

Definition default_categories : list value :=
  [VStr "General"; VStr "Work"; VStr "Personal"; VStr "Health";
   VStr "Learning"; VStr "Shopping"].

(** The list comprehension [[result["_id"] for result in results if
    result["_id"]]]. *)
Fixpoint truthy_ids (results : list doc) : result (list value) :=
  match results with
  | [] => Ok []
  | r :: results' =>
      v ← py_item r "_id";
      rest ← truthy_ids results';
      Ok (if truthy v then v :: rest else rest)
  end.

(** The loop that appends the default categories that are not present. *)
Definition add_defaults (categories : list value) : list value :=
  fold_left
    (fun categories category =>
       if existsb (py_eqb category) categories then categories
       else categories ++ [category])
    default_categories categories.

Definition get_categories (current_user : doc) (db : store)
  : result (list value) :=
  uid ← py_item current_user "id";
  matched ← find [FieldEq "user_id" uid] (tasks db);
  let results := to_list 100 (sort_docs [("_id", 1)] (group_by_category matched)) in
  categories ← truthy_ids results;
  py_sorted (add_defaults categories).

(** ** Sample data of the further statements *)

Definition carol_task : doc :=
  {[ "id" := VStr "t9"; "user_id" := VStr "u2"; "title" := VStr "hers" ]}.

Definition shared_store : store := mkStore [bob] [carol_task; bob_task].

Definition new_task : TaskCreate.t :=
  TaskCreate.mk "n" (Some "") (Some (mkDate 2024 1 15)) low None false.


(** The identifiers of a response, in order. *)
Definition ids (resp : result (list doc)) : result (list value) :=
  match resp with
  | Ok l => Ok ((fun r : doc => default VNone (r !! "id")) <$> l)
  | Raise e => Raise e
  end.

(** The error of [login]. *)
Definition incorrect : exn := HTTPException 401 "Incorrect email or password".

(** The user document that [signup] stores and the user it answers with. *)
Definition user_doc_of (user_id hashed_password : string) (now : Z)
    (user_data : UserCreate.t) : doc :=
  {[ "id" := VStr user_id;
     "email" := VStr (UserCreate.email user_data);
     "name" := VStr (UserCreate.name user_data);
     "password" := VStr hashed_password;
     "created_at" := VDateTime now ]}.

Definition user_response_of (user_id : string) (now : Z)
    (user_data : UserCreate.t) : doc :=
  {[ "id" := VStr user_id;
     "email" := VStr (UserCreate.email user_data);
     "name" := VStr (UserCreate.name user_data);
     "created_at" := VDateTime now ]}.

(** The users have identifiers that are strings, no two of them the same. *)
Definition ids_unique (db : store) : Prop :=
  Forall (fun u : doc => ∃ s, u !! "id" = Some (VStr s)) (users db)
  ∧ ∀ u1 u2 : doc,
      u1 ∈ users db → u2 ∈ users db → u1 !! "id" = u2 !! "id" → u1 = u2.

Definition alice_doc : doc := user_doc_of "u1" "spw" 100 alice.

Definition alice_store : store := mkStore [alice_doc] [].

(** ** Vocabulary of the statistics *)

(** The tasks that [get_task_stats] counts: the first thousand that the
    filter on the user's identifier matches. *)
Definition counted (uid : value) (db : store) : list doc :=
  take 1000 (List.filter (matches [FieldEq "user_id" uid]) (tasks db)).

(** How many documents of a list satisfy a test. *)
Definition count (p : doc → bool) (l : list doc) : Z :=
  Z.of_nat (length (List.filter p l)).

(** A task is overdue on [today]: it has a due date before [today] and is
    not completed. *)
Definition overdue_on (today : date) (t : doc) : bool :=
  match due_date_of t with
  | Some d => negb (is_completed t) && date_ltb d today
  | None => false
  end.

Definition high_priority (t : doc) : bool :=
  bool_decide (t !! "priority" = Some (VStr "high")).

(** The task falls under the category [name] of the breakdown. *)
Definition has_category (name : value) (t : doc) : bool :=
  py_eqb name (py_get t "category" (VStr "General")).

(** The name of an entry of the breakdown. *)
Definition entry_name (e : value * Z * string) : value := e.1.1.

(** The sum of the counts of the entries whose key equals [c]. *)
Fixpoint tally (c : value) (categories : list (value * Z)) : Z :=
  match categories with
  | [] => 0
  | (k, n) :: rest => (if py_eqb k c then n else 0) + tally c rest
  end.

(** No two entries of the dictionary have equal keys. *)
Fixpoint keys_distinct (categories : list (value * Z)) : Prop :=
  match categories with
  | [] => True
  | (k, _) :: rest =>
      Forall (fun e : value * Z => py_eqb k e.1 = false) rest
      ∧ keys_distinct rest
  end.

(** ** Vocabulary of the category list *)

(** The category of a stored task is absent, null or a string. *)
Definition category_ok (t : doc) : Prop :=
  match default VNone (t !! "category") with
  | VNone | VStr _ => True
  | _ => False
  end.

(** The distinct categories of the tasks that the filter on the user's
    identifier matches, null standing for a task without category. *)
Definition categories_in_use (uid : value) (db : store) : list value :=
  remove_dups
    ((fun d : doc => default VNone (d !! "category"))
       <$> List.filter (matches [FieldEq "user_id" uid]) (tasks db)).

(** The order of strings: by code point, a prefix first. *)
Definition str_lt (a b : string) : Prop := String.compare a b = Lt.

Definition str_le (a b : string) : Prop := String.compare a b ≠ Gt.

Definition work_task : doc :=
  {[ "id" := VStr "t2"; "user_id" := VStr "u1"; "category" := VStr "Errands" ]}.

Definition errands_store : store := mkStore [bob] [work_task; bob_task].

(** ** Vocabulary of the task identifiers *)

(** The identifiers of the stored tasks, in order; no two tasks share one. *)
Definition task_ids (db : store) : list (option value) :=
  (fun t : doc => t !! "id") <$> tasks db.

Definition task_ids_unique (db : store) : Prop := NoDup (task_ids db).

(** No two users share an email. *)
Definition emails_unique (db : store) : Prop :=
  NoDup ((fun u : doc => u !! "email") <$> users db).

(** ** Strings that are no date

    An ISO date starts with the digits of its year: a string that starts
    with a letter is refused by [datetime.fromisoformat] with
    [ValueError]. *)
Definition is_letter (c : ascii) : bool :=
  let n := Z.of_N (N_of_ascii c) in
  ((65 <=? n) && (n <=? 90)) || ((97 <=? n) && (n <=? 122)).

Definition starts_with_letter (s : string) : bool :=
  match s with
  | String c _ => is_letter c
  | EmptyString => false
  end.

(** * Calendar dates *)

Example isoformat_ex : isoformat (mkDate 2024 1 15) = "2024-01-15".
Proof. reflexivity. Qed.

Example fromisoformat_ex :
  fromisoformat_date "2024-02-29" = Some (mkDate 2024 2 29)
  ∧ fromisoformat_date "2023-02-29" = None
  ∧ fromisoformat_date "2024-01-15T10:30:00" = Some (mkDate 2024 1 15)
  ∧ fromisoformat_date "" = None.
Proof. repeat split; reflexivity. Qed.

Lemma digit_val_digit (n : Z) : digit_val (digit n) = Some (n mod 10).
Proof.
  unfold digit_val, digit.
  assert (H : 0 ≤ n mod 10 < 10) by (apply Z.mod_pos_bound; lia).
  rewrite N_ascii_embedding by lia. rewrite Z2N.id by lia.
  destruct (48 <=? 48 + n mod 10) eqn:E1; [| apply Z.leb_gt in E1; lia].
  destruct (48 + n mod 10 <=? 57) eqn:E2; [| apply Z.leb_gt in E2; lia].
  cbn [andb]. f_equal. lia.
Qed.

Lemma num2_pad (n : Z) :
  0 ≤ n < 100 → num2 (digit (n / 10)) (digit n) = Some n.
Proof.
  intros H. unfold num2. rewrite !digit_val_digit. cbn [mbind option_bind].
  f_equal. Z.div_mod_to_equations. lia.
Qed.

Lemma num4_pad (n : Z) :
  0 ≤ n < 10000 →
  num4 (digit (n / 1000)) (digit (n / 100)) (digit (n / 10)) (digit n) = Some n.
Proof.
  intros H. unfold num4, num2. rewrite !digit_val_digit.
  cbn [mbind option_bind]. f_equal.
  Z.div_mod_to_equations. lia.
Qed.

(** Reading back what [isoformat] wrote gives the date again. *)
Lemma fromisoformat_isoformat (d : date) :
  valid d = true → fromisoformat_date (isoformat d) = Some d.
Proof.
  intros Hv. pose proof Hv as Hv'. unfold valid in Hv'.
  repeat (apply andb_prop in Hv' as [Hv' ?]).
  repeat match goal with
         | H : (_ <=? _) = true |- _ => apply Z.leb_le in H
         end.
  assert (day d ≤ 31).
  { unfold days_in_month in *.
    destruct (month d) as [|p|p]; try lia.
    destruct (is_leap _);
      repeat (destruct p as [p|p|]; try lia). }
  unfold isoformat, pad4, pad2, fromisoformat_date.
  rewrite num4_pad by lia. rewrite !num2_pad by lia.
  cbn [mbind option_bind]. destruct d as [y m dd]; cbn [year month day] in *.
  rewrite Hv. reflexivity.
Qed.

Example datetime_isoformat_ex :
  datetime_isoformat 0 = "1970-01-01T00:00:00"
  ∧ datetime_isoformat 1700000000 = "2023-11-14T22:13:20"
  ∧ datetime_isoformat 951782400 = "2000-02-29T00:00:00".
Proof. repeat split; reflexivity. Qed.

(** * Properties of the normalizer *)

Lemma lookup_setdefault (k k' : string) (v : value) (d : doc) :
  setdefault k v d !! k' =
  if decide (k = k') then Some (default v (d !! k)) else d !! k'.
Proof.
  unfold setdefault. destruct (d !! k) eqn:E.
  - case_decide; subst; [rewrite E|]; reflexivity.
  - rewrite lookup_insert. case_decide; reflexivity.
Qed.

Lemma setdefault_present (k : string) (v : value) (d : doc) :
  is_Some (d !! k) → setdefault k v d = d.
Proof. intros [x Hx]. unfold setdefault. rewrite Hx. reflexivity. Qed.

Lemma backfilled_due_date (task : doc) :
  backfilled task !! "due_date" = Some (py_get task "due_date" VNone).
Proof. unfold backfilled. rewrite !lookup_setdefault. reflexivity. Qed.

Lemma backfilled_completed (task : doc) :
  backfilled task !! "completed" = task !! "completed".
Proof. unfold backfilled. rewrite !lookup_setdefault. reflexivity. Qed.

Lemma prepare_unfold (today : date) (task : doc) :
  prepare_task_for_response today task =
  b ← overdue_of today (py_get task "due_date" VNone)
        (truthy (py_get task "completed" (VBool false)));
  Ok (<["due_date" := canonical (py_get task "due_date" VNone)]>
        (<["is_overdue" := VBool b]> (backfilled task))).
Proof.
  unfold prepare_task_for_response. cbv zeta. fold (backfilled task).
  assert (Hdd : ∀ x, py_get (backfilled task) "due_date" x = py_get task "due_date" VNone).
  { intros x. unfold py_get at 1. rewrite backfilled_due_date. reflexivity. }
  assert (Hcc : ∀ x, py_get (backfilled task) "completed" x = py_get task "completed" x).
  { intros x. unfold py_get. rewrite backfilled_completed. reflexivity. }
  rewrite Hdd, Hcc.
  set (dd := py_get task "due_date" VNone).
  set (c := truthy (py_get task "completed" (VBool false))).
  assert (Htail : ∀ b,
    (if truthy (py_get (<["is_overdue" := VBool b]> (backfilled task)) "due_date" VNone)
        && isinstance_date
             (py_get (<["is_overdue" := VBool b]> (backfilled task)) "due_date" VNone)
     then Ok (<["due_date" := value_isoformat
                 (py_get (<["is_overdue" := VBool b]> (backfilled task))
                    "due_date" VNone)]>
                (<["is_overdue" := VBool b]> (backfilled task)))
     else Ok (<["is_overdue" := VBool b]> (backfilled task)))
    = Ok (<["due_date" := canonical dd]>
            (<["is_overdue" := VBool b]> (backfilled task)))).
  { intros b.
    assert (Hl : <["is_overdue" := VBool b]> (backfilled task) !! "due_date"
                 = Some dd).
    { rewrite lookup_insert_ne by done. apply backfilled_due_date. }
    unfold py_get at 1 2 3. rewrite Hl. change (default VNone (Some dd)) with dd.
    unfold canonical.
    destruct (truthy dd && isinstance_date dd); [reflexivity|].
    rewrite (insert_id _ "due_date" dd) by exact Hl. reflexivity. }
  assert (Hrd : read_due_date (backfilled task) =
                match dd with
                | VStr s => match fromisoformat_date s with
                            | Some d => Ok (VDate d)
                            | None => Raise ValueError
                            end
                | _ => Ok dd
                end).
  { unfold read_due_date, py_item. rewrite backfilled_due_date. reflexivity. }
  unfold overdue_of. rewrite Hrd.
  destruct (truthy dd && negb c).
  - destruct dd as [| | |s|d|t]; cbn; try reflexivity; try apply Htail.
    destruct (fromisoformat_date s); cbn; [apply Htail | reflexivity].
  - apply Htail.
Qed.

Lemma backfilled_id (task : doc) :
  is_Some (task !! "due_date") → is_Some (task !! "priority") →
  is_Some (task !! "category") → backfilled task = task.
Proof.
  intros H1 H2 H3. unfold backfilled.
  rewrite (setdefault_present "due_date") by done.
  rewrite (setdefault_present "priority") by done.
  apply setdefault_present. done.
Qed.

Lemma canonical_nondate (dd : value) :
  isinstance_date dd = false → canonical dd = dd.
Proof. intros H. unfold canonical. rewrite H, andb_false_r. reflexivity. Qed.

Lemma canonical_not_date (dd : value) : isinstance_date (canonical dd) = false.
Proof.
  unfold canonical.
  destruct dd as [|b|n|s|d|t]; cbn; rewrite ?andb_false_r; reflexivity.
Qed.

Lemma canonical_idem (dd : value) : canonical (canonical dd) = canonical dd.
Proof. apply canonical_nondate, canonical_not_date. Qed.

Lemma overdue_of_canonical (today : date) (dd : value) (c b : bool) :
  (∀ d, dd = VDate d → valid d = true) →
  overdue_of today dd c = Ok b →
  overdue_of today (canonical dd) c = Ok b.
Proof.
  intros Hv H.
  destruct dd as [| | |s|d|t];
    try (rewrite canonical_nondate by reflexivity; exact H).
  - change (canonical (VDate d)) with (VStr (isoformat d)).
    unfold overdue_of in *.
    change (truthy (VStr (isoformat d))) with true.
    change (truthy (VDate d)) with true in H.
    destruct c; cbn [andb negb] in *; [exact H|].
    rewrite fromisoformat_isoformat by (apply Hv; reflexivity). exact H.
  - change (canonical (VDateTime t)) with (VStr (datetime_isoformat t)).
    unfold overdue_of in *.
    change (truthy (VStr (datetime_isoformat t))) with true.
    change (truthy (VDateTime t)) with true in H.
    destruct c; cbn [andb negb] in *; [exact H | discriminate].
Qed.

(** The flag of a served record, read off the stored one. *)
Lemma overdue_of_spec (today : date) (task : doc) (b : bool) :
  overdue_of today (py_get task "due_date" VNone) (is_completed task) = Ok b →
  (b = true ↔
   ∃ d, due_date_of task = Some d ∧ is_completed task = false
        ∧ date_ltb d today = true).
Proof.
  unfold overdue_of, due_date_of, py_get.
  destruct (task !! "due_date") as [[|b0|n|s|d|t]|] eqn:E; cbn;
    destruct (is_completed task) eqn:Ec; cbn; rewrite ?andb_false_r;
    intros H; try discriminate;
    try (injection H as <-; split; [discriminate | intros (d' & ? & ? & ?); congruence]).
  - destruct b0; cbn in H; [discriminate|]. injection H as <-.
    split; [discriminate | intros (d' & ? & _); discriminate].
  - destruct (negb (n =? 0)); cbn in H; [discriminate|]. injection H as <-.
    split; [discriminate | intros (d' & ? & _); discriminate].
  - destruct (negb (String.eqb s "")) eqn:Es; cbn in H.
    + destruct (fromisoformat_date s) as [d|] eqn:Ep; [|discriminate].
      injection H as <-. split.
      * intros Hb. exists d. auto.
      * intros (d' & Hd & _ & Hlt). congruence.
    + injection H as <-. split; [discriminate|].
      intros (d' & Hd & _). apply negb_false_iff, String.eqb_eq in Es. subst s.
      discriminate.
  - injection H as <-. split.
    + intros Hb. exists d. auto.
    + intros (d' & Hd & _ & Hlt). congruence.
Qed.

(** The fields of a served record. *)
Lemma prepare_fields (today : date) (task r : doc) :
  prepare_task_for_response today task = Ok r →
  r !! "due_date" = Some (canonical (py_get task "due_date" VNone))
  ∧ r !! "priority" = Some (py_get task "priority" (VStr "medium"))
  ∧ r !! "category" = Some (py_get task "category" (VStr "General"))
  ∧ r !! "completed" = task !! "completed"
  ∧ ∃ b, r !! "is_overdue" = Some (VBool b)
         ∧ overdue_of today (py_get task "due_date" VNone) (is_completed task)
           = Ok b.
Proof.
  rewrite prepare_unfold. fold (is_completed task).
  destruct (overdue_of _ _ _) as [b|e] eqn:Hb; [|discriminate].
  cbn. intros [= <-]. repeat split.
  - apply lookup_insert_eq.
  - rewrite !lookup_insert_ne by done. unfold backfilled.
    rewrite !lookup_setdefault. reflexivity.
  - rewrite !lookup_insert_ne by done. unfold backfilled.
    rewrite !lookup_setdefault. reflexivity.
  - rewrite !lookup_insert_ne by done. apply backfilled_completed.
  - exists b. split; [|reflexivity].
    rewrite lookup_insert_ne by done. apply lookup_insert_eq.
Qed.

Lemma prepare_fixpoint (today : date) (task r : doc) :
  dates_valid task →
  prepare_task_for_response today task = Ok r →
  prepare_task_for_response today r = Ok r.
Proof.
  intros Hv Hr.
  destruct (prepare_fields _ _ _ Hr) as (Hdd & Hp & Hc & Hcomp & b & Hf & Hb).
  rewrite prepare_unfold.
  unfold py_get at 1 2 3. rewrite Hdd, Hcomp. cbn [default from_option id].
  change (default VNone (Some ?x)) with x.
  fold (py_get task "completed" (VBool false)). fold (is_completed task).
  rewrite (overdue_of_canonical _ _ _ b) by (try exact Hb; intros d Hd; apply Hv;
    unfold py_get in Hd; destruct (task !! "due_date"); cbn in Hd; congruence).
  cbn. rewrite canonical_idem. f_equal.
  rewrite backfilled_id by (rewrite ?Hdd, ?Hp, ?Hc; eauto).
  rewrite (insert_id r "is_overdue") by exact Hf.
  apply insert_id. exact Hdd.
Qed.

(** A record whose due date is absent, null or a date is served. *)
Lemma prepare_total (today : date) (task : doc) :
  due_date_ok task → ∃ r, prepare_task_for_response today task = Ok r.
Proof.
  intros Hdd. rewrite prepare_unfold. fold (is_completed task).
  assert (∃ b, overdue_of today (py_get task "due_date" VNone)
                 (is_completed task) = Ok b) as [b ->]; [|eexists; reflexivity].
  unfold overdue_of. destruct Hdd as [-> | [d Hd]]; [by eexists|].
  unfold due_date_of, py_get in *.
  destruct (task !! "due_date") as [[| | |s|d'|t]|]; try discriminate; cbn.
  - rewrite Hd. destruct (_ && _); eexists; reflexivity.
  - destruct (negb _); eexists; reflexivity.
Qed.

Lemma prepare_other_fields (today : date) (task r : doc) (k : string) :
  prepare_task_for_response today task = Ok r →
  k ∉ ["due_date"; "priority"; "category"; "is_overdue"] →
  r !! k = task !! k.
Proof.
  rewrite prepare_unfold.
  destruct (overdue_of _ _ _) as [b|]; [|discriminate].
  cbn. intros [= <-] Hk.
  assert (k ≠ "due_date" ∧ k ≠ "priority" ∧ k ≠ "category" ∧ k ≠ "is_overdue")
    as (H1 & H2 & H3 & H4).
  { repeat split; intros ->; apply Hk; repeat constructor. }
  rewrite !lookup_insert_ne by done. unfold backfilled.
  rewrite !lookup_setdefault. repeat case_decide; congruence.
Qed.

(** * The response models *)

Lemma TaskResponse_Ok (d r : doc) : TaskResponse d = Ok r → r = d.
Proof. unfold TaskResponse. destruct (_ && _); congruence. Qed.

Lemma UserResponse_Ok (d r : doc) : UserResponse d = Ok r → r = d.
Proof. unfold UserResponse. destruct (_ && _); congruence. Qed.

(** A served record is a normalized record that [TaskResponse] accepts. *)
Lemma serve_Ok (today : date) (t r : doc) :
  (response_task ← prepare_task_for_response today t;
   TaskResponse response_task) = Ok r →
  prepare_task_for_response today t = Ok r ∧ TaskResponse r = Ok r.
Proof.
  destruct (prepare_task_for_response today t) as [r'|]; [|discriminate].
  cbn [mbind result_bind]. intros H.
  pose proof (TaskResponse_Ok _ _ H) as ->. by split.
Qed.

Lemma field_true (d : doc) (k : string) (p : value → bool) :
  field d k p = true ↔ ∃ v, d !! k = Some v ∧ p v = true.
Proof.
  unfold field. destruct (d !! k) as [v|].
  - split; [by exists v | by intros (v' & [= <-] & H)].
  - split; [discriminate | by intros (v' & [=] & _)].
Qed.

Lemma length_isoformat (d : date) : String.length (isoformat d) = 10%nat.
Proof. reflexivity. Qed.

(** A complete stored task is served. *)
Lemma serve_complete (today : date) (t : doc) :
  complete_task t = true →
  ∃ r, (response_task ← prepare_task_for_response today t;
        TaskResponse response_task) = Ok r.
Proof.
  unfold complete_task. rewrite !andb_true_iff.
  intros (((((((((Hid & Hti) & Hde) & Hdd) & Hpr) & Hca) & Hco) & Hus) & Hcr) & Hup).
  assert (Hok : due_date_ok t).
  { unfold due_date_ok, due_date_of, py_get, optional_field in *.
    destruct (t !! "due_date") as [[| | |s|d|]|]; try discriminate;
      cbn in *; [by left| |right; by eexists|by left].
    apply andb_prop in Hdd as [_ Hdd]. apply bool_decide_eq_true in Hdd.
    by right. }
  destruct (prepare_total today t Hok) as [r Hr]. rewrite Hr.
  cbn [mbind result_bind]. exists r.
  destruct (prepare_fields _ _ _ Hr) as (Hrd & Hrp & Hrc & Hrco & b & Hrf & _).
  assert (Hother : ∀ k p,
            k ∉ ["due_date"; "priority"; "category"; "is_overdue"] →
            field t k p = true → field r k p = true).
  { intros k p Hk. unfold field. by rewrite (prepare_other_fields _ _ _ k Hr Hk). }
  assert (Hnot : ∀ k, k ≠ "due_date" → k ≠ "priority" → k ≠ "category" →
                      k ≠ "is_overdue" →
                      k ∉ ["due_date"; "priority"; "category"; "is_overdue"]).
  { intros k H1 H2 H3 H4 Hin. apply list_elem_of_In in Hin. cbn in Hin.
    intuition congruence. }
  unfold TaskResponse.
  rewrite (Hother "id"), (Hother "title"), (Hother "description"),
    (Hother "completed"), (Hother "user_id"), (Hother "created_at"),
    (Hother "updated_at") by (first [by apply Hnot | assumption]).
  assert (field r "is_overdue" is_bool = true) as ->
    by (unfold field; by rewrite Hrf).
  assert (field r "priority" is_str = true) as ->.
  { unfold field, optional_field, py_get in *. rewrite Hrp.
    by destruct (t !! "priority"). }
  assert (field r "category" is_str = true) as ->.
  { unfold field, optional_field, py_get in *. rewrite Hrc.
    by destruct (t !! "category"). }
  assert (field r "due_date" is_optional_date = true) as ->; [|reflexivity].
  unfold field, optional_field, py_get in *. rewrite Hrd.
  destruct (t !! "due_date") as [[| | |s|d|]|]; try discriminate;
    try reflexivity; cbn in Hdd.
  - rewrite canonical_nondate by reflexivity. exact Hdd.
  - change (canonical (default VNone (Some (VDate d))))
      with (VStr (isoformat d)).
    cbn [is_optional_date]. rewrite length_isoformat.
    rewrite fromisoformat_isoformat by exact Hdd.
    apply bool_decide_eq_true. by eexists.
Qed.

(** * The store under the task handlers *)

Lemma set_first_Forall (P : doc → Prop) (q : query) (upd : doc) (coll : list doc) :
  (∀ d, P d → P (upd ∪ d)) → Forall P coll → Forall P (set_first q upd coll).
Proof.
  intros Hupd. induction 1 as [|d coll Hd Hcoll IH]; cbn; [constructor|].
  destruct (matches q d); constructor; auto.
Qed.

Lemma delete_first_Forall (P : doc → Prop) (q : query) (coll : list doc) :
  Forall P coll → Forall P (delete_first q coll).1.
Proof.
  induction 1 as [|d coll Hd Hcoll IH]; cbn; [constructor|].
  destruct (matches q d); cbn; [assumption|].
  destruct (delete_first q coll) as [r n]. cbn in *. constructor; assumption.
Qed.

Lemma lookup_opt_insert {A : Type} (f : A → value) (o : option A)
    (k k' : string) (m : doc) :
  match o with Some x => <[k := f x]> m | None => m end !! k' =
  if decide (k = k') then
    match o with Some x => Some (f x) | None => m !! k' end
  else m !! k'.
Proof.
  destruct o; case_decide; subst;
    rewrite ?lookup_insert_eq, ?lookup_insert_ne by done; reflexivity.
Qed.

(** The entries of [update_data]: the six fields of the request, present
    exactly when supplied, and nothing else. *)
Lemma update_data_of_lookup (tu : TaskUpdate.t) :
  update_data_of tu !! "title" = VStr <$> TaskUpdate.title tu
  ∧ update_data_of tu !! "description" = VStr <$> TaskUpdate.description tu
  ∧ update_data_of tu !! "due_date"
    = (fun d => VStr (isoformat d)) <$> TaskUpdate.due_date tu
  ∧ update_data_of tu !! "priority"
    = (fun p => VStr (priority_str p)) <$> TaskUpdate.priority tu
  ∧ update_data_of tu !! "category" = VStr <$> TaskUpdate.category tu
  ∧ update_data_of tu !! "completed" = VBool <$> TaskUpdate.completed tu
  ∧ ∀ k, k ∉ ["title"; "description"; "due_date"; "priority"; "category";
               "completed"] → update_data_of tu !! k = None.
Proof.
  unfold update_data_of. cbv zeta.
  repeat apply conj; try intros k Hk;
    repeat first
      [ rewrite (lookup_opt_insert VStr)
      | rewrite (lookup_opt_insert VBool)
      | rewrite (lookup_opt_insert (fun d => VStr (isoformat d)))
      | rewrite (lookup_opt_insert (fun p => VStr (priority_str p))) ];
    repeat first
      [ rewrite decide_True by reflexivity
      | rewrite decide_False by discriminate
      | case_decide; [subst; exfalso; apply Hk; repeat constructor|] ];
    rewrite ?lookup_empty;
    try (match goal with |- context [match ?o with _ => _ end] => destruct o end);
    reflexivity.
Qed.

Lemma update_data_no_flag (now : Z) (tu : TaskUpdate.t) (d : doc) :
  d !! "is_overdue" = None →
  (<["updated_at" := VDateTime now]> (update_data_of tu) ∪ d) !! "is_overdue" = None.
Proof.
  intros Hd. apply lookup_union_None. split; [|exact Hd].
  rewrite lookup_insert_ne by done.
  apply (update_data_of_lookup tu).
  repeat (apply not_elem_of_cons; split; [discriminate|]). apply not_elem_of_nil.
Qed.

Lemma create_task_flag_free (uuid : string) (now : Z) (today : date)
    (task_data : TaskCreate.t) (current_user : doc) (db : store) :
  flag_free db → flag_free (create_task uuid now today task_data current_user db).2.
Proof.
  intros H. unfold create_task. destruct (py_item current_user "id"); [|exact H].
  unfold flag_free in *. cbn. apply Forall_app. split; [exact H|].
  constructor; [|constructor]. by simplify_map_eq.
Qed.

Lemma update_task_flag_free (now : Z) (today : date) (task_id : string)
    (task_update : TaskUpdate.t) (current_user : doc) (db : store) :
  flag_free db →
  flag_free (update_task now today task_id task_update current_user db).2.
Proof.
  intros H. unfold update_task.
  destruct (py_item current_user "id") as [uid|]; [|exact H].
  destruct (find_one _ (tasks db)) as [existing|]; [|exact H].
  destruct (negb (found existing)); [exact H|].
  assert (Hresp : ∀ db' : store, flag_free db' →
    flag_free (match find_one [FieldEq "id" (VStr task_id); FieldEq "user_id" uid]
                       (tasks db') with
               | Ok (Some updated_task) =>
                   (response_task ← prepare_task_for_response today updated_task;
                    TaskResponse response_task, db')
               | Ok None => (Raise not_found, db')
               | Raise e => (Raise e, db')
               end).2).
  { intros db' H'. destruct (find_one _ (tasks db')) as [[t|]|]; exact H'. }
  destruct (negb (bool_decide (update_data_of task_update = ∅)));
    [|destruct existing; exact H].
  unfold update_one. cbn [forallb clause_ok andb].
  apply Hresp. unfold flag_free. cbn [tasks].
  apply set_first_Forall; [|exact H].
  intros d. apply update_data_no_flag.
Qed.

Lemma delete_task_flag_free (task_id : string) (current_user : doc) (db : store) :
  flag_free db → flag_free (delete_task task_id current_user db).2.
Proof.
  intros H. unfold delete_task.
  destruct (py_item current_user "id") as [uid|]; [|exact H].
  cbn [forallb clause_ok andb].
  pose proof (delete_first_Forall _
    [FieldEq "id" (VStr task_id); FieldEq "user_id" uid] _ H) as Hd.
  destruct (delete_first _ (tasks db)) as [tasks' n]. cbn in Hd.
  destruct (n =? 0); [exact H | exact Hd].
Qed.

(** C1.  The flag of a served record is true exactly when the stored record
    carries a due date, is not completed, and that date is before today.  A
    record whose due date is absent, null or a date is always served.  The
    flag is computed when a record is read ([get_task] serves the normalized
    form of a stored record) and no handler that changes the tasks writes it
    to the store. *)
Theorem is_overdue_at_read_time (today : date) (task : doc) :
  (∀ r, prepare_task_for_response today task = Ok r →
     (r !! "is_overdue" = Some (VBool true) ↔
      ∃ d, due_date_of task = Some d ∧ is_completed task = false
           ∧ date_ltb d today = true))
  ∧ (due_date_ok task → ∃ r, prepare_task_for_response today task = Ok r)
  ∧ (∀ task_id current_user db r,
       get_task today task_id current_user db = Ok r →
       ∃ t, t ∈ tasks db ∧ prepare_task_for_response today t = Ok r)
  ∧ (∀ uuid now task_data current_user db,
       flag_free db →
       flag_free (create_task uuid now today task_data current_user db).2)
  ∧ (∀ now task_id task_update current_user db,
       flag_free db →
       flag_free (update_task now today task_id task_update current_user db).2)
  ∧ (∀ task_id current_user db,
       flag_free db → flag_free (delete_task task_id current_user db).2).
Proof.
  split; [|split; [|split; [|split; [|split]]]].
  - intros r Hr.
    destruct (prepare_fields _ _ _ Hr) as (_ & _ & _ & _ & b & Hf & Hb).
    rewrite Hf. rewrite <- (overdue_of_spec _ _ _ Hb).
    split; [intros [= ->]; reflexivity | intros ->; reflexivity].
  - apply prepare_total.
  - intros task_id current_user db r. unfold get_task.
    destruct (py_item current_user "id") as [uid|]; [|discriminate]. cbn.
    destruct (head _) as [t|] eqn:Ht; [|discriminate].
    destruct (found (Some t)); [|discriminate]. intros Hr.
    exists t. split; [|exact (proj1 (serve_Ok _ _ _ Hr))].
    apply head_Some_elem_of in Ht. apply list_elem_of_In in Ht.
    apply filter_In in Ht as [Ht _]. by apply list_elem_of_In.
  - intros. by apply create_task_flag_free.
  - intros. by apply update_task_flag_free.
  - intros. by apply delete_task_flag_free.
Qed.

Lemma is_overdue_at_read_time_witness :
  ∃ r, prepare_task_for_response (mkDate 2024 1 16) sample_task = Ok r
       ∧ r !! "is_overdue" = Some (VBool true).
Proof.
  destruct (is_overdue_at_read_time (mkDate 2024 1 16) sample_task)
    as (Hiff & Htot & _).
  destruct Htot as [r Hr].
  { right. exists (mkDate 2024 1 15). vm_compute. reflexivity. }
  exists r. split; [exact Hr|]. apply (Hiff r Hr).
  exists (mkDate 2024 1 15). repeat split; vm_compute; reflexivity.
Defined.

(** C5.  The normalizer is a function of the record and the current date,
    and normalizing a served record again changes nothing: running it twice
    gives what running it once gives, an exception included.  The served
    record has the stored due date in string form, the stored priority or
    [medium], the stored category or [General], and the flag. *)
Theorem normalizer_idempotent (today : date) (task : doc) :
  dates_valid task →
  (prepare_task_for_response today task ≫= prepare_task_for_response today
   = prepare_task_for_response today task)
  ∧ (∀ r, prepare_task_for_response today task = Ok r →
       prepare_task_for_response today r = Ok r
       ∧ r !! "due_date" = Some (canonical (py_get task "due_date" VNone))
       ∧ isinstance_date (canonical (py_get task "due_date" VNone)) = false
       ∧ r !! "priority" = Some (py_get task "priority" (VStr "medium"))
       ∧ r !! "category" = Some (py_get task "category" (VStr "General"))
       ∧ ∃ b, r !! "is_overdue" = Some (VBool b)).
Proof.
  intros Hv. split.
  - destruct (prepare_task_for_response today task) as [r|e] eqn:Hr;
      [|reflexivity].
    cbn. exact (prepare_fixpoint _ _ _ Hv Hr).
  - intros r Hr.
    destruct (prepare_fields _ _ _ Hr) as (Hdd & Hp & Hc & _ & b & Hf & _).
    split; [exact (prepare_fixpoint _ _ _ Hv Hr)|].
    split; [exact Hdd|]. split; [apply canonical_not_date|].
    split; [exact Hp|]. split; [exact Hc|]. by exists b.
Qed.

Lemma normalizer_idempotent_witness :
  dates_valid legacy_task
  ∧ prepare_task_for_response (mkDate 2024 1 16) legacy_task
      ≫= prepare_task_for_response (mkDate 2024 1 16)
    = prepare_task_for_response (mkDate 2024 1 16) legacy_task.
Proof.
  assert (Hv : dates_valid legacy_task).
  { intros d Hd. vm_compute in Hd. injection Hd as <-. reflexivity. }
  split; [exact Hv|].
  exact (proj1 (normalizer_idempotent (mkDate 2024 1 16) legacy_task Hv)).
Defined.

Example normalizer_legacy :
  (r ← prepare_task_for_response (mkDate 2024 1 16) legacy_task;
   Ok (r !! "due_date", r !! "priority", r !! "category", r !! "is_overdue"))
  = Ok (Some (VStr "2024-01-15"), Some (VStr "medium"), Some (VStr "General"),
        Some (VBool true)).
Proof. vm_compute. reflexivity. Qed.

(** * Tokens *)

Section Tokens.

Variable SECRET_KEY : string.

(** The token made from [data] at time [T]: signed with the server key, the
    expiry claim a number. *)
Lemma create_access_token_eq (T : Z) (data : doc) (expires_delta : option Z) :
  create_access_token SECRET_KEY T data expires_delta =
  Signed SECRET_KEY
    (<["exp" := VInt (T + match expires_delta with
                          | Some delta =>
                              if delta =? 0 then timedelta_minutes 15 else delta
                          | None => timedelta_minutes 15
                          end)]> data).
Proof.
  unfold create_access_token, jwt_encode. rewrite lookup_insert_eq.
  rewrite insert_insert_eq.
  destruct expires_delta as [delta|]; [destruct (delta =? 0)|]; reflexivity.
Qed.

Lemma jwt_decode_signed (now exp : Z) (data : doc) :
  jwt_decode now (Signed SECRET_KEY (<["exp" := VInt exp]> data)) SECRET_KEY =
  if exp <=? now then Raise ExpiredSignatureError
  else Ok (<["exp" := VInt exp]> data).
Proof.
  unfold jwt_decode. rewrite String.eqb_refl, lookup_insert_eq. reflexivity.
Qed.

Lemma get_current_user_expired (now exp : Z) (data : doc) (db : store) :
  exp ≤ now →
  get_current_user SECRET_KEY now
    (Some (Signed SECRET_KEY (<["exp" := VInt exp]> data))) db
  = Raise (HTTPException 401 "Token expired").
Proof.
  intros H. unfold get_current_user. rewrite jwt_decode_signed.
  destruct (exp <=? now) eqn:E; [reflexivity | apply Z.leb_gt in E; lia].
Qed.

Lemma get_current_user_live (now exp : Z) (sub : value) (db : store) :
  now < exp → sub ≠ VNone →
  get_current_user SECRET_KEY now
    (Some (Signed SECRET_KEY (<["exp" := VInt exp]> {[ "sub" := sub ]}))) db
  = (user ← find_one [FieldEq "id" sub] (users db);
     match user with
     | None => Raise credentials_exception
     | Some u => Ok u
     end).
Proof.
  intros H Hsub. unfold get_current_user. rewrite jwt_decode_signed.
  destruct (exp <=? now) eqn:E; [apply Z.leb_le in E; lia|].
  unfold py_get. rewrite lookup_insert_ne by done. rewrite lookup_singleton_eq.
  cbn [default from_option id]. destruct sub; try reflexivity. congruence.
Qed.

Variable bcrypt_hashpw : string → string → string.
Variable bcrypt_checkpw : string → string → result bool.

(** The two routes that issue tokens pass the 30 minute window. *)
Lemma signup_token (uuid salt : string) (now now' : Z) (user_data : UserCreate.t)
    (db db' : store) (resp : Token.t) :
  signup SECRET_KEY bcrypt_hashpw uuid salt now now' user_data db = (Ok resp, db') →
  Token.access_token resp =
  create_access_token SECRET_KEY now' {[ "sub" := VStr uuid ]}
    (Some (timedelta_minutes ACCESS_TOKEN_EXPIRE_MINUTES)).
Proof.
  unfold signup. destruct (find_one _ _) as [existing|]; [|discriminate].
  destruct (found existing); [discriminate|].
  intros [= <- _]. reflexivity.
Qed.

Lemma login_token (now : Z) (login_data : UserLogin.t) (db : store)
    (resp : Token.t) :
  login SECRET_KEY bcrypt_checkpw now login_data db = Ok resp →
  ∃ u sub,
    find_one [FieldEq "email" (VStr (UserLogin.email login_data))] (users db)
      = Ok (Some u)
    ∧ u !! "id" = Some sub
    ∧ Token.access_token resp =
      create_access_token SECRET_KEY now {[ "sub" := sub ]}
        (Some (timedelta_minutes ACCESS_TOKEN_EXPIRE_MINUTES)).
Proof.
  unfold login. destruct (find_one _ _) as [[u|]|] eqn:Hf; cbn; try discriminate.
  destruct (negb _); [|discriminate].
  unfold py_item.
  destruct (u !! "password") as [h|]; cbn; [|discriminate].
  destruct (verify_password _ _ _) as [[|]|]; cbn; try discriminate.
  destruct (u !! "id") as [sub|] eqn:Hid; cbn; [|discriminate].
  destruct (u !! "email"); cbn; [|discriminate].
  destruct (u !! "name"); cbn; [|discriminate].
  destruct (u !! "created_at"); cbn [mbind result_bind]; [|discriminate].
  destruct (UserResponse _) as [user_response|]; cbn [mbind result_bind];
    [|discriminate].
  intros [= <-]. exists u, sub. split; [reflexivity|]. split; [exact Hid|].
  reflexivity.
Qed.

(** C3.  A token issued at [T] by the routes carries the expiry [T] plus 30
    minutes; it is accepted 29 minutes after [T], and at any time before the
    expiry; it is refused as expired 31 minutes after [T], and at any time at
    or after the expiry.  [signup] and [login] issue exactly such tokens. *)
Theorem token_expires_after_thirty_minutes (T : Z) (sub : value) (db : store) :
  let tok :=
    create_access_token SECRET_KEY T {[ "sub" := sub ]}
      (Some (timedelta_minutes ACCESS_TOKEN_EXPIRE_MINUTES)) in
  let payload : doc :=
    {[ "exp" := VInt (T + timedelta_minutes 30); "sub" := sub ]} in
  let lookup_user :=
    user ← find_one [FieldEq "id" sub] (users db);
    match user with
    | None => Raise credentials_exception
    | Some u => Ok u
    end in
  tok = Signed SECRET_KEY payload
  ∧ jwt_decode (T + timedelta_minutes 29) tok SECRET_KEY = Ok payload
  ∧ (sub ≠ VNone →
     get_current_user SECRET_KEY (T + timedelta_minutes 29) (Some tok) db
     = lookup_user)
  ∧ jwt_decode (T + timedelta_minutes 31) tok SECRET_KEY
    = Raise ExpiredSignatureError
  ∧ get_current_user SECRET_KEY (T + timedelta_minutes 31) (Some tok) db
    = Raise (HTTPException 401 "Token expired")
  ∧ (∀ now, T + timedelta_minutes 30 ≤ now →
       jwt_decode now tok SECRET_KEY = Raise ExpiredSignatureError
       ∧ get_current_user SECRET_KEY now (Some tok) db
         = Raise (HTTPException 401 "Token expired"))
  ∧ (∀ now, now < T + timedelta_minutes 30 →
       jwt_decode now tok SECRET_KEY = Ok payload
       ∧ (sub ≠ VNone →
          get_current_user SECRET_KEY now (Some tok) db = lookup_user))
  ∧ (∀ uuid salt now user_data db0 db1 resp,
       signup SECRET_KEY bcrypt_hashpw uuid salt now T user_data db0
         = (Ok resp, db1) →
       Token.access_token resp =
       Signed SECRET_KEY
         {[ "exp" := VInt (T + timedelta_minutes 30); "sub" := VStr uuid ]})
  ∧ (∀ login_data db0 resp,
       login SECRET_KEY bcrypt_checkpw T login_data db0 = Ok resp →
       ∃ s, Token.access_token resp =
            Signed SECRET_KEY
              {[ "exp" := VInt (T + timedelta_minutes 30); "sub" := s ]}).
Proof.
  intros tok payload lookup_user.
  assert (Htok : ∀ (t : Z) (s : value),
    create_access_token SECRET_KEY t {[ "sub" := s ]}
      (Some (timedelta_minutes ACCESS_TOKEN_EXPIRE_MINUTES))
    = Signed SECRET_KEY {[ "exp" := VInt (t + timedelta_minutes 30); "sub" := s ]}).
  { intros t s. rewrite create_access_token_eq. reflexivity. }
  assert (Hlive : ∀ now, now < T + timedelta_minutes 30 →
     jwt_decode now tok SECRET_KEY = Ok payload
     ∧ (sub ≠ VNone →
        get_current_user SECRET_KEY now (Some tok) db = lookup_user)).
  { intros now Hnow. subst tok. rewrite Htok. split.
    - unfold payload. rewrite jwt_decode_signed.
      destruct (_ <=? now) eqn:E; [apply Z.leb_le in E; lia | reflexivity].
    - intros Hsub. by apply get_current_user_live. }
  assert (Hdead : ∀ now, T + timedelta_minutes 30 ≤ now →
     jwt_decode now tok SECRET_KEY = Raise ExpiredSignatureError
     ∧ get_current_user SECRET_KEY now (Some tok) db
       = Raise (HTTPException 401 "Token expired")).
  { intros now Hnow. subst tok. rewrite Htok. split.
    - rewrite jwt_decode_signed.
      destruct (_ <=? now) eqn:E; [reflexivity | apply Z.leb_gt in E; lia].
    - by apply get_current_user_expired. }
  assert (H29 : T + timedelta_minutes 29 < T + timedelta_minutes 30)
    by (unfold timedelta_minutes; lia).
  assert (H31 : T + timedelta_minutes 30 ≤ T + timedelta_minutes 31)
    by (unfold timedelta_minutes; lia).
  split; [apply Htok|].
  split; [apply (Hlive _ H29)|]. split; [apply (Hlive _ H29)|].
  split; [apply (Hdead _ H31)|]. split; [apply (Hdead _ H31)|].
  split; [exact Hdead|]. split; [exact Hlive|]. split.
  - intros uuid salt now user_data db0 db1 resp Hs.
    rewrite (signup_token _ _ _ _ _ _ _ _ Hs). apply Htok.
  - intros login_data db0 resp Hl.
    destruct (login_token _ _ _ _ Hl) as (u & s & _ & _ & ->).
    exists s. apply Htok.
Qed.

(** C9.  Called without [expires_delta], the token helper sets the expiry 15
    minutes after issuance: such a token is refused from 15 minutes on.  The
    window of 30 minutes is the argument that [signup] and [login] pass. *)
Theorem default_expiry_is_fifteen_minutes (T : Z) (data : doc) :
  create_access_token SECRET_KEY T data None
  = Signed SECRET_KEY (<["exp" := VInt (T + timedelta_minutes 15)]> data)
  ∧ (∀ now, T + timedelta_minutes 15 ≤ now →
       jwt_decode now (create_access_token SECRET_KEY T data None) SECRET_KEY
       = Raise ExpiredSignatureError)
  ∧ (∀ now, now < T + timedelta_minutes 15 →
       jwt_decode now (create_access_token SECRET_KEY T data None) SECRET_KEY
       = Ok (<["exp" := VInt (T + timedelta_minutes 15)]> data))
  ∧ create_access_token SECRET_KEY T data
      (Some (timedelta_minutes ACCESS_TOKEN_EXPIRE_MINUTES))
    = Signed SECRET_KEY (<["exp" := VInt (T + timedelta_minutes 30)]> data)
  ∧ (∀ uuid salt now user_data db0 db1 resp,
       signup SECRET_KEY bcrypt_hashpw uuid salt now T user_data db0
         = (Ok resp, db1) →
       Token.access_token resp =
       create_access_token SECRET_KEY T {[ "sub" := VStr uuid ]}
         (Some (timedelta_minutes 30)))
  ∧ (∀ login_data db0 resp,
       login SECRET_KEY bcrypt_checkpw T login_data db0 = Ok resp →
       ∃ s, Token.access_token resp =
            create_access_token SECRET_KEY T {[ "sub" := s ]}
              (Some (timedelta_minutes 30))).
Proof.
  rewrite !create_access_token_eq.
  split; [reflexivity|]. split; [|split; [|split; [reflexivity|split]]].
  - intros now H. rewrite jwt_decode_signed.
    destruct (_ <=? now) eqn:E; [reflexivity | apply Z.leb_gt in E; lia].
  - intros now H. rewrite jwt_decode_signed.
    destruct (_ <=? now) eqn:E; [apply Z.leb_le in E; lia | reflexivity].
  - intros uuid salt now user_data db0 db1 resp Hs.
    exact (signup_token _ _ _ _ _ _ _ _ Hs).
  - intros login_data db0 resp Hl.
    destruct (login_token _ _ _ _ Hl) as (u & s & _ & _ & ->).
    by exists s.
Qed.

End Tokens.

(** * Queries on the store *)

Lemma find_one_Some (q : query) (coll : list doc) (d : doc) :
  find_one q coll = Ok (Some d) → d ∈ coll ∧ matches q d = true.
Proof.
  unfold find_one, find. destruct (forallb clause_ok q); [|discriminate].
  cbn. intros [= H]. apply head_Some_elem_of, list_elem_of_In in H.
  apply filter_In in H as [H1 H2]. split; [by apply list_elem_of_In | exact H2].
Qed.

Lemma find_one_None (q : query) (coll : list doc) (d : doc) :
  find_one q coll = Ok None → d ∈ coll → matches q d = false.
Proof.
  unfold find_one, find. destruct (forallb clause_ok q); [|discriminate].
  cbn. intros [= H] Hd. destruct (matches q d) eqn:E; [|reflexivity].
  assert (Hin : In d (List.filter (matches q) coll)).
  { apply filter_In. split; [by apply list_elem_of_In | exact E]. }
  destruct (List.filter (matches q) coll); [destruct Hin | discriminate].
Qed.

Lemma find_one_is_Ok (q : query) (coll : list doc) :
  forallb clause_ok q = true → ∃ o, find_one q coll = Ok o.
Proof. intros H. unfold find_one, find. rewrite H. by eexists. Qed.

(** A document that matches an equality clause has that field. *)
Lemma matches_eq_found (k : string) (s : string) (q : query) (d : doc) :
  matches (FieldEq k (VStr s) :: q) d = true → found (Some d) = true.
Proof.
  unfold matches. cbn. intros H. apply andb_prop in H as [H _].
  apply bool_decide_eq_true in H. unfold found. apply negb_true_iff.
  apply bool_decide_eq_false. intros ->. rewrite lookup_empty in H. discriminate.
Qed.

(** * Signup *)

Section Signup.

Variable SECRET_KEY : string.
Variable bcrypt_hashpw : string → string → string.

Lemma signup_conflict (uuid salt : string) (now now' : Z)
    (user_data : UserCreate.t) (db : store) :
  registered (UserCreate.email user_data) db →
  signup SECRET_KEY bcrypt_hashpw uuid salt now now' user_data db
  = (Raise (HTTPException 400 "Email already registered"), db).
Proof.
  intros (u & Hu & He). unfold signup.
  set (q := [FieldEq "email" (VStr (UserCreate.email user_data))]).
  destruct (find_one_is_Ok q (users db) eq_refl) as [[u'|] Hf]; rewrite Hf.
  - apply find_one_Some in Hf as [_ Hm].
    rewrite (matches_eq_found _ _ _ _ Hm). reflexivity.
  - apply (find_one_None _ _ u) in Hf; [|exact Hu].
    unfold matches in Hf. cbn in Hf. rewrite He in Hf. cbn in Hf.
    rewrite bool_decide_eq_true_2 in Hf by reflexivity. discriminate.
Qed.

Lemma signup_registers (uuid salt : string) (now now' : Z)
    (user_data : UserCreate.t) (db db1 : store) (resp : Token.t) :
  signup SECRET_KEY bcrypt_hashpw uuid salt now now' user_data db = (Ok resp, db1) →
  registered (UserCreate.email user_data) db1
  ∧ length (users db1) = S (length (users db)).
Proof.
  unfold signup. destruct (find_one _ _) as [existing|]; [|discriminate].
  destruct (found existing); [discriminate|]. intros [= _ <-]. cbn. split.
  - eexists. split; [apply elem_of_app; right; apply list_elem_of_singleton;
                     reflexivity|].
    rewrite lookup_insert_ne by done. apply lookup_insert_eq.
  - rewrite length_app. cbn. lia.
Qed.

(** C8.  Signing up with the email of a registered user fails with status
    400, Email already registered, and leaves the store as it was; so a
    second signup with the email of a successful first one fails, and the
    store still has the one user the first call added. *)
Theorem signup_duplicate_email (uuid salt : string) (now now' : Z)
    (user_data : UserCreate.t) (db : store) :
  (registered (UserCreate.email user_data) db →
   signup SECRET_KEY bcrypt_hashpw uuid salt now now' user_data db
   = (Raise (HTTPException 400 "Email already registered"), db))
  ∧ (∀ resp db1,
       signup SECRET_KEY bcrypt_hashpw uuid salt now now' user_data db
         = (Ok resp, db1) →
       length (users db1) = S (length (users db))
       ∧ ∀ uuid2 salt2 t2 t2' again,
           UserCreate.email again = UserCreate.email user_data →
           signup SECRET_KEY bcrypt_hashpw uuid2 salt2 t2 t2' again db1
           = (Raise (HTTPException 400 "Email already registered"), db1)).
Proof.
  split; [apply signup_conflict|].
  intros resp db1 Hs. apply signup_registers in Hs as [Hreg Hlen].
  split; [exact Hlen|].
  intros uuid2 salt2 t2 t2' again He. apply signup_conflict. by rewrite He.
Qed.

End Signup.

Lemma signup_duplicate_email_witness :
  ∃ resp db1,
    signup sample_key sample_hashpw "u1" "s" 100 101 alice empty_store
      = (Ok resp, db1)
    ∧ length (users db1) = 1%nat
    ∧ signup sample_key sample_hashpw "u2" "s" 200 201
        (UserCreate.mk "a@x.com" "Alice again" "pw2") db1
      = (Raise (HTTPException 400 "Email already registered"), db1).
Proof.
  destruct (signup sample_key sample_hashpw "u1" "s" 100 101 alice empty_store)
    as [[resp|e] db1] eqn:Hs; [|vm_compute in Hs; discriminate].
  exists resp, db1. split; [reflexivity|].
  destruct (signup_duplicate_email sample_key sample_hashpw "u1" "s" 100 101
              alice empty_store) as [_ H].
  destruct (H resp db1 Hs) as [Hlen Hdup]. split; [exact Hlen|].
  apply Hdup. reflexivity.
Defined.

(** * Partial update *)

(** Setting fields other than those the filter tests keeps a match. *)
Lemma matches_task_filter_union (task_id : string) (uid : value) (upd d : doc) :
  upd !! "id" = None → upd !! "user_id" = None →
  matches [FieldEq "id" (VStr task_id); FieldEq "user_id" uid] (upd ∪ d)
  = matches [FieldEq "id" (VStr task_id); FieldEq "user_id" uid] d.
Proof.
  intros H1 H2. unfold matches. cbn.
  rewrite !lookup_union_r by assumption. reflexivity.
Qed.

Lemma find_one_set_first (q : query) (upd : doc) (coll : list doc) (t : doc) :
  (∀ d, matches q (upd ∪ d) = matches q d) →
  find_one q coll = Ok (Some t) →
  find_one q (set_first q upd coll) = Ok (Some (upd ∪ t)).
Proof.
  intros Hm. unfold find_one, find.
  destruct (forallb clause_ok q); [|discriminate]. cbn.
  induction coll as [|d coll IH]; cbn; [discriminate|].
  destruct (matches q d) eqn:E; cbn.
  - intros [= ->]. rewrite Hm, E. reflexivity.
  - rewrite E. exact IH.
Qed.

Lemma update_data_keys (now : Z) (tu : TaskUpdate.t) (k : string) :
  k ∉ ["title"; "description"; "due_date"; "priority"; "category";
       "completed"; "updated_at"] →
  (<["updated_at" := VDateTime now]> (update_data_of tu)) !! k = None.
Proof.
  intros Hk. rewrite lookup_insert_ne by (intros <-; apply Hk; repeat constructor).
  apply (update_data_of_lookup tu). intros Hin. apply Hk.
  apply list_elem_of_In. apply list_elem_of_In in Hin. cbn in *. tauto.
Qed.

(** An update leaves the identifier and the owner alone, so the task still
    answers to its filter. *)
Lemma matches_update_fields (now : Z) (tu : TaskUpdate.t) (task_id : string)
    (uid : value) (d : doc) :
  matches (task_filter task_id uid) (update_fields now tu ∪ d)
  = matches (task_filter task_id uid) d.
Proof.
  apply matches_task_filter_union; apply update_data_keys;
    intros Hin; apply list_elem_of_In in Hin; cbn in Hin;
    repeat (destruct Hin as [Hin|Hin]; [discriminate|]); exact Hin.
Qed.

(** What [update_task] does to a task it finds. *)
Lemma update_task_eq (now : Z) (today : date) (task_id : string)
    (task_update : TaskUpdate.t) (current_user : doc) (db : store)
    (uid : value) (t : doc) :
  current_user !! "id" = Some uid →
  find_one (task_filter task_id uid) (tasks db) = Ok (Some t) →
  update_task now today task_id task_update current_user db =
  if bool_decide (update_data_of task_update = ∅)
  then (prepare_task_for_response today t ≫= TaskResponse, db)
  else (prepare_task_for_response today (update_fields now task_update ∪ t)
          ≫= TaskResponse,
        mkStore (users db)
          (set_first (task_filter task_id uid) (update_fields now task_update)
             (tasks db))).
Proof.
  intros Hid Hf. unfold update_task, py_item. rewrite Hid. cbv zeta.
  fold (task_filter task_id uid). rewrite Hf.
  destruct (find_one_Some _ _ _ Hf) as [_ Hm].
  rewrite (matches_eq_found _ _ _ _ Hm). cbn [negb].
  destruct (bool_decide (update_data_of task_update = ∅)); cbn [negb].
  - reflexivity.
  - unfold update_one. cbn [task_filter forallb clause_ok andb tasks].
    fold (task_filter task_id uid). fold (update_fields now task_update).
    rewrite (find_one_set_first _ _ _ t); [reflexivity | | exact Hf].
    apply matches_update_fields.
Qed.

Lemma update_data_empty_iff (tu : TaskUpdate.t) :
  update_data_of tu = ∅ ↔ tu = no_fields.
Proof.
  split; [|intros ->; reflexivity].
  intros He. pose proof (update_data_of_lookup tu) as (H1 & H2 & H3 & H4 & H5 & H6 & _).
  rewrite He, lookup_empty in H1, H2, H3, H4, H5, H6.
  destruct tu as [[?|] [?|] [?|] [?|] [?|] [?|]]; try discriminate. reflexivity.
Qed.

Lemma update_task_stored (now : Z) (today : date) (task_id : string)
    (task_update : TaskUpdate.t) (current_user : doc) (db : store)
    (uid : value) (t : doc) :
  current_user !! "id" = Some uid →
  stored_task task_id uid db = Some t →
  stored_task task_id uid
    (update_task now today task_id task_update current_user db).2
  = Some (if bool_decide (update_data_of task_update = ∅) then t
          else update_fields now task_update ∪ t).
Proof.
  intros Hid Hs. unfold stored_task in Hs.
  destruct (find_one _ (tasks db)) as [o|] eqn:Hf; [subst o | discriminate].
  rewrite (update_task_eq _ _ _ _ _ _ _ _ Hid Hf).
  destruct (bool_decide _); unfold stored_task; cbn [snd tasks].
  - rewrite Hf. reflexivity.
  - rewrite (find_one_set_first _ _ _ t); [reflexivity | | exact Hf].
    apply matches_update_fields.
Qed.

(** A field of the stored task after an update: the supplied value, or the
    stored one. *)
Lemma update_fields_lookup (now : Z) (tu : TaskUpdate.t) (t : doc) (k : string) :
  k ≠ "updated_at" →
  (update_fields now tu ∪ t) !! k
  = match update_data_of tu !! k with
    | Some v => Some v
    | None => t !! k
    end.
Proof.
  intros Hk. rewrite lookup_union. unfold update_fields.
  rewrite lookup_insert_ne by done.
  destruct (update_data_of tu !! k), (t !! k); reflexivity.
Qed.

(** C10.  A field that the request leaves out, or sends as null, keeps its
    stored value.  A stored field of the request that is not null is not
    null after the update either; a due date, once set, stays set. *)
Theorem update_never_clears (now : Z) (today : date) (task_id : string)
    (task_update : TaskUpdate.t) (current_user : doc) (db : store)
    (uid : value) (t : doc) :
  current_user !! "id" = Some uid →
  stored_task task_id uid db = Some t →
  ∃ t',
    stored_task task_id uid
      (update_task now today task_id task_update current_user db).2 = Some t'
    ∧ (TaskUpdate.title task_update = None → t' !! "title" = t !! "title")
    ∧ (TaskUpdate.description task_update = None →
       t' !! "description" = t !! "description")
    ∧ (TaskUpdate.due_date task_update = None →
       t' !! "due_date" = t !! "due_date")
    ∧ (TaskUpdate.priority task_update = None →
       t' !! "priority" = t !! "priority")
    ∧ (TaskUpdate.category task_update = None →
       t' !! "category" = t !! "category")
    ∧ (TaskUpdate.completed task_update = None →
       t' !! "completed" = t !! "completed")
    ∧ (∀ f v, f ∈ request_fields → t !! f = Some v → v ≠ VNone →
         ∃ v', t' !! f = Some v' ∧ v' ≠ VNone)
    ∧ (∀ s, t !! "due_date" = Some (VStr s) →
         ∃ s', t' !! "due_date" = Some (VStr s')).
Proof.
  intros Hid Hs. eexists. split; [exact (update_task_stored _ _ _ _ _ _ _ _ Hid Hs)|].
  pose proof (update_data_of_lookup task_update)
    as (H1 & H2 & H3 & H4 & H5 & H6 & _).
  destruct (bool_decide (update_data_of task_update = ∅)).
  { repeat split; try reflexivity; eauto. }
  repeat apply conj.
  - intros E. rewrite update_fields_lookup, H1, E by done. reflexivity.
  - intros E. rewrite update_fields_lookup, H2, E by done. reflexivity.
  - intros E. rewrite update_fields_lookup, H3, E by done. reflexivity.
  - intros E. rewrite update_fields_lookup, H4, E by done. reflexivity.
  - intros E. rewrite update_fields_lookup, H5, E by done. reflexivity.
  - intros E. rewrite update_fields_lookup, H6, E by done. reflexivity.
  - intros f v Hf Hv Hnn. apply list_elem_of_In in Hf. cbn in Hf.
    destruct Hf as [<-|[<-|[<-|[<-|[<-|[<-|[]]]]]]];
      rewrite update_fields_lookup by done;
      rewrite ?H1, ?H2, ?H3, ?H4, ?H5, ?H6, Hv;
      match goal with
      | |- context [_ <$> ?o] => destruct o; cbn
      end; eauto.
  - intros s Hv. rewrite update_fields_lookup, H3, Hv by done.
    destruct (TaskUpdate.due_date task_update); cbn; eauto.
Qed.

Lemma update_never_clears_witness :
  ∃ t', stored_task "t1" (VStr "u1")
          (update_task 200 (mkDate 2024 1 16) "t1" same_title bob bob_store).2
        = Some t'
        ∧ t' !! "due_date" = Some (VStr "2024-01-15").
Proof.
  destruct (update_never_clears 200 (mkDate 2024 1 16) "t1" same_title bob
              bob_store (VStr "u1") bob_task eq_refl eq_refl)
    as (t' & Hs & _ & _ & Hd & _).
  exists t'. split; [exact Hs|]. rewrite Hd; reflexivity.
Defined.

(** C4, as the code has it.  An update that supplies no field leaves the
    store, and with it the stored [updated_at], as it was.  An update that
    supplies at least one field sets [updated_at] to the time of the update,
    whatever the supplied values are. *)
Theorem updated_at_refreshes_when_supplied (now : Z) (today : date)
    (task_id : string) (task_update : TaskUpdate.t) (current_user : doc)
    (db : store) (uid : value) (t : doc) :
  current_user !! "id" = Some uid →
  stored_task task_id uid db = Some t →
  let db' := (update_task now today task_id task_update current_user db).2 in
  (task_update = no_fields →
   db' = db ∧ stored_task task_id uid db' = Some t)
  ∧ (task_update ≠ no_fields →
     ∃ t', stored_task task_id uid db' = Some t'
           ∧ t' !! "updated_at" = Some (VDateTime now)).
Proof.
  intros Hid Hs db'.
  pose proof (update_task_stored now today _ task_update _ _ _ _ Hid Hs) as Hst.
  fold db' in Hst. split.
  - intros ->. split; [|exact Hst].
    unfold db', stored_task in *.
    destruct (find_one _ (tasks db)) as [o|] eqn:Hf; [subst o | discriminate].
    rewrite (update_task_eq _ _ _ _ _ _ _ _ Hid Hf). reflexivity.
  - intros Hne. eexists. split; [exact Hst|].
    rewrite bool_decide_eq_false_2 by (by rewrite update_data_empty_iff).
    apply lookup_union_Some_l. apply lookup_insert_eq.
Qed.

Lemma updated_at_refreshes_when_supplied_witness :
  ∃ t', stored_task "t1" (VStr "u1")
          (update_task 200 (mkDate 2024 1 16) "t1" same_title bob bob_store).2
        = Some t'
        ∧ t' !! "updated_at" = Some (VDateTime 200).
Proof.
  destruct (updated_at_refreshes_when_supplied 200 (mkDate 2024 1 16) "t1"
              same_title bob bob_store (VStr "u1") bob_task eq_refl eq_refl)
    as [_ H].
  apply H. discriminate.
Defined.

(** C4, as stated, fails: the request repeats the stored title, no field of
    the record changes its value, and [updated_at] moves from 100 to 200. *)
Lemma update_with_equal_value_refreshes :
  ∃ t', stored_task "t1" (VStr "u1") bob_store = Some bob_task
        ∧ stored_task "t1" (VStr "u1")
            (update_task 200 (mkDate 2024 1 16) "t1" same_title bob bob_store).2
          = Some t'
        ∧ (∀ f, f ∈ request_fields → t' !! f = bob_task !! f)
        ∧ bob_task !! "updated_at" = Some (VDateTime 100)
        ∧ t' !! "updated_at" = Some (VDateTime 200)
        ∧ t' !! "updated_at" ≠ bob_task !! "updated_at".
Proof.
  eexists. split; [reflexivity|]. split.
  { apply (update_task_stored 200 (mkDate 2024 1 16) "t1" same_title bob
             bob_store (VStr "u1") bob_task); reflexivity. }
  rewrite bool_decide_eq_false_2 by (rewrite update_data_empty_iff; discriminate).
  split.
  { intros f Hf. apply list_elem_of_In in Hf. cbn in Hf.
    destruct Hf as [<-|[<-|[<-|[<-|[<-|[<-|[]]]]]]]; vm_compute; reflexivity. }
  split; [vm_compute; reflexivity|].
  split; [vm_compute; reflexivity|].
  vm_compute. discriminate.
Qed.

(** * Statistics *)

Lemma count_category_sum (c : value) (cats : list (value * Z)) :
  sum_counts (count_category c cats) = sum_counts cats + 1.
Proof.
  induction cats as [|[k n] cats IH]; [reflexivity|].
  cbn [count_category]. destruct (py_eqb k c).
  - change (n + 1 + sum_counts cats = n + sum_counts cats + 1). lia.
  - change (n + sum_counts (count_category c cats) = n + sum_counts cats + 1).
    lia.
Qed.

Lemma stats_loop_sum (today : date) (tasks : list doc)
    (o h : Z) (cats : list (value * Z)) (o' h' : Z) (cats' : list (value * Z)) :
  stats_loop today tasks (o, h, cats) = Ok (o', h', cats') →
  sum_counts cats' = sum_counts cats + Z.of_nat (length tasks).
Proof.
  revert o h cats. induction tasks as [|task tasks IH]; intros o h cats.
  - cbn. intros [= _ _ <-]. lia.
  - cbn [stats_loop].
    destruct (if truthy _ && negb _ then _ else _) as [o1|e]; [|discriminate].
    cbn [mbind result_bind]. intros H. apply IH in H.
    rewrite count_category_sum in H. cbn [length]. lia.
Qed.

Lemma stats_loop_total (today : date) (tasks : list doc)
    (acc : Z * Z * list (value * Z)) :
  Forall due_date_ok tasks → ∃ r, stats_loop today tasks acc = Ok r.
Proof.
  intros H. revert acc. induction H as [|task tasks Hok _ IH]; intros [[o h] cats].
  - by eexists.
  - cbn [stats_loop].
    assert (∃ o1, (if truthy (py_get task "due_date" VNone)
                      && negb (truthy (py_get task "completed" (VBool false)))
                   then due_date ← read_due_date task;
                        b ← lt_today today due_date;
                        Ok (if (b : bool) then o + 1 else o)
                   else Ok o) = Ok o1) as [o1 ->]; [|apply IH].
    destruct Hok as [Hn | [d Hd]].
    + rewrite Hn. by eexists.
    + destruct (_ && _); [|by eexists].
      unfold due_date_of in Hd. unfold read_due_date, py_item.
      destruct (task !! "due_date") as [[| | |s|d'|t]|]; try discriminate; cbn.
      * rewrite Hd. cbn. by eexists.
      * by eexists.
Qed.

Lemma category_total_fmap (cats : list (value * Z)) :
  category_total ((fun '(name, count) => (name, count, category_color name)) <$> cats)
  = sum_counts cats.
Proof.
  induction cats as [|[k n] cats IH]; [reflexivity|].
  change (n + category_total
                ((fun '(name, count) => (name, count, category_color name))
                   <$> cats)
          = n + sum_counts cats).
  by rewrite IH.
Qed.

(** C7.  In the statistics of a user's tasks, the completed and the pending
    tasks add up to the total, and so do the counts of the category
    breakdown; the statistics exist whenever every due date is absent, null
    or a date. *)
Theorem stats_counts_add_up (today : date) (current_user : doc) (db : store) :
  (∀ stats, get_task_stats today current_user db = Ok stats →
     TaskStats.completed stats + TaskStats.pending stats = TaskStats.total stats
     ∧ category_total (TaskStats.categories stats) = TaskStats.total stats
     ∧ 0 ≤ TaskStats.completed stats ≤ TaskStats.total stats)
  ∧ (is_Some (current_user !! "id") → Forall due_date_ok (tasks db) →
     ∃ stats, get_task_stats today current_user db = Ok stats).
Proof.
  unfold get_task_stats, py_item, find. cbn [forallb clause_ok andb].
  destruct (current_user !! "id") as [uid|]; cbn [mbind result_bind]; split;
    try discriminate; [| |intros [? [=]]].
  - set (ts := to_list 1000 _). intros stats.
    destruct (stats_loop today ts (0, 0, [])) as [[[o h] cats]|] eqn:Hl;
      [|discriminate].
    cbn [mbind result_bind]. intros [= <-]. cbn.
    split; [lia|]. split.
    + rewrite category_total_fmap, (stats_loop_sum _ _ _ _ _ _ _ _ Hl).
      reflexivity.
    + pose proof (filter_length_le
        (fun t => truthy (py_get t "completed" (VBool false))) ts). lia.
  - intros _ Hok. set (ts := to_list 1000 _).
    destruct (stats_loop_total today ts (0, 0, [])) as [[[o h] cats] Hl].
    { apply Forall_take. apply Forall_forall. intros t Ht.
      apply list_elem_of_In, filter_In in Ht as [Ht _].
      rewrite Forall_forall in Hok. apply Hok. by apply list_elem_of_In. }
    rewrite Hl. by eexists.
Qed.

Lemma stats_counts_add_up_witness :
  ∃ stats, get_task_stats (mkDate 2024 1 16) bob bob_store = Ok stats
           ∧ TaskStats.completed stats + TaskStats.pending stats
             = TaskStats.total stats
           ∧ category_total (TaskStats.categories stats) = TaskStats.total stats.
Proof.
  destruct (stats_counts_add_up (mkDate 2024 1 16) bob bob_store) as [H1 H2].
  destruct H2 as [stats Hs].
  { by eexists. }
  { constructor; [|constructor]. right. exists (mkDate 2024 1 15).
    vm_compute. reflexivity. }
  exists stats. split; [exact Hs|].
  destruct (H1 stats Hs) as (Ha & Hb & _). split; assumption.
Defined.

Example stats_example :
  get_task_stats (mkDate 2024 1 16) bob bob_store
  = Ok (TaskStats.mk 1 0 1 1 0 [(VStr "General", 1, "#6B7280")]).
Proof. vm_compute. reflexivity. Qed.

(** * Search *)

Lemma compile_plain (p : list ascii) :
  forallb (fun c => negb (is_meta c)) p = true → compile p = Some (Lit <$> p).
Proof.
  induction p as [|c p IH]; [reflexivity|].
  cbn [forallb]. intros H. apply andb_prop in H as [Hc Hp].
  apply negb_true_iff in Hc. cbn [compile].
  assert (Ascii.eqb c "\" = false ∧ Ascii.eqb c "." = false) as [-> ->].
  { unfold is_meta in Hc. cbn in Hc.
    repeat (apply orb_false_elim in Hc as [? Hc]). split; assumption. }
  rewrite Hc, (IH Hp). reflexivity.
Qed.

Lemma match_here_lit (p s : list ascii) :
  match_here true (Lit <$> p) s = true ↔
  ∃ post, lower <$> s = (lower <$> p) ++ post.
Proof.
  revert s. induction p as [|c p IH]; intros s.
  - cbn. split; [intros _; by eexists | reflexivity].
  - destruct s as [|x s].
    + cbn. split; [discriminate | intros [post H]; discriminate].
    + change (match_here true (Lit <$> c :: p) (x :: s))
        with (Ascii.eqb (lower c) (lower x) && match_here true (Lit <$> p) s).
      rewrite andb_true_iff, IH, Ascii.eqb_eq. cbn. split.
      * intros [-> [post ->]]. by exists post.
      * intros [post [= -> ->]]. split; [reflexivity | by exists post].
Qed.

Lemma search_from_lit (p s : list ascii) :
  search_from true (Lit <$> p) s = true ↔
  ∃ pre post, lower <$> s = pre ++ (lower <$> p) ++ post.
Proof.
  induction s as [|x s IH].
  - cbn [search_from]. rewrite orb_false_r, match_here_lit. split.
    + intros [post H]. by exists [], post.
    + intros (pre & post & H). destruct pre; [|discriminate]. by exists post.
  - cbn [search_from]. rewrite orb_true_iff, match_here_lit, IH. split.
    + intros [[post H] | (pre & post & H)].
      * by exists [], post.
      * exists (lower x :: pre), post. cbn. by rewrite H.
    + intros (pre & post & H). destruct pre as [|y pre].
      * left. by exists post.
      * right. exists pre, post. cbn in H. by injection H.
Qed.

(** On a plain search string, the pattern search of the store is the
    case-insensitive substring test. *)
Lemma regex_search_plain (pattern subject : string) :
  plain pattern = true →
  ∃ b, regex_search pattern "i" subject = Some b
       ∧ (b = true ↔ ci_substring pattern subject).
Proof.
  intros Hp. unfold regex_search. rewrite (compile_plain _ Hp).
  eexists. split; [reflexivity|]. apply search_from_lit.
Qed.

Lemma matches_field_regex_plain (d : doc) (k search : string) :
  plain search = true →
  matches_clause d (FieldRegex k search "i") = true ↔ field_contains d k search.
Proof.
  intros Hp. unfold field_contains. cbn [matches_clause].
  destruct (d !! k) as [[| | |s| |]|];
    try (split; [discriminate | intros (s' & [=] & _)]).
  destruct (regex_search_plain search s Hp) as (b & -> & Hb). cbn.
  rewrite Hb. split.
  - intros H. by exists s.
  - intros (s' & [= <-] & H). exact H.
Qed.

Lemma ci_substring_empty (s : string) : ci_substring "" s.
Proof. exists [], (lower <$> list_ascii_of_string s). reflexivity. Qed.

(** C6, as the code has it: the search string is a pattern.  When it has no
    character that the pattern syntax reserves, a task of the requester
    matches the query exactly when the string occurs, letter case ignored,
    in its title, its description or its category; the query is accepted
    and never matches a task of another owner. *)
Theorem search_matches_plain_substring (search : string) (uid : value)
    (d : doc) (title : string) :
  plain search = true →
  d !! "title" = Some (VStr title) →
  let q := build_query uid None (Some search) None None in
  (∀ coll, find q coll = Ok (List.filter (matches q) coll))
  ∧ (default VNone (d !! "user_id") ≠ uid → matches q d = false)
  ∧ (default VNone (d !! "user_id") = uid →
     (matches q d = true ↔
      field_contains d "title" search
      ∨ field_contains d "description" search
      ∨ field_contains d "category" search)).
Proof.
  intros Hp Ht q. unfold build_query in q. cbn [nonempty] in q.
  destruct (negb (String.eqb search "")) eqn:Es; subst q.
  - split; [|split].
    + intros coll. unfold find. cbn [app forallb clause_ok].
      unfold plain in Hp. rewrite (compile_plain _ Hp). reflexivity.
    + intros Hne. unfold matches. cbn [app forallb matches_clause].
      rewrite bool_decide_eq_false_2 by exact Hne. reflexivity.
    + intros Hu. unfold matches. cbn [app forallb].
      change (matches_clause d (Or ?cs)) with (existsb (matches_clause d) cs).
      cbn [existsb]. rewrite andb_true_r, orb_false_r.
      change (matches_clause d (FieldEq "user_id" uid))
        with (bool_decide (default VNone (d !! "user_id") = uid)).
      rewrite bool_decide_eq_true_2 by exact Hu. cbn [andb].
      rewrite !orb_true_iff, !matches_field_regex_plain by exact Hp.
      reflexivity.
  - apply negb_false_iff, String.eqb_eq in Es. subst search.
    split; [|split].
    + intros coll. reflexivity.
    + intros Hne. unfold matches. cbn.
      rewrite bool_decide_eq_false_2 by exact Hne. reflexivity.
    + intros Hu. unfold matches. cbn.
      rewrite bool_decide_eq_true_2 by exact Hu. split; [|reflexivity].
      intros _. left. exists title. split; [exact Ht | apply ci_substring_empty].
Qed.

Lemma search_matches_plain_substring_witness :
  matches (build_query (VStr "u1") None (Some "GEN") None None) bob_task = true.
Proof.
  apply (search_matches_plain_substring "GEN" (VStr "u1") bob_task "a");
    try reflexivity.
  right. right. exists "General". split; [reflexivity|].
  exists [], (list_ascii_of_string "eral"). reflexivity.
Defined.

(** C6, as stated, fails: the search string [.] is a pattern that matches
    the title [a], and it occurs in no field of the task. *)
Lemma search_dot_is_a_pattern :
  matches (build_query (VStr "u1") None (Some ".") None None) bob_task = true
  ∧ default VNone (bob_task !! "user_id") = VStr "u1"
  ∧ ¬ (field_contains bob_task "title" "."
       ∨ field_contains bob_task "description" "."
       ∨ field_contains bob_task "category" ".").
Proof.
  split; [vm_compute; reflexivity|]. split; [reflexivity|].
  assert (H : ∀ k s, bob_task !! k = Some (VStr s) →
                search_from true (Lit <$> list_ascii_of_string ".")
                  (list_ascii_of_string s) = false →
                ¬ field_contains bob_task k ".").
  { intros k s Hk Hs (s' & Hk' & Hc). rewrite Hk in Hk'. injection Hk' as <-.
    apply search_from_lit in Hc. congruence. }
  intros [Hc | [Hc | Hc]]; revert Hc.
  - apply (H "title" "a"); reflexivity.
  - apply (H "description" ""); reflexivity.
  - apply (H "category" "General"); reflexivity.
Qed.

(** * Order of the store *)

Lemma lex_opp (x y : comparison) : CompOpp (lex x y) = lex (CompOpp x) (CompOpp y).
Proof. by destruct x. Qed.

Lemma cmp_eq_r {A : Type} (cmp : A → A → comparison) `{!TotalCmp cmp} (a b c : A) :
  cmp b c = Eq → cmp a b = cmp a c.
Proof.
  intros H. rewrite (cmp_antisym a b), (cmp_antisym a c). f_equal.
  symmetry. apply cmp_eq_l. by rewrite cmp_antisym, H.
Qed.

Global Instance Z_compare_total : TotalCmp Z.compare.
Proof.
  split.
  - intros a b. apply Z.compare_antisym.
  - intros a b c H. apply Z.compare_eq in H. by subst.
  - intros a b c x H1 H2. destruct x.
    + apply Z.compare_eq in H1, H2. subst. apply Z.compare_refl.
    + rewrite Z.compare_lt_iff in *. lia.
    + rewrite Z.compare_gt_iff in *. lia.
Qed.

Lemma string_compare_lt_trans (a b c : string) :
  String.compare a b = Lt → String.compare b c = Lt → String.compare a c = Lt.
Proof.
  revert b c. induction a as [|x a IH]; intros [|y b] [|z c]; cbn;
    try discriminate; try reflexivity.
  unfold Ascii.compare.
  destruct (N.compare_spec (N_of_ascii x) (N_of_ascii y)) as [E1|L1|G1];
    try discriminate;
    destruct (N.compare_spec (N_of_ascii y) (N_of_ascii z)) as [E2|L2|G2];
    try discriminate; intros H1 H2.
  - rewrite E1, E2, N.compare_refl. by apply (IH b).
  - rewrite E1. by apply N.compare_lt_iff in L2 as ->.
  - rewrite <- E2. by apply N.compare_lt_iff in L1 as ->.
  - assert (L : (N_of_ascii x < N_of_ascii z)%N) by lia.
    by apply N.compare_lt_iff in L as ->.
Qed.

Lemma string_compare_refl (s : string) : String.compare s s = Eq.
Proof.
  induction s as [|x s IH]; [reflexivity|]. cbn. unfold Ascii.compare.
  by rewrite N.compare_refl.
Qed.

Global Instance string_compare_total : TotalCmp String.compare.
Proof.
  split.
  - intros a b. apply String.compare_antisym.
  - intros a b c H. apply String.compare_eq_iff in H. by subst.
  - intros a b c x H1 H2. destruct x.
    + apply String.compare_eq_iff in H1, H2. subst. apply string_compare_refl.
    + by apply (string_compare_lt_trans a b c).
    + rewrite String.compare_antisym in H1, H2 |- *.
      apply (f_equal CompOpp) in H1, H2. rewrite CompOpp_involutive in H1, H2.
      cbn in H1, H2. by rewrite (string_compare_lt_trans c b a).
Qed.

Global Instance lex_total {A : Type} (c1 c2 : A → A → comparison)
    `{!TotalCmp c1, !TotalCmp c2} :
  TotalCmp (fun a b => lex (c1 a b) (c2 a b)).
Proof.
  split.
  - intros a b. by rewrite lex_opp, <- !cmp_antisym.
  - intros a b c H.
    destruct (c1 a b) eqn:E1; try discriminate. cbn in H.
    by rewrite (cmp_eq_l a b c E1), (cmp_eq_l a b c H).
  - intros a b c x H1 H2.
    destruct (c1 a b) eqn:E1; cbn in H1.
    + rewrite (cmp_eq_l a b c E1).
      destruct (c1 b c) eqn:E2; cbn in H2 |- *; [|done..].
      by apply (cmp_trans a b c).
    + subst x. destruct (c1 b c) eqn:E2; cbn in H2; try discriminate.
      * by rewrite <- (cmp_eq_r c1 a b c E2), E1.
      * by rewrite (cmp_trans a b c Lt E1 E2).
    + subst x. destruct (c1 b c) eqn:E2; cbn in H2; try discriminate.
      * by rewrite <- (cmp_eq_r c1 a b c E2), E1.
      * by rewrite (cmp_trans a b c Gt E1 E2).
Qed.

Global Instance opp_total {A : Type} (c : A → A → comparison) `{!TotalCmp c} :
  TotalCmp (fun a b => CompOpp (c a b)).
Proof.
  split.
  - intros a b. f_equal. apply cmp_antisym.
  - intros a b c0 H. f_equal. apply cmp_eq_l. by destruct (c a b).
  - intros a b c0 x H1 H2. apply (f_equal CompOpp) in H1, H2.
    rewrite CompOpp_involutive in H1, H2.
    rewrite (cmp_trans a b c0 _ H1 H2). apply CompOpp_involutive.
Qed.

Global Instance on_total {A B : Type} (f : B → A) (c : A → A → comparison)
    `{!TotalCmp c} :
  TotalCmp (fun a b => c (f a) (f b)).
Proof.
  split.
  - intros a b. apply cmp_antisym.
  - intros a b c0. apply cmp_eq_l.
  - intros a b c0 x. apply cmp_trans.
Qed.

Global Instance const_total {A : Type} : TotalCmp (fun _ _ : A => Eq).
Proof. by split. Qed.

Lemma bson_compare_eq (a b : value) :
  bson_compare a b =
  lex (Z.compare (sort_key a).1.1 (sort_key b).1.1)
    (lex (Z.compare (sort_key a).1.2 (sort_key b).1.2)
       (String.compare (sort_key a).2 (sort_key b).2)).
Proof.
  unfold bson_compare.
  destruct (sort_key a) as [[r1 n1] s1], (sort_key b) as [[r2 n2] s2].
  reflexivity.
Qed.

Global Instance bson_compare_total : TotalCmp bson_compare.
Proof.
  pose proof (lex_total (fun a b => Z.compare (sort_key a).1.1 (sort_key b).1.1)
    (fun a b => lex (Z.compare (sort_key a).1.2 (sort_key b).1.2)
                  (String.compare (sort_key a).2 (sort_key b).2))) as H.
  destruct H as [H1 H2 H3]. split.
  - intros a b. rewrite !bson_compare_eq. apply H1.
  - intros a b c. rewrite !bson_compare_eq. apply H2.
  - intros a b c x. rewrite !bson_compare_eq. apply H3.
Qed.

Global Instance doc_compare_total (spec : list (string * Z)) :
  TotalCmp (doc_compare spec).
Proof.
  induction spec as [|[k dir] spec IH]; [apply const_total|].
  cbn [doc_compare].
  pose proof (on_total (fun a : doc => default VNone (a !! k)) bson_compare) as Hk.
  destruct (dir =? 1).
  - exact (@lex_total _ _ _ Hk IH).
  - exact (@lex_total _ _ _ (@opp_total _ _ Hk) IH).
Qed.

Global Instance doc_le_trans (spec : list (string * Z)) : Transitive (doc_le spec).
Proof.
  intros a b c. unfold doc_le, doc_leb.
  destruct (doc_compare spec a b) eqn:E1; try discriminate;
    destruct (doc_compare spec b c) eqn:E2; try discriminate; intros _ _.
  - by rewrite (cmp_eq_l a b c E1), E2.
  - by rewrite (cmp_eq_l a b c E1), E2.
  - by rewrite <- (cmp_eq_r (doc_compare spec) a b c E2), E1.
  - by rewrite (cmp_trans a b c Lt E1 E2).
Qed.

Global Instance doc_le_total (spec : list (string * Z)) : Total (doc_le spec).
Proof.
  intros a b. unfold doc_le, doc_leb. rewrite (cmp_antisym b a).
  destruct (doc_compare spec a b); cbn; auto.
Qed.

Lemma sort_docs_sorted (spec : list (string * Z)) (l : list doc) :
  StronglySorted (doc_le spec) (sort_docs spec l).
Proof. apply StronglySorted_merge_sort; apply _. Qed.

Lemma sort_docs_perm (spec : list (string * Z)) (l : list doc) :
  sort_docs spec l ≡ₚ l.
Proof. apply merge_sort_Permutation. Qed.

Lemma StronglySorted_lookup {A : Type} (R : relation A) (l : list A)
    (i j : nat) (a b : A) :
  StronglySorted R l → (i < j)%nat → l !! i = Some a → l !! j = Some b → R a b.
Proof.
  intros Hs. revert i j. induction Hs as [|x l Hs IH Hx]; intros i j Hij Hi Hj.
  - discriminate.
  - destruct j as [|j]; [lia|]. destruct i as [|i]; cbn in *.
    + injection Hi as <-. rewrite Forall_forall in Hx. apply Hx.
      by apply list_elem_of_lookup_2 in Hj.
    + apply (IH i j); [lia | done | done].
Qed.

(** * Sorting by priority *)

Example priority_order_values :
  priority_order (VStr "high") = 3 ∧ priority_order (VStr "medium") = 2
  ∧ priority_order (VStr "low") = 1 ∧ priority_order (VStr "urgent") = 0
  ∧ priority_order VNone = 0.
Proof. repeat split. Qed.

Lemma add_priority_order_fields (t : doc) :
  add_priority_order t !! "priority_order" = Some (VInt (ordinal t))
  ∧ ordinal (add_priority_order t) = ordinal t
  ∧ created_at (add_priority_order t) = created_at t.
Proof.
  unfold add_priority_order, ordinal, created_at.
  rewrite lookup_insert_eq, !lookup_insert_ne by done. done.
Qed.

Lemma bson_compare_int (x y : Z) : bson_compare (VInt x) (VInt y) = (x ?= y).
Proof. unfold bson_compare. cbn. by destruct (x ?= y). Qed.

(** What the sort specification of the pipeline says of two documents. *)
Lemma priority_spec_le (dir : Z) (a b : doc) :
  a !! "priority_order" = Some (VInt (ordinal a)) →
  b !! "priority_order" = Some (VInt (ordinal b)) →
  doc_le [("priority_order", dir); ("created_at", -1)] a b →
  (if dir =? 1 then ordinal a ≤ ordinal b else ordinal b ≤ ordinal a)
  ∧ (ordinal a = ordinal b → bson_compare (created_at b) (created_at a) ≠ Gt).
Proof.
  intros Ha Hb. unfold doc_le, doc_leb. cbn [doc_compare].
  rewrite Ha, Hb. cbn [default from_option id]. rewrite bson_compare_int.
  change (-1 =? 1) with false. cbn match. fold (created_at a) (created_at b).
  rewrite (cmp_antisym (created_at b) (created_at a)).
  destruct (Z.compare_spec (ordinal a) (ordinal b)) as [E|L|G];
    destruct (dir =? 1); cbn;
    destruct (bson_compare (created_at a) (created_at b)); cbn;
    intros H; try discriminate; split; try lia; try discriminate; intros; lia.
Qed.

Lemma mapM_result_Forall2 {A B : Type} (f : A → result B) (l : list A)
    (r : list B) :
  mapM_result f l = Ok r ↔ Forall2 (fun x y => f x = Ok y) l r.
Proof.
  revert r. induction l as [|x l IH]; intros r; cbn.
  - split; [intros [= <-]; constructor | by inversion 1].
  - destruct (f x) as [y|e] eqn:Ex; cbn.
    + destruct (mapM_result f l) as [ys|e] eqn:El; cbn.
      * split.
        -- intros [= <-]. constructor; [done | by apply IH].
        -- inversion 1 as [|? y' ? ys' Hy Hys]; subst.
           apply IH in Hys. congruence.
      * split; [discriminate|].
        inversion 1 as [|? y' ? ys' Hy Hys]; subst. apply IH in Hys. discriminate.
    + split; [discriminate | inversion 1; congruence].
Qed.

Lemma mapM_result_total {A B : Type} (f : A → result B) (l : list A) :
  Forall (fun x => ∃ y, f x = Ok y) l → ∃ r, mapM_result f l = Ok r.
Proof.
  induction 1 as [|x l [y Hy] _ [r Hr]]; cbn; [by eexists|].
  rewrite Hy, Hr. by eexists.
Qed.

Lemma build_query_ok (uid : value) (completed : option bool)
    (search category priority : option string) :
  default true (plain <$> search) = true →
  forallb clause_ok (build_query uid completed search category priority) = true.
Proof.
  intros Hs. unfold build_query.
  assert (H0 : ∀ q1 q2, forallb clause_ok q1 = true → forallb clause_ok q2 = true →
                 forallb clause_ok (q1 ++ q2) = true).
  { intros q1 q2 H1 H2. by rewrite forallb_app, H1, H2. }
  assert (H3 : forallb clause_ok
    (if nonempty priority
     then (if nonempty category
           then match completed with
                | Some b => [FieldEq "user_id" uid] ++ [FieldEq "completed" (VBool b)]
                | None => [FieldEq "user_id" uid]
                end ++ [FieldEq "category" (opt_str category)]
           else match completed with
                | Some b => [FieldEq "user_id" uid] ++ [FieldEq "completed" (VBool b)]
                | None => [FieldEq "user_id" uid]
                end) ++ [FieldEq "priority" (opt_str priority)]
     else (if nonempty category
           then match completed with
                | Some b => [FieldEq "user_id" uid] ++ [FieldEq "completed" (VBool b)]
                | None => [FieldEq "user_id" uid]
                end ++ [FieldEq "category" (opt_str category)]
           else match completed with
                | Some b => [FieldEq "user_id" uid] ++ [FieldEq "completed" (VBool b)]
                | None => [FieldEq "user_id" uid]
                end)) = true).
  { destruct (nonempty priority), (nonempty category), completed; reflexivity. }
  destruct search as [s|]; [|exact H3].
  destruct (nonempty (Some s)); [|exact H3].
  apply H0; [exact H3|]. cbn in Hs |- *. unfold plain in Hs.
  rewrite (compile_plain _ Hs). reflexivity.
Qed.

Lemma due_date_ok_add_priority_order (t : doc) :
  due_date_ok t → due_date_ok (add_priority_order t).
Proof.
  unfold due_date_ok, due_date_of, py_get, add_priority_order.
  by rewrite lookup_insert_ne.
Qed.

Lemma complete_task_add_priority_order (t : doc) :
  complete_task t = true → complete_task (add_priority_order t) = true.
Proof.
  unfold complete_task, add_priority_order, field, optional_field.
  by rewrite !lookup_insert_ne.
Qed.

(** C2, as the code has it.  With [sort_by = priority] the tasks are sorted
    by the ordinal high 3, medium 2, low 1, anything else 0, in the requested
    direction: ascending puts low before medium before high, descending puts
    high before medium before low.  Tasks of equal ordinal come in
    descending order of [created_at] in both directions.  The sorted
    documents are the matching tasks, each with its ordinal attached, and the
    response is the normalization, one by one, of the first thousand of
    them, each accepted by [TaskResponse]; there is a response whenever the
    direction is one of the two, the user has an identifier, the search
    string is plain and the stored tasks are complete. *)
Theorem priority_sort_follows_direction (today : date) (completed : option bool)
    (search category priority : option string) (sort_order : string)
    (current_user : doc) (db : store) :
  (∀ resp,
     get_tasks today completed search category priority "priority" sort_order
       current_user db = Ok resp →
     (sort_order = "asc" ∨ sort_order = "desc")
     ∧ ∃ (uid : value) (sorted : list doc),
         current_user !! "id" = Some uid
         ∧ sorted ≡ₚ
             add_priority_order <$>
               List.filter
                 (matches (build_query uid completed search category priority))
                 (tasks db)
         ∧ Forall2 (fun d r => prepare_task_for_response today d = Ok r
                               ∧ TaskResponse r = Ok r)
             (take 1000 sorted) resp
         ∧ ∀ i j a b, (i < j)%nat → sorted !! i = Some a → sorted !! j = Some b →
             (sort_order = "asc" → ordinal a ≤ ordinal b)
             ∧ (sort_order = "desc" → ordinal b ≤ ordinal a)
             ∧ (ordinal a = ordinal b →
                bson_compare (created_at b) (created_at a) ≠ Gt))
  ∧ (sort_order = "asc" ∨ sort_order = "desc" →
     is_Some (current_user !! "id") →
     default true (plain <$> search) = true →
     Forall (fun t => complete_task t = true) (tasks db) →
     ∃ resp,
       get_tasks today completed search category priority "priority" sort_order
         current_user db = Ok resp).
Proof.
  unfold get_tasks. change (sort_by_ok "priority") with true. cbn [andb].
  change ("priority" =? "priority")%string with true. cbv iota.
  set (dir := if (sort_order =? "asc")%string then 1 else -1).
  set (spec := [("priority_order", dir); ("created_at", -1)]).
  assert (Hall : ∀ q, Forall (fun d => ∃ t, t ∈ tasks db ∧ d = add_priority_order t)
     (sort_docs spec (add_priority_order <$> List.filter (matches q) (tasks db)))).
  { intros q. apply Forall_forall. intros d Hd.
    rewrite sort_docs_perm in Hd. apply list_elem_of_fmap in Hd as (t & -> & Ht).
    exists t. split; [|reflexivity].
    apply list_elem_of_In, filter_In in Ht as [Ht _]. by apply list_elem_of_In. }
  split.
  - intros resp.
    destruct (sort_order_ok sort_order) eqn:Hso; [|discriminate]. cbn [negb].
    assert (Hdir : sort_order = "asc" ∨ sort_order = "desc").
    { unfold sort_order_ok in Hso. apply bool_decide_eq_true in Hso.
      apply list_elem_of_In in Hso. cbn in Hso. intuition. }
    unfold py_item.
    destruct (current_user !! "id") as [uid|] eqn:Hid; [|discriminate].
    cbn [mbind result_bind]. unfold find.
    destruct (forallb clause_ok _); [|discriminate]. cbn [mbind result_bind].
    set (q := build_query uid completed search category priority).
    specialize (Hall q).
    set (sorted := sort_docs spec _) in *.
    intros Hresp. split; [exact Hdir|]. exists uid, sorted.
    split; [reflexivity|]. split; [apply sort_docs_perm|].
    split.
    { apply mapM_result_Forall2 in Hresp.
      eapply Forall2_impl; [exact Hresp|]. intros d r. apply serve_Ok. }
    intros i j a b Hij Ha Hb.
    pose proof (StronglySorted_lookup _ _ _ _ _ _ (sort_docs_sorted spec _) Hij Ha Hb)
      as Hle.
    rewrite Forall_forall in Hall.
    destruct (Hall a (list_elem_of_lookup_2 _ _ _ Ha)) as (ta & _ & ->).
    destruct (Hall b (list_elem_of_lookup_2 _ _ _ Hb)) as (tb & _ & ->).
    destruct (add_priority_order_fields ta) as (Ha1 & Ha2 & _).
    destruct (add_priority_order_fields tb) as (Hb1 & Hb2 & _).
    rewrite <- Ha2 in Ha1. rewrite <- Hb2 in Hb1.
    destruct (priority_spec_le dir _ _ Ha1 Hb1 Hle) as [Hord Htie].
    split; [|split; [|exact Htie]].
    + intros ->. exact Hord.
    + intros ->. exact Hord.
  - intros Hdir [uid Hid] Hs Hok.
    assert (sort_order_ok sort_order = true) as ->
      by (destruct Hdir as [-> | ->]; reflexivity).
    cbn [negb]. unfold py_item. rewrite Hid. cbn [mbind result_bind].
    unfold find. rewrite build_query_ok by exact Hs. cbn [mbind result_bind].
    apply mapM_result_total. apply Forall_take.
    specialize (Hall (build_query uid completed search category priority)).
    eapply Forall_impl; [exact Hall|]. intros d (t & Ht & ->). cbn beta.
    apply serve_complete, complete_task_add_priority_order.
    rewrite Forall_forall in Hok. by apply Hok.
Qed.

Lemma priority_sort_follows_direction_witness :
  ∃ resp,
    get_tasks (mkDate 2024 1 16) None None None None "priority" "desc" bob
      three_tasks = Ok resp
    ∧ (∃ sorted,
         Forall2 (fun d r => prepare_task_for_response (mkDate 2024 1 16) d = Ok r
                             ∧ TaskResponse r = Ok r)
           (take 1000 sorted) resp
         ∧ ∀ i j a b, (i < j)%nat → sorted !! i = Some a → sorted !! j = Some b →
             ordinal b ≤ ordinal a).
Proof.
  destruct (priority_sort_follows_direction (mkDate 2024 1 16) None None None
              None "desc" bob three_tasks) as [Hsorted Htotal].
  destruct Htotal as [resp Hr].
  { by right. }
  { by eexists. }
  { reflexivity. }
  { repeat (constructor; [reflexivity|]). constructor. }
  exists resp. split; [exact Hr|].
  destruct (Hsorted resp Hr) as (_ & uid & sorted & _ & _ & H2 & Hord).
  exists sorted. split; [exact H2|].
  intros i j a b Hij Ha Hb. by apply (Hord i j a b Hij Ha Hb).
Defined.

(** C2, as stated, fails on its own scenario: for tasks of priority low,
    high, medium created in this order, ascending order returns low, medium,
    high; descending order returns high, medium, low. *)
Lemma priority_ascending_puts_low_first :
  priorities (get_tasks (mkDate 2024 1 16) None None None None "priority" "asc"
                bob three_tasks)
  = Ok [VStr "low"; VStr "medium"; VStr "high"]
  ∧ priorities (get_tasks (mkDate 2024 1 16) None None None None "priority" "asc"
                  bob three_tasks)
    ≠ Ok [VStr "high"; VStr "medium"; VStr "low"]
  ∧ priorities (get_tasks (mkDate 2024 1 16) None None None None "priority" "desc"
                  bob three_tasks)
    = Ok [VStr "high"; VStr "medium"; VStr "low"].
Proof.
  assert (H : priorities (get_tasks (mkDate 2024 1 16) None None None None
                            "priority" "asc" bob three_tasks)
              = Ok [VStr "low"; VStr "medium"; VStr "high"])
    by (vm_compute; reflexivity).
  split; [exact H|]. split; [rewrite H; discriminate|].
  vm_compute. reflexivity.
Qed.

(** * The token scenarios *)

Lemma token_expires_after_thirty_minutes_witness :
  get_current_user sample_key (1000 + timedelta_minutes 29) (Some bob_token)
    bob_store = Ok bob
  ∧ get_current_user sample_key (1000 + timedelta_minutes 31) (Some bob_token)
      bob_store = Raise (HTTPException 401 "Token expired")
  ∧ get_current_user sample_key (1000 + timedelta_minutes 30) (Some bob_token)
      bob_store = Raise (HTTPException 401 "Token expired").
Proof.
  destruct (token_expires_after_thirty_minutes sample_key sample_hashpw
              sample_checkpw 1000 (VStr "u1") bob_store)
    as (_ & _ & H29 & _ & H31 & Hdead & _).
  split; [|split].
  - unfold bob_token. rewrite H29 by discriminate. reflexivity.
  - exact H31.
  - apply (Hdead (1000 + timedelta_minutes 30)). reflexivity.
Defined.

Lemma default_expiry_is_fifteen_minutes_witness :
  jwt_decode (1000 + timedelta_minutes 16)
    (create_access_token sample_key 1000 {[ "sub" := VStr "u1" ]} None) sample_key
  = Raise ExpiredSignatureError
  ∧ jwt_decode (1000 + timedelta_minutes 14)
      (create_access_token sample_key 1000 {[ "sub" := VStr "u1" ]} None)
      sample_key
    = Ok {[ "exp" := VInt (1000 + timedelta_minutes 15); "sub" := VStr "u1" ]}.
Proof.
  destruct (default_expiry_is_fifteen_minutes sample_key sample_hashpw
              sample_checkpw 1000 {[ "sub" := VStr "u1" ]})
    as (_ & Hdead & Hlive & _).
  split.
  - apply Hdead. unfold timedelta_minutes. lia.
  - apply Hlive. unfold timedelta_minutes. lia.
Defined.

(** * Deleting, reading and updating one task *)

(** The first match of a filter splits a collection. *)
Lemma find_one_split (q : query) (coll : list doc) (t : doc) :
  find_one q coll = Ok (Some t) →
  ∃ l1 l2, coll = l1 ++ t :: l2
           ∧ Forall (fun d => matches q d = false) l1 ∧ matches q t = true.
Proof.
  unfold find_one, find. destruct (forallb clause_ok q); [|discriminate]. cbn.
  induction coll as [|d coll IH]; cbn; [discriminate|].
  destruct (matches q d) eqn:E; cbn.
  - intros [= ->]. exists [], coll. by repeat split.
  - intros H. destruct (IH H) as (l1 & l2 & -> & Hl1 & Ht).
    exists (d :: l1), l2. repeat split; [by constructor | done].
Qed.

Lemma delete_first_none (q : query) (coll : list doc) :
  Forall (fun d => matches q d = false) coll → delete_first q coll = (coll, 0).
Proof.
  induction 1 as [|d coll Hd _ IH]; cbn; [reflexivity|]. by rewrite Hd, IH.
Qed.

Lemma delete_first_split (q : query) (l1 l2 : list doc) (t : doc) :
  Forall (fun d => matches q d = false) l1 → matches q t = true →
  delete_first q (l1 ++ t :: l2) = (l1 ++ l2, 1).
Proof.
  intros H Ht. induction H as [|d l1 Hd _ IH]; cbn; [by rewrite Ht|].
  by rewrite Hd, IH.
Qed.

Lemma set_first_split (q : query) (upd : doc) (l1 l2 : list doc) (t : doc) :
  Forall (fun d => matches q d = false) l1 → matches q t = true →
  set_first q upd (l1 ++ t :: l2) = l1 ++ (upd ∪ t) :: l2.
Proof.
  intros H Ht. induction H as [|d l1 Hd _ IH]; cbn; [by rewrite Ht|].
  by rewrite Hd, IH.
Qed.

Lemma stored_task_None (task_id : string) (uid : value) (db : store) :
  stored_task task_id uid db = None →
  Forall (fun d => matches (task_filter task_id uid) d = false) (tasks db).
Proof.
  unfold stored_task. intros H. apply Forall_forall. intros d Hd.
  destruct (find_one_is_Ok (task_filter task_id uid) (tasks db) eq_refl)
    as [o Ho].
  rewrite Ho in H. subst o. by apply (find_one_None _ _ _ Ho).
Qed.

Lemma stored_task_Some (task_id : string) (uid : value) (db : store) (t : doc) :
  stored_task task_id uid db = Some t →
  find_one (task_filter task_id uid) (tasks db) = Ok (Some t).
Proof.
  unfold stored_task. destruct (find_one _ _) as [o|]; [|discriminate].
  by intros ->.
Qed.

Lemma matches_task_filter (task_id : string) (uid : value) (d : doc) :
  matches (task_filter task_id uid) d = true ↔
  d !! "id" = Some (VStr task_id) ∧ default VNone (d !! "user_id") = uid.
Proof.
  unfold matches. cbn. rewrite andb_true_r, andb_true_iff.
  rewrite !bool_decide_eq_true. split; intros [H1 H2]; split; try done.
  - destruct (d !! "id"); cbn in H1; congruence.
  - by rewrite H1.
Qed.

(** X1.  Deleting removes the task that the filter of the caller finds, the
    first stored task with this identifier and this owner, and nothing
    else; when there is none, a task of another owner included, the answer
    is 404 and the store is unchanged. *)
Theorem delete_task_removes_own_task (task_id : string) (current_user : doc)
    (db : store) (uid : value) :
  current_user !! "id" = Some uid →
  (stored_task task_id uid db = None →
   delete_task task_id current_user db = (Raise not_found, db))
  ∧ (∀ t, stored_task task_id uid db = Some t →
       ∃ l1 l2,
         tasks db = l1 ++ t :: l2
         ∧ t !! "id" = Some (VStr task_id)
         ∧ default VNone (t !! "user_id") = uid
         ∧ delete_task task_id current_user db
           = (Ok "Task deleted successfully", mkStore (users db) (l1 ++ l2))).
Proof.
  intros Hid. unfold delete_task, py_item. rewrite Hid.
  cbn [forallb clause_ok andb]. fold (task_filter task_id uid). split.
  - intros H. by rewrite (delete_first_none _ _ (stored_task_None _ _ _ H)).
  - intros t H. apply stored_task_Some, find_one_split in H
      as (l1 & l2 & Hl & Hl1 & Ht).
    exists l1, l2. rewrite Hl, (delete_first_split _ _ _ _ Hl1 Ht).
    apply matches_task_filter in Ht as [Ht1 Ht2]. by repeat split.
Qed.

Lemma delete_task_removes_own_task_witness :
  delete_task "t9" bob shared_store = (Raise not_found, shared_store)
  ∧ ∃ l1 l2,
      tasks shared_store = l1 ++ bob_task :: l2
      ∧ delete_task "t1" bob shared_store
        = (Ok "Task deleted successfully", mkStore [bob] (l1 ++ l2)).
Proof.
  destruct (delete_task_removes_own_task "t9" bob shared_store (VStr "u1")
              eq_refl) as [H9 _].
  destruct (delete_task_removes_own_task "t1" bob shared_store (VStr "u1")
              eq_refl) as [_ H1].
  split; [by apply H9|].
  destruct (H1 bob_task eq_refl) as (l1 & l2 & Hl & _ & _ & Hd).
  by exists l1, l2.
Defined.

(** [TaskResponse] refuses a dictionary without a description, or with
    a null one. *)
Lemma TaskResponse_no_description (d : doc) :
  d !! "description" = None ∨ d !! "description" = Some VNone →
  TaskResponse d = Raise ValidationError.
Proof.
  intros H. unfold TaskResponse.
  assert (field d "description" is_str = false) as ->
    by (unfold field; by destruct H as [-> | ->]).
  by rewrite andb_false_r.
Qed.

Lemma serve_no_description (today : date) (t : doc) :
  due_date_ok t →
  t !! "description" = None ∨ t !! "description" = Some VNone →
  (response_task ← prepare_task_for_response today t;
   TaskResponse response_task) = Raise ValidationError.
Proof.
  intros Hok Hd. destruct (prepare_total today t Hok) as [r Hr]. rewrite Hr.
  cbn [mbind result_bind]. apply TaskResponse_no_description.
  rewrite (prepare_other_fields _ _ _ "description" Hr); [exact Hd|].
  intros Hin. apply list_elem_of_In in Hin. cbn in Hin.
  repeat (destruct Hin as [Hin|Hin]; [discriminate|]). exact Hin.
Qed.

Lemma get_task_eq (today : date) (task_id : string) (current_user : doc)
    (db : store) (uid : value) :
  current_user !! "id" = Some uid →
  get_task today task_id current_user db
  = match stored_task task_id uid db with
    | Some t =>
        response_task ← prepare_task_for_response today t;
        TaskResponse response_task
    | None => Raise not_found
    end.
Proof.
  intros Hid. unfold get_task, py_item. rewrite Hid.
  cbn [mbind result_bind]. fold (task_filter task_id uid). unfold stored_task.
  destruct (find_one_is_Ok (task_filter task_id uid) (tasks db) eq_refl)
    as [[t|] Ho]; rewrite Ho; cbn [mbind result_bind]; [|reflexivity].
  destruct (find_one_Some _ _ _ Ho) as [_ Hm].
  by rewrite (matches_eq_found _ _ _ _ Hm).
Qed.

(** X2.  [get_task] looks up the first stored task that has the identifier
    and belongs to the caller, normalizes it and hands it to
    [TaskResponse]: a complete task is served in its normalized form, a
    task without a description (or with a null one) is answered with a
    [ValidationError]; when the caller owns no such task the answer is 404,
    whoever else owns a task with this identifier; a caller without an
    identifier gets a [KeyError]. *)
Theorem get_task_serves_own_task (today : date) (task_id : string)
    (current_user : doc) (db : store) :
  (current_user !! "id" = None →
   get_task today task_id current_user db = Raise (KeyError "id"))
  ∧ (∀ uid, current_user !! "id" = Some uid →
       (get_task today task_id current_user db
        = match stored_task task_id uid db with
          | Some t =>
              response_task ← prepare_task_for_response today t;
              TaskResponse response_task
          | None => Raise not_found
          end)
       ∧ (∀ t, stored_task task_id uid db = Some t →
            t ∈ tasks db ∧ t !! "id" = Some (VStr task_id)
            ∧ default VNone (t !! "user_id") = uid)
       ∧ (∀ t, stored_task task_id uid db = Some t → complete_task t = true →
            ∃ r, get_task today task_id current_user db = Ok r
                 ∧ prepare_task_for_response today t = Ok r)
       ∧ (∀ t, stored_task task_id uid db = Some t → due_date_ok t →
            t !! "description" = None ∨ t !! "description" = Some VNone →
            get_task today task_id current_user db = Raise ValidationError)
       ∧ (Forall (fun d => d !! "id" = Some (VStr task_id) →
                           default VNone (d !! "user_id") ≠ uid) (tasks db) →
          get_task today task_id current_user db = Raise not_found)).
Proof.
  split; [by unfold get_task, py_item; intros ->|].
  intros uid Hid. pose proof (get_task_eq today task_id _ db _ Hid) as Heq.
  split; [exact Heq|]. split; [|split; [|split]].
  - intros t Ht. apply stored_task_Some, find_one_Some in Ht as [Hin Hm].
    apply matches_task_filter in Hm as [H1 H2]. by repeat split.
  - intros t Ht Hc. rewrite Heq, Ht.
    destruct (serve_complete today t Hc) as [r Hr]. exists r.
    split; [exact Hr | exact (proj1 (serve_Ok _ _ _ Hr))].
  - intros t Ht Hok Hd. rewrite Heq, Ht. by apply serve_no_description.
  - intros Hall. rewrite Heq.
    destruct (stored_task task_id uid db) as [t|] eqn:Ht; [|reflexivity].
    apply stored_task_Some, find_one_Some in Ht as [Hin Hm].
    apply matches_task_filter in Hm as [H1 H2].
    rewrite Forall_forall in Hall. by destruct (Hall t Hin H1).
Qed.

Lemma get_task_serves_own_task_witness :
  get_task (mkDate 2024 1 16) "t9" bob shared_store = Raise not_found
  ∧ ∃ r, get_task (mkDate 2024 1 16) "t1" bob shared_store = Ok r
         ∧ prepare_task_for_response (mkDate 2024 1 16) bob_task = Ok r.
Proof.
  destruct (get_task_serves_own_task (mkDate 2024 1 16) "t9" bob shared_store)
    as [_ H9].
  destruct (get_task_serves_own_task (mkDate 2024 1 16) "t1" bob shared_store)
    as [_ H1].
  destruct (H9 (VStr "u1") eq_refl) as (_ & _ & _ & _ & H9').
  destruct (H1 (VStr "u1") eq_refl) as (_ & _ & H1' & _).
  split; [|by apply (H1' bob_task)].
  apply H9'. repeat constructor; intros H; vm_compute in H |- *; congruence.
Defined.

(** An update of a complete task with a request whose due date is a date
    Python can build leaves a complete task. *)
Lemma complete_task_update (now : Z) (tu : TaskUpdate.t) (t : doc) :
  (∀ d, TaskUpdate.due_date tu = Some d → valid d = true) →
  complete_task t = true → complete_task (update_fields now tu ∪ t) = true.
Proof.
  intros Hv. unfold complete_task. rewrite !andb_true_iff.
  intros (((((((((Hid & Hti) & Hde) & Hdd) & Hpr) & Hca) & Hco) & Hus) & Hcr) & Hup).
  destruct (update_data_of_lookup tu) as (Lt & Ld & Ldd & Lp & Lc & Lco & Lk).
  assert (Hkeep : ∀ k p, k ∉ "updated_at" :: request_fields →
            field t k p = true → field (update_fields now tu ∪ t) k p = true).
  { intros k p Hk. unfold field. rewrite lookup_union_r; [done|].
    apply update_data_keys. intros Hin. apply Hk.
    apply list_elem_of_In. apply list_elem_of_In in Hin. cbn in *. tauto. }
  assert (Hnot : ∀ k, k ≠ "updated_at" → k ≠ "title" → k ≠ "description" →
            k ≠ "due_date" → k ≠ "priority" → k ≠ "category" →
            k ≠ "completed" → k ∉ "updated_at" :: request_fields).
  { intros k H0 H1 H2 H3 H4 H5 H6 Hin. apply list_elem_of_In in Hin.
    cbn in Hin. intuition congruence. }
  repeat split.
  - by apply Hkeep; [apply Hnot|].
  - unfold field in *. rewrite update_fields_lookup, Lt by done.
    by destruct (TaskUpdate.title tu).
  - unfold field in *. rewrite update_fields_lookup, Ld by done.
    by destruct (TaskUpdate.description tu).
  - unfold optional_field in *. rewrite update_fields_lookup, Ldd by done.
    destruct (TaskUpdate.due_date tu) as [d|] eqn:E; [|exact Hdd].
    cbn [fmap option_fmap option_map stored_due_date_ok].
    rewrite length_isoformat, fromisoformat_isoformat by by apply Hv.
    apply bool_decide_eq_true. by eexists.
  - unfold optional_field in *. rewrite update_fields_lookup, Lp by done.
    by destruct (TaskUpdate.priority tu).
  - unfold optional_field in *. rewrite update_fields_lookup, Lc by done.
    by destruct (TaskUpdate.category tu).
  - unfold field in *. rewrite update_fields_lookup, Lco by done.
    by destruct (TaskUpdate.completed tu).
  - by apply Hkeep; [apply Hnot|].
  - by apply Hkeep; [apply Hnot|].
  - unfold field, update_fields.
    rewrite (lookup_union_Some_l _ _ _ (VDateTime now));
      [reflexivity | apply lookup_insert_eq].
Qed.

(** X3.  [update_task] answers 404 and leaves the store alone when the
    caller owns no task with the identifier.  Otherwise it rewrites that one
    task in place: the users, every other task and the order of the tasks
    are unchanged, and in the task itself only the six fields of the request
    and [updated_at] can change, so identifier, owner and creation time
    stay.  The answer is the normalized form of the rewritten task, handed
    to [TaskResponse]; a complete task is still complete, and is served. *)
Theorem update_task_touches_one_task (now : Z) (today : date) (task_id : string)
    (task_update : TaskUpdate.t) (current_user : doc) (db : store) (uid : value) :
  current_user !! "id" = Some uid →
  (stored_task task_id uid db = None →
   update_task now today task_id task_update current_user db
   = (Raise not_found, db))
  ∧ (∀ t, stored_task task_id uid db = Some t →
       ∃ l1 l2 t',
         tasks db = l1 ++ t :: l2
         ∧ (update_task now today task_id task_update current_user db).2
           = mkStore (users db) (l1 ++ t' :: l2)
         ∧ (update_task now today task_id task_update current_user db).1
           = (response_task ← prepare_task_for_response today t';
              TaskResponse response_task)
         ∧ (∀ k, k ∉ "updated_at" :: request_fields → t' !! k = t !! k)
         ∧ (complete_task t = true →
            (∀ d, TaskUpdate.due_date task_update = Some d → valid d = true) →
            complete_task t' = true
            ∧ ∃ r,
                (update_task now today task_id task_update current_user db).1
                = Ok r)).
Proof.
  intros Hid. split.
  - intros Hn. unfold update_task, py_item. rewrite Hid.
    fold (task_filter task_id uid). unfold stored_task in Hn.
    destruct (find_one_is_Ok (task_filter task_id uid) (tasks db) eq_refl)
      as [o Ho].
    rewrite Ho in Hn |- *. by subst o.
  - intros t Ht. apply stored_task_Some in Ht.
    rewrite (update_task_eq _ _ _ _ _ _ _ _ Hid Ht).
    destruct (find_one_split _ _ _ Ht) as (l1 & l2 & Hl & Hl1 & Hm).
    exists l1, l2. destruct (bool_decide _).
    + exists t. cbn [fst snd].
      split; [done|]. split; [by destruct db; cbn in *; subst|].
      split; [reflexivity|]. split; [done|].
      intros Hc _. split; [exact Hc | by apply serve_complete].
    + exists (update_fields now task_update ∪ t). cbn [fst snd tasks].
      rewrite Hl, (set_first_split _ _ _ _ _ Hl1 Hm).
      split; [done|]. split; [reflexivity|]. split; [reflexivity|]. split.
      * intros k Hk. rewrite lookup_union_r; [done|].
        apply update_data_keys. intros Hin. apply Hk.
        apply list_elem_of_In. apply list_elem_of_In in Hin. cbn in *. tauto.
      * intros Hc Hv.
        pose proof (complete_task_update now task_update t Hv Hc) as Hc'.
        split; [exact Hc' | by apply serve_complete].
Qed.

Lemma update_task_touches_one_task_witness :
  update_task 200 (mkDate 2024 1 16) "t9" same_title bob shared_store
  = (Raise not_found, shared_store)
  ∧ ∃ l1 l2 t',
      tasks shared_store = l1 ++ bob_task :: l2
      ∧ (update_task 200 (mkDate 2024 1 16) "t1" same_title bob
           shared_store).2 = mkStore [bob] (l1 ++ t' :: l2)
      ∧ t' !! "created_at" = Some (VDateTime 100).
Proof.
  destruct (update_task_touches_one_task 200 (mkDate 2024 1 16) "t9" same_title
              bob shared_store (VStr "u1") eq_refl) as [H9 _].
  destruct (update_task_touches_one_task 200 (mkDate 2024 1 16) "t1" same_title
              bob shared_store (VStr "u1") eq_refl) as [_ H1].
  split; [by apply H9|].
  destruct (H1 bob_task eq_refl) as (l1 & l2 & t' & Hl & Hs & _ & Hk & _).
  exists l1, l2, t'. split; [exact Hl|]. split; [exact Hs|].
  rewrite Hk; [reflexivity|].
  intros Hin. apply list_elem_of_In in Hin. cbn in Hin.
  repeat (destruct Hin as [Hin|Hin]; [discriminate|]). exact Hin.
Defined.

(** * More on the normalizer *)

(** X4.  The normalizer writes four fields only: every other field of the
    record is served as stored, a priority or a category that is present
    (even null) is kept, and the served record always has [due_date],
    [priority], [category] and a boolean [is_overdue]. *)
Theorem normalizer_changes_four_fields (today : date) (task r : doc) :
  prepare_task_for_response today task = Ok r →
  (∀ k, k ∉ ["due_date"; "priority"; "category"; "is_overdue"] →
        r !! k = task !! k)
  ∧ (∀ v, task !! "priority" = Some v → r !! "priority" = Some v)
  ∧ (∀ v, task !! "category" = Some v → r !! "category" = Some v)
  ∧ (task !! "priority" = None → r !! "priority" = Some (VStr "medium"))
  ∧ (task !! "category" = None → r !! "category" = Some (VStr "General"))
  ∧ (∀ v, task !! "due_date" = Some v → isinstance_date v = false →
          r !! "due_date" = Some v)
  ∧ (task !! "due_date" = None → r !! "due_date" = Some VNone)
  ∧ (∃ b, r !! "is_overdue" = Some (VBool b)).
Proof.
  intros Hr.
  destruct (prepare_fields _ _ _ Hr) as (Hdd & Hp & Hc & _ & b & Hf & _).
  split; [intros k Hk; by apply (prepare_other_fields today)|].
  unfold py_get in *. repeat split.
  - intros v Hv. by rewrite Hp, Hv.
  - intros v Hv. by rewrite Hc, Hv.
  - intros Hv. by rewrite Hp, Hv.
  - intros Hv. by rewrite Hc, Hv.
  - intros v Hv Hi. rewrite Hdd, Hv. cbn. by rewrite canonical_nondate.
  - intros Hv. by rewrite Hdd, Hv.
  - by exists b.
Qed.

Lemma normalizer_changes_four_fields_witness :
  ∃ r, prepare_task_for_response (mkDate 2024 1 16) sample_task = Ok r
       ∧ r !! "title" = Some (VStr "report")
       ∧ r !! "priority" = Some (VStr "medium").
Proof.
  destruct (prepare_total (mkDate 2024 1 16) sample_task) as [r Hr].
  { right. exists (mkDate 2024 1 15). vm_compute. reflexivity. }
  exists r. split; [exact Hr|].
  destruct (normalizer_changes_four_fields _ _ _ Hr) as (Hk & _ & _ & Hp & _).
  split.
  - rewrite Hk; [reflexivity|].
    intros Hin. apply list_elem_of_In in Hin. cbn in Hin.
    repeat (destruct Hin as [Hin|Hin]; [discriminate|]). exact Hin.
  - by apply Hp.
Defined.

Lemma is_letter_no_digit (c : ascii) :
  is_letter c = true → digit_val c = None.
Proof.
  destruct c as [b0 b1 b2 b3 b4 b5 b6 b7].
  destruct b0, b1, b2, b3, b4, b5, b6, b7; vm_compute; congruence.
Qed.

(** A string that starts with a letter does not read as a date. *)
Lemma starts_with_letter_unreadable (s : string) :
  starts_with_letter s = true → fromisoformat_date s = None.
Proof.
  destruct s as [|y1 s]; [discriminate|]. cbn [starts_with_letter].
  intros H. apply is_letter_no_digit in H.
  destruct s as [|y2 [|y3 [|y4 [|c5 [|m1 [|m2 [|c8 [|d1 [|d2 rest]]]]]]]]];
    try reflexivity;
    try (destruct c5 as [[] [] [] [] [] [] [] []]; try reflexivity);
    try (destruct c8 as [[] [] [] [] [] [] [] []]; try reflexivity).
  unfold fromisoformat_date, num4, num2. by rewrite H.
Qed.

(** X5.  A due date that is a string starting with a letter, so that it
    does not read as a date, stops the normalizer with [ValueError] when
    the task is not completed; when the task is completed a due date that
    is a non-empty string is never read, and the record is served with the
    string as it is and the flag false. *)
Theorem unreadable_due_date (today : date) (task : doc) (s : string) :
  task !! "due_date" = Some (VStr s) → s ≠ "" →
  (is_completed task = false → starts_with_letter s = true →
   prepare_task_for_response today task = Raise ValueError)
  ∧ (is_completed task = true →
     ∃ r, prepare_task_for_response today task = Ok r
          ∧ r !! "due_date" = Some (VStr s)
          ∧ r !! "is_overdue" = Some (VBool false)).
Proof.
  intros Hd Hs. rewrite prepare_unfold. fold (is_completed task).
  unfold py_get. rewrite Hd. cbn [default from_option id].
  change (default VNone (Some ?x)) with x.
  assert (Ht : truthy (VStr s) = true).
  { cbn. apply negb_true_iff. by apply String.eqb_neq. }
  unfold overdue_of. rewrite Ht. split; intros ->; cbn [negb andb].
  - intros Hp. by rewrite (starts_with_letter_unreadable s Hp).
  - cbn [mbind result_bind]. eexists. split; [reflexivity|]. split.
    + rewrite lookup_insert_eq. by rewrite canonical_nondate.
    + rewrite lookup_insert_ne by done. apply lookup_insert_eq.
Qed.

Lemma unreadable_due_date_witness :
  prepare_task_for_response (mkDate 2024 1 16)
    ({[ "due_date" := VStr "soon" ]} : doc) = Raise ValueError
  ∧ ∃ r, prepare_task_for_response (mkDate 2024 1 16)
           ({[ "due_date" := VStr "soon"; "completed" := VBool true ]} : doc)
         = Ok r ∧ r !! "is_overdue" = Some (VBool false).
Proof.
  split.
  - apply (unreadable_due_date (mkDate 2024 1 16) _ "soon"); reflexivity || done.
  - destruct (unreadable_due_date (mkDate 2024 1 16)
                ({[ "due_date" := VStr "soon"; "completed" := VBool true ]} : doc)
                "soon") as [_ H]; [reflexivity | done |].
    destruct H as (r & Hr & _ & Hf); [reflexivity|]. by exists r.
Defined.

(** * The answer of an update *)

(** X6.  The answer of a successful update shows every supplied field with
    the supplied value (a due date in ISO form) and, when a field was
    supplied, the time of the update as [updated_at]; an update that marks
    the task completed is answered with [is_overdue] false, whatever the
    due date. *)
Theorem update_task_answer_shows_request (now : Z) (today : date)
    (task_id : string) (task_update : TaskUpdate.t) (current_user : doc)
    (db : store) (uid : value) (t r : doc) :
  current_user !! "id" = Some uid →
  stored_task task_id uid db = Some t →
  (update_task now today task_id task_update current_user db).1 = Ok r →
  (∀ x, TaskUpdate.title task_update = Some x → r !! "title" = Some (VStr x))
  ∧ (∀ x, TaskUpdate.description task_update = Some x →
          r !! "description" = Some (VStr x))
  ∧ (∀ d, TaskUpdate.due_date task_update = Some d →
          r !! "due_date" = Some (VStr (isoformat d)))
  ∧ (∀ p, TaskUpdate.priority task_update = Some p →
          r !! "priority" = Some (VStr (priority_str p)))
  ∧ (∀ c, TaskUpdate.category task_update = Some c →
          r !! "category" = Some (VStr c))
  ∧ (∀ b, TaskUpdate.completed task_update = Some b →
          r !! "completed" = Some (VBool b))
  ∧ (TaskUpdate.completed task_update = Some true →
     r !! "is_overdue" = Some (VBool false))
  ∧ (task_update ≠ no_fields → r !! "updated_at" = Some (VDateTime now)).
Proof.
  intros Hid Ht. apply stored_task_Some in Ht.
  rewrite (update_task_eq _ _ _ _ _ _ _ _ Hid Ht).
  destruct (bool_decide (update_data_of task_update = ∅)) eqn:He.
  { apply bool_decide_eq_true, update_data_empty_iff in He. subst task_update.
    intros _. repeat split; intros; done. }
  cbn [fst]. intros Hr. apply serve_Ok in Hr as [Hr _].
  pose proof (update_data_of_lookup task_update)
    as (H1 & H2 & H3 & H4 & H5 & H6 & _).
  set (t' := update_fields now task_update ∪ t) in *.
  assert (Hl : ∀ k v, k ≠ "updated_at" → update_data_of task_update !! k = Some v →
                 t' !! k = Some v).
  { intros k v Hk Hv. unfold t'. by rewrite update_fields_lookup, Hv. }
  destruct (prepare_fields _ _ _ Hr) as (Hdd & Hp & Hc & _ & b & Hf & Hb).
  assert (Hsame : ∀ k, k ∉ ["due_date"; "priority"; "category"; "is_overdue"] →
                    r !! k = t' !! k)
    by (intros k; by apply (prepare_other_fields today)).
  assert (Hnot : ∀ k, k ≠ "due_date" → k ≠ "priority" → k ≠ "category" →
                   k ≠ "is_overdue" →
                   k ∉ ["due_date"; "priority"; "category"; "is_overdue"]).
  { intros k ? ? ? ? Hin. apply list_elem_of_In in Hin. cbn in Hin.
    intuition congruence. }
  repeat split.
  - intros x E. rewrite Hsame by (by apply Hnot). apply Hl; [done|].
    by rewrite H1, E.
  - intros x E. rewrite Hsame by (by apply Hnot). apply Hl; [done|].
    by rewrite H2, E.
  - intros d E. rewrite Hdd. unfold py_get.
    rewrite (Hl "due_date" (VStr (isoformat d))) by (done || by rewrite H3, E).
    change (default VNone (Some ?x)) with x. by rewrite canonical_nondate.
  - intros p E. rewrite Hp. unfold py_get.
    by rewrite (Hl "priority" (VStr (priority_str p))) by (done || by rewrite H4, E).
  - intros c E. rewrite Hc. unfold py_get.
    by rewrite (Hl "category" (VStr c)) by (done || by rewrite H5, E).
  - intros c E. rewrite Hsame by (by apply Hnot). apply Hl; [done|].
    by rewrite H6, E.
  - intros E. rewrite Hf. do 2 f_equal.
    assert (Hcomp : is_completed t' = true).
    { unfold is_completed, py_get.
      by rewrite (Hl "completed" (VBool true)) by (done || by rewrite H6, E). }
    rewrite Hcomp in Hb. unfold overdue_of in Hb. rewrite andb_false_r in Hb.
    congruence.
  - intros _. rewrite Hsame by (by apply Hnot). unfold t', update_fields.
    apply lookup_union_Some_l, lookup_insert_eq.
Qed.

Lemma update_task_answer_shows_request_witness :
  ∃ r, (update_task 200 (mkDate 2024 1 16) "t1"
          (TaskUpdate.mk None None None None None (Some true)) bob bob_store).1
       = Ok r
       ∧ r !! "is_overdue" = Some (VBool false)
       ∧ r !! "updated_at" = Some (VDateTime 200).
Proof.
  set (req := TaskUpdate.mk None None None None None (Some true)).
  destruct (serve_complete (mkDate 2024 1 16) (update_fields 200 req ∪ bob_task))
    as [r Hr].
  { apply complete_task_update; [discriminate | reflexivity]. }
  assert (Hresp : (update_task 200 (mkDate 2024 1 16) "t1" req bob bob_store).1
                  = Ok r).
  { rewrite (update_task_eq 200 (mkDate 2024 1 16) "t1" req bob bob_store
               (VStr "u1") bob_task eq_refl eq_refl).
    rewrite bool_decide_eq_false_2 by (rewrite update_data_empty_iff; discriminate).
    exact Hr. }
  exists r. split; [exact Hresp|].
  destruct (update_task_answer_shows_request 200 (mkDate 2024 1 16) "t1" req bob
              bob_store (VStr "u1") bob_task r eq_refl eq_refl Hresp)
    as (_ & _ & _ & _ & _ & _ & Hf & Hu).
  split; [by apply Hf | by apply Hu].
Defined.

(** * Creating a task *)




(** * Listing tasks *)

(** The filter of [get_tasks], clause by clause. *)
Lemma matches_build_query (uid : value) (completed : option bool)
    (search category priority : option string) (t : doc) :
  matches (build_query uid completed search category priority) t =
  bool_decide (default VNone (t !! "user_id") = uid)
  && match completed with
     | Some b => bool_decide (default VNone (t !! "completed") = VBool b)
     | None => true
     end
  && (if nonempty category
      then bool_decide (default VNone (t !! "category") = opt_str category)
      else true)
  && (if nonempty priority
      then bool_decide (default VNone (t !! "priority") = opt_str priority)
      else true)
  && match search with
     | Some s =>
         if nonempty search
         then matches_clause t
                (Or [FieldRegex "title" s "i"; FieldRegex "description" s "i";
                     FieldRegex "category" s "i"])
         else true
     | None => true
     end.
Proof.
  unfold build_query, matches.
  destruct completed as [b|], (nonempty category), (nonempty priority),
    search as [s|]; try destruct (nonempty (Some s));
    cbn [app forallb];
    change (matches_clause t (FieldEq ?k ?v))
      with (bool_decide (default VNone (t !! k) = v));
    repeat match goal with
           | |- context [bool_decide ?P] => destruct (bool_decide P)
           end;
    try destruct (matches_clause t _); reflexivity.
Qed.

Lemma default_VNone_Some (o : option value) (v : value) :
  v ≠ VNone → default VNone o = v → o = Some v.
Proof. destruct o; cbn; congruence. Qed.

(** What matching the filter says of a stored task. *)
Lemma matches_build_query_fields (uid : value) (completed : option bool)
    (search category priority : option string) (t : doc) :
  matches (build_query uid completed search category priority) t = true →
  default VNone (t !! "user_id") = uid
  ∧ (∀ b, completed = Some b → t !! "completed" = Some (VBool b))
  ∧ (∀ c, category = Some c → c ≠ "" → t !! "category" = Some (VStr c))
  ∧ (∀ p, priority = Some p → p ≠ "" → t !! "priority" = Some (VStr p)).
Proof.
  rewrite matches_build_query. rewrite !andb_true_iff.
  intros ((((H1 & H2) & H3) & H4) & _).
  split; [by apply bool_decide_eq_true in H1|]. split; [|split].
  - intros b ->. apply bool_decide_eq_true in H2. by apply default_VNone_Some.
  - intros c -> Hc. cbn in H3. apply String.eqb_neq in Hc. rewrite Hc in H3.
    apply bool_decide_eq_true in H3. by apply default_VNone_Some.
  - intros p -> Hp. cbn in H4. apply String.eqb_neq in Hp. rewrite Hp in H4.
    apply bool_decide_eq_true in H4. by apply default_VNone_Some.
Qed.

(** The documents that [get_tasks] normalizes: the matching tasks in sorted
    order, cut at a thousand; the priority pipeline attaches the ordinal. *)
Lemma get_tasks_eq (today : date) (completed : option bool)
    (search category priority : option string) (sort_by sort_order : string)
    (current_user : doc) (db : store) (resp : list doc) :
  get_tasks today completed search category priority sort_by sort_order
    current_user db = Ok resp →
  ∃ uid sorted,
    current_user !! "id" = Some uid
    ∧ sort_by ∈ ["created_at"; "title"; "due_date"; "priority"]
    ∧ sort_order ∈ ["asc"; "desc"]
    ∧ sorted
      = sort_docs
          (if String.eqb sort_by "priority"
           then [("priority_order", if String.eqb sort_order "asc" then 1 else -1);
                 ("created_at", -1)]
           else [(sort_by, if String.eqb sort_order "asc" then 1 else -1)])
          ((if String.eqb sort_by "priority" then add_priority_order else id)
             <$> List.filter
                   (matches (build_query uid completed search category priority))
                   (tasks db))
    ∧ Forall2 (fun d r => prepare_task_for_response today d = Ok r
                          ∧ TaskResponse r = Ok r)
        (take 1000 sorted) resp.
Proof.
  unfold get_tasks.
  destruct (sort_by_ok sort_by) eqn:Hsb; [|discriminate].
  destruct (sort_order_ok sort_order) eqn:Hso; [|discriminate].
  cbn [andb negb]. unfold py_item.
  destruct (current_user !! "id") as [uid|]; [|discriminate].
  cbn [mbind result_bind]. unfold find.
  destruct (forallb clause_ok _); [|by destruct (String.eqb sort_by "priority")].
  intros H. exists uid. eexists. split; [reflexivity|].
  split; [by apply bool_decide_eq_true in Hsb|].
  split; [by apply bool_decide_eq_true in Hso|].
  split; [reflexivity|].
  assert (Hne : String.eqb sort_by "" = false).
  { apply String.eqb_neq. intros ->. by vm_compute in Hsb. }
  rewrite Hne in H.
  assert (HF : ∀ l, mapM_result
                      (fun task =>
                         response_task ← prepare_task_for_response today task;
                         TaskResponse response_task) (to_list 1000 l) = Ok resp →
                    Forall2 (fun d r => prepare_task_for_response today d = Ok r
                                        ∧ TaskResponse r = Ok r)
                      (take 1000 l) resp).
  { intros l Hl. apply mapM_result_Forall2 in Hl.
    eapply Forall2_impl; [exact Hl|]. intros d r. apply serve_Ok. }
  destruct (String.eqb sort_by "priority"); cbn [mbind result_bind] in H.
  - by apply HF.
  - rewrite list_fmap_id. by apply HF.
Qed.

(** X8.  Every record that [get_tasks] serves comes from a stored task of
    the caller that satisfies the exact-match filters of the request:
    [completed], and a non-empty [category] and [priority].  The answer has
    one record for each matching task, up to 1000. *)
Theorem get_tasks_serves_matching_tasks (today : date) (completed : option bool)
    (search category priority : option string) (sort_by sort_order : string)
    (current_user : doc) (db : store) (resp : list doc) :
  get_tasks today completed search category priority sort_by sort_order
    current_user db = Ok resp →
  ∃ uid,
    current_user !! "id" = Some uid
    ∧ length resp
      = (length (List.filter
                   (matches (build_query uid completed search category priority))
                   (tasks db)) `min` 1000)%nat
    ∧ Forall (fun r : doc =>
        default VNone (r !! "user_id") = uid
        ∧ (∀ b, completed = Some b → r !! "completed" = Some (VBool b))
        ∧ (∀ c, category = Some c → c ≠ "" → r !! "category" = Some (VStr c))
        ∧ (∀ p, priority = Some p → p ≠ "" → r !! "priority" = Some (VStr p))
        ∧ ∃ t, t ∈ tasks db
               ∧ r !! "id" = t !! "id" ∧ r !! "title" = t !! "title"
               ∧ r !! "created_at" = t !! "created_at") resp.
Proof.
  intros H. apply get_tasks_eq in H as (uid & sorted & Hid & _ & _ & Hs & HF).
  exists uid. split; [exact Hid|].
  set (q := build_query uid completed search category priority) in *.
  set (f := if String.eqb sort_by "priority" then add_priority_order else id) in *.
  assert (Hperm : sorted ≡ₚ f <$> List.filter (matches q) (tasks db))
    by (rewrite Hs; apply sort_docs_perm).
  split.
  - rewrite <- (Forall2_length _ _ _ HF), length_take, Hperm, length_fmap. lia.
  - apply Forall_forall. intros r Hr.
    apply list_elem_of_lookup in Hr as [i Hi].
    destruct (Forall2_lookup_r _ _ _ _ _ HF Hi) as (d & Hd & Hprep & _).
    apply lookup_take_Some in Hd as [Hd _].
    apply list_elem_of_lookup_2 in Hd. rewrite Hperm in Hd.
    apply list_elem_of_fmap in Hd as (t & -> & Ht).
    apply list_elem_of_In, filter_In in Ht as [Hin Hm].
    apply matches_build_query_fields in Hm as (H1 & H2 & H3 & H4).
    assert (Hf : ∀ k, k ≠ "priority_order" → f t !! k = t !! k).
    { intros k Hk. unfold f. destruct (String.eqb sort_by "priority"); [|done].
      unfold add_priority_order. by rewrite lookup_insert_ne. }
    destruct (prepare_fields _ _ _ Hprep) as (_ & Hp & Hc & Hco & _).
    assert (Hsame : ∀ k, k ≠ "due_date" → k ≠ "priority" → k ≠ "category" →
                      k ≠ "is_overdue" → k ≠ "priority_order" →
                      r !! k = t !! k).
    { intros k ? ? ? ? ?. rewrite (prepare_other_fields today (f t) r k Hprep).
      - by apply Hf.
      - intros Hk. apply list_elem_of_In in Hk. cbn in Hk. intuition congruence. }
    split; [by rewrite Hsame|]. split; [|split; [|split]].
    + intros b Hb. rewrite Hco, Hf by done. by apply H2.
    + intros c Hc1 Hc2. rewrite Hc. unfold py_get. rewrite Hf by done.
      by rewrite (H3 c Hc1 Hc2).
    + intros p Hp1 Hp2. rewrite Hp. unfold py_get. rewrite Hf by done.
      by rewrite (H4 p Hp1 Hp2).
    + exists t. split; [by apply list_elem_of_In|]. by rewrite !Hsame.
Qed.

Lemma get_tasks_serves_matching_tasks_witness :
  ∃ resp,
    get_tasks (mkDate 2024 1 16) (Some false) None (Some "General") None
      "created_at" "desc" bob shared_store = Ok resp
    ∧ Forall (fun r : doc => default VNone (r !! "user_id") = VStr "u1"
                             ∧ r !! "completed" = Some (VBool false)) resp.
Proof.
  destruct (mapM_result_total
              (fun task =>
                 response_task ← prepare_task_for_response (mkDate 2024 1 16) task;
                 TaskResponse response_task)
              [bob_task]) as [resp Hresp].
  { constructor; [|constructor]. by apply serve_complete. }
  assert (Hget : get_tasks (mkDate 2024 1 16) (Some false) None (Some "General")
                   None "created_at" "desc" bob shared_store = Ok resp).
  { rewrite <- Hresp. reflexivity. }
  exists resp. split; [exact Hget|].
  destruct (get_tasks_serves_matching_tasks _ _ _ _ _ _ _ _ _ _ Hget)
    as (uid & Hid & _ & HF).
  injection Hid as <-. eapply Forall_impl; [exact HF|].
  intros r (H1 & H2 & _). split; [exact H1 | by apply H2].
Defined.

Lemma single_spec_le (k : string) (dir : Z) (a b : doc) :
  doc_le [(k, dir)] a b →
  if dir =? 1
  then bson_compare (default VNone (a !! k)) (default VNone (b !! k)) ≠ Gt
  else bson_compare (default VNone (b !! k)) (default VNone (a !! k)) ≠ Gt.
Proof.
  unfold doc_le, doc_leb. cbn [doc_compare].
  rewrite (cmp_antisym (default VNone (b !! k)) (default VNone (a !! k))).
  destruct (dir =? 1);
    destruct (bson_compare (default VNone (a !! k)) (default VNone (b !! k)));
    cbn; congruence.
Qed.

(** X9.  With [sort_by] one of [created_at], [title] and [due_date], the
    matching tasks are sorted by that field alone, a missing field counting
    as null: in the order of the store when [sort_order] is [asc], in the
    opposite order when it is [desc]; the answer is the normalization, one
    by one, of the first thousand, each accepted by [TaskResponse]. *)
Theorem field_sort_follows_direction (today : date) (completed : option bool)
    (search category priority : option string) (sort_by sort_order : string)
    (current_user : doc) (db : store) (resp : list doc) :
  sort_by ≠ "priority" →
  get_tasks today completed search category priority sort_by sort_order
    current_user db = Ok resp →
  ∃ (uid : value) (sorted : list doc),
    current_user !! "id" = Some uid
    ∧ sorted ≡ₚ
        List.filter (matches (build_query uid completed search category priority))
          (tasks db)
    ∧ Forall2 (fun d r => prepare_task_for_response today d = Ok r
                          ∧ TaskResponse r = Ok r)
        (take 1000 sorted) resp
    ∧ ∀ i j a b, (i < j)%nat → sorted !! i = Some a → sorted !! j = Some b →
        (sort_order = "asc" →
         bson_compare (default VNone (a !! sort_by))
           (default VNone (b !! sort_by)) ≠ Gt)
        ∧ (sort_order = "desc" →
           bson_compare (default VNone (b !! sort_by))
             (default VNone (a !! sort_by)) ≠ Gt).
Proof.
  intros Hne H. apply get_tasks_eq in H as (uid & sorted & Hid & _ & _ & Hs & HF).
  apply String.eqb_neq in Hne. rewrite Hne, list_fmap_id in Hs.
  exists uid, sorted. split; [exact Hid|].
  split; [rewrite Hs; apply sort_docs_perm|]. split; [exact HF|].
  intros i j a b Hij Ha Hb. rewrite Hs in Ha, Hb.
  pose proof (StronglySorted_lookup _ _ _ _ _ _ (sort_docs_sorted _ _) Hij Ha Hb)
    as Hle.
  apply single_spec_le in Hle. split; intros ->; exact Hle.
Qed.

Lemma field_sort_follows_direction_witness :
  ∃ resp sorted,
    get_tasks (mkDate 2024 1 16) None None None None "created_at" "desc" bob
      three_tasks = Ok resp
    ∧ Forall2 (fun d r => prepare_task_for_response (mkDate 2024 1 16) d = Ok r
                          ∧ TaskResponse r = Ok r)
        (take 1000 sorted) resp
    ∧ ∀ i j a b, (i < j)%nat → sorted !! i = Some a → sorted !! j = Some b →
        bson_compare (default VNone (b !! "created_at"))
          (default VNone (a !! "created_at")) ≠ Gt.
Proof.
  destruct (mapM_result_total
              (fun task =>
                 response_task ← prepare_task_for_response (mkDate 2024 1 16) task;
                 TaskResponse response_task)
              (take 1000 (sort_docs [("created_at", -1)] (tasks three_tasks))))
    as [resp Hresp].
  { apply Forall_take. apply Forall_forall. intros d Hd.
    rewrite sort_docs_perm in Hd. apply serve_complete.
    apply list_elem_of_In in Hd. cbn in Hd.
    destruct Hd as [<-|[<-|[<-|[]]]]; reflexivity. }
  assert (Hget : get_tasks (mkDate 2024 1 16) None None None None "created_at"
                   "desc" bob three_tasks = Ok resp).
  { rewrite <- Hresp. reflexivity. }
  assert (Hne : "created_at" ≠ "priority") by discriminate.
  destruct (field_sort_follows_direction _ _ _ _ _ _ _ _ _ _ Hne Hget)
    as (uid & sorted & _ & _ & HF & Hord).
  exists resp, sorted. split; [exact Hget|]. split; [exact HF|].
  intros i j a b Hij Ha Hb. by apply (Hord i j a b Hij Ha Hb).
Defined.

Example newest_first_by_default :
  ids (get_tasks (mkDate 2024 1 16) None None None None "created_at" "desc" bob
         three_tasks)
  = Ok [VStr "t3"; VStr "t2"; VStr "t1"].
Proof. vm_compute. reflexivity. Qed.

(** * Authentication *)

Section Authentication.

Variable SECRET_KEY : string.
Variable bcrypt_hashpw : string → string → string.
Variable bcrypt_checkpw : string → string → result bool.

Lemma matches_field_eq (k : string) (v : value) (d : doc) :
  v ≠ VNone → matches [FieldEq k v] d = true ↔ d !! k = Some v.
Proof.
  intros Hv. unfold matches. cbn. rewrite andb_true_r, bool_decide_eq_true.
  split; [by apply default_VNone_Some | by intros ->].
Qed.

(** X10.  [get_current_user] answers with a user only for a token that was
    signed with the server key, has not expired and names a subject, and
    the user it answers with is a stored user whose identifier is that
    subject. *)
Theorem get_current_user_sound (now : Z) (credentials : option token)
    (db : store) (u : doc) :
  get_current_user SECRET_KEY now credentials db = Ok u →
  ∃ payload sub,
    credentials = Some (Signed SECRET_KEY payload)
    ∧ payload !! "sub" = Some sub ∧ sub ≠ VNone
    ∧ u ∈ users db ∧ u !! "id" = Some sub
    ∧ (payload !! "exp" = None ∨ ∃ e, payload !! "exp" = Some (VInt e) ∧ now < e).
Proof.
  unfold get_current_user.
  destruct credentials as [[k payload|s]|]; try discriminate.
  unfold jwt_decode. destruct (String.eqb k SECRET_KEY) eqn:Ek; [|discriminate].
  apply String.eqb_eq in Ek. subst k. cbn [negb].
  intros Hu.
  assert (Hok : payload !! "exp" = None
                ∨ ∃ e, payload !! "exp" = Some (VInt e) ∧ now < e).
  { destruct (payload !! "exp") as [[| |e| | |]|]; try discriminate; [|by left].
    destruct (e <=? now) eqn:He; [discriminate|]. apply Z.leb_gt in He.
    right. by exists e. }
  assert (Hu' : match py_get payload "sub" VNone with
                | VNone => Raise credentials_exception
                | user_id =>
                    user ← find_one [FieldEq "id" user_id] (users db);
                    match user with
                    | Some u0 => Ok u0
                    | None => Raise credentials_exception
                    end
                end = Ok u).
  { destruct Hok as [E | (e & E & He)]; rewrite E in Hu; [exact Hu|].
    apply Z.leb_gt in He. by rewrite He in Hu. }
  clear Hu.
  destruct (py_get payload "sub" VNone) as [|x|x|x|x|x] eqn:Hsub;
    [discriminate|..];
    (destruct (find_one _ _) as [[u0|]|] eqn:Hf; try discriminate;
     cbn in Hu'; injection Hu' as ->;
     apply find_one_Some in Hf as [Hin Hm];
     apply matches_field_eq in Hm; [|done];
     match type of Hsub with _ = ?v => exists payload, v end;
     split; [reflexivity|];
     split; [apply default_VNone_Some; [discriminate | exact Hsub]|];
     split; [discriminate|]; split; [exact Hin|]; split; [exact Hm|];
     exact Hok).
Qed.

(** X11.  Without credentials, with a string that is no token, with a
    token signed with another key, without a subject, or with a subject that
    is no stored user, the answer is 401, Could not validate credentials;
    an expired token signed with the server key is answered 401, Token
    expired, before its subject is looked at. *)
Theorem get_current_user_rejects (now : Z) (db : store) :
  get_current_user SECRET_KEY now None db = Raise credentials_exception
  ∧ (∀ s, get_current_user SECRET_KEY now (Some (Garbage s)) db
          = Raise credentials_exception)
  ∧ (∀ k payload, k ≠ SECRET_KEY →
       get_current_user SECRET_KEY now (Some (Signed k payload)) db
       = Raise credentials_exception)
  ∧ (∀ payload e, payload !! "exp" = Some (VInt e) → e ≤ now →
       get_current_user SECRET_KEY now (Some (Signed SECRET_KEY payload)) db
       = Raise (HTTPException 401 "Token expired"))
  ∧ (∀ payload e, payload !! "exp" = Some (VInt e) → now < e →
       py_get payload "sub" VNone = VNone →
       get_current_user SECRET_KEY now (Some (Signed SECRET_KEY payload)) db
       = Raise credentials_exception)
  ∧ (∀ payload e sub, payload !! "exp" = Some (VInt e) → now < e →
       payload !! "sub" = Some sub → sub ≠ VNone →
       Forall (fun u : doc => u !! "id" ≠ Some sub) (users db) →
       get_current_user SECRET_KEY now (Some (Signed SECRET_KEY payload)) db
       = Raise credentials_exception).
Proof.
  unfold get_current_user, jwt_decode. split; [reflexivity|].
  split; [reflexivity|]. split; [|split; [|split]].
  - intros k payload Hk. apply String.eqb_neq in Hk. by rewrite Hk.
  - intros payload e Hexp He. rewrite String.eqb_refl, Hexp. cbn [negb].
    apply Z.leb_le in He. by rewrite He.
  - intros payload e Hexp He Hsub. rewrite String.eqb_refl, Hexp. cbn [negb].
    apply Z.leb_gt in He. rewrite He. by rewrite Hsub.
  - intros payload e sub Hexp He Hsub Hne Hall. rewrite String.eqb_refl, Hexp.
    cbn [negb]. apply Z.leb_gt in He. rewrite He. unfold py_get. rewrite Hsub.
    cbn [default from_option id].
    assert (Hf : find_one [FieldEq "id" sub] (users db) = Ok None).
    { destruct (find_one_is_Ok [FieldEq "id" sub] (users db) eq_refl)
        as [[u|] Ho]; [|exact Ho].
      apply find_one_Some in Ho as [Hin Hm]. apply matches_field_eq in Hm; [|done].
      rewrite Forall_forall in Hall. by destruct (Hall u Hin). }
    change (id sub) with sub. destruct sub; try done; by rewrite Hf.
Qed.

End Authentication.

Lemma get_current_user_sound_witness :
  ∃ payload sub,
    Some bob_token = Some (Signed sample_key payload)
    ∧ payload !! "sub" = Some sub ∧ bob !! "id" = Some sub.
Proof.
  assert (H : get_current_user sample_key 1500 (Some bob_token) bob_store = Ok bob)
    by reflexivity.
  destruct (get_current_user_sound _ _ _ _ _ H)
    as (payload & sub & H1 & H2 & _ & _ & H3 & _).
  by exists payload, sub.
Defined.

Lemma get_current_user_rejects_witness :
  get_current_user sample_key 1500 (Some (Signed "other" {[ "sub" := VStr "u1" ]}))
    bob_store = Raise credentials_exception
  ∧ get_current_user sample_key 1500
      (Some (Signed sample_key {[ "exp" := VInt 2000; "sub" := VStr "u7" ]}))
      bob_store = Raise credentials_exception.
Proof.
  destruct (get_current_user_rejects sample_key 1500 bob_store)
    as (_ & _ & Hk & _ & _ & Hu).
  split.
  - by apply Hk.
  - apply (Hu _ 2000 (VStr "u7")); try done.
    constructor; [|constructor]. by vm_compute.
Defined.

(** * Login and signup *)

Section Accounts.

Variable SECRET_KEY : string.
Variable bcrypt_hashpw : string → string → string.
Variable bcrypt_checkpw : string → string → result bool.

(** [login] on the user that the lookup by email finds. *)
Lemma login_eq (now : Z) (login_data : UserLogin.t) (db : store) (u : doc) :
  find_one [FieldEq "email" (VStr (UserLogin.email login_data))] (users db)
    = Ok (Some u) →
  login SECRET_KEY bcrypt_checkpw now login_data db =
  (hashed ← py_item u "password";
   ok ← verify_password bcrypt_checkpw (UserLogin.password login_data) hashed;
   if (ok : bool) then
     uid ← py_item u "id";
     email ← py_item u "email";
     name ← py_item u "name";
     created ← py_item u "created_at";
     user_response ←
       UserResponse {[ "id" := uid; "email" := email; "name" := name;
                       "created_at" := created ]};
     Ok (Token.mk
           (create_access_token SECRET_KEY now {[ "sub" := uid ]}
              (Some (timedelta_minutes ACCESS_TOKEN_EXPIRE_MINUTES)))
           "bearer" user_response)
   else Raise incorrect).
Proof.
  intros Hf. unfold login. rewrite Hf. cbn [mbind result_bind].
  destruct (find_one_Some _ _ _ Hf) as [_ Hm].
  rewrite (matches_eq_found _ _ _ _ Hm). reflexivity.
Qed.

(** X12.  [login] succeeds only for a stored user with the given email
    whose stored hash the password checks against; the token then names
    that user's identifier and the answer repeats the user's identifier,
    email, name and creation time, and nothing else.  An unknown email and
    a wrong password are answered alike: 401, Incorrect email or
    password. *)
Theorem login_checks_password (now : Z) (login_data : UserLogin.t) (db : store) :
  (∀ resp, login SECRET_KEY bcrypt_checkpw now login_data db = Ok resp →
     ∃ u h sub,
       u ∈ users db
       ∧ u !! "email" = Some (VStr (UserLogin.email login_data))
       ∧ u !! "password" = Some (VStr h)
       ∧ bcrypt_checkpw (UserLogin.password login_data) h = Ok true
       ∧ u !! "id" = Some sub
       ∧ Token.access_token resp
         = create_access_token SECRET_KEY now {[ "sub" := sub ]}
             (Some (timedelta_minutes ACCESS_TOKEN_EXPIRE_MINUTES))
       ∧ Token.token_type resp = "bearer"
       ∧ Token.user resp !! "id" = Some sub
       ∧ Token.user resp !! "email" = u !! "email"
       ∧ Token.user resp !! "name" = u !! "name"
       ∧ Token.user resp !! "created_at" = u !! "created_at"
       ∧ ∀ k, k ∉ ["id"; "email"; "name"; "created_at"] →
              Token.user resp !! k = None)
  ∧ (Forall (fun u : doc =>
               u !! "email" ≠ Some (VStr (UserLogin.email login_data)))
       (users db) →
     login SECRET_KEY bcrypt_checkpw now login_data db = Raise incorrect)
  ∧ (∀ u h,
       find_one [FieldEq "email" (VStr (UserLogin.email login_data))] (users db)
         = Ok (Some u) →
       u !! "password" = Some (VStr h) →
       bcrypt_checkpw (UserLogin.password login_data) h = Ok false →
       login SECRET_KEY bcrypt_checkpw now login_data db = Raise incorrect).
Proof.
  split; [|split].
  - intros resp Hl.
    destruct (find_one_is_Ok [FieldEq "email" (VStr (UserLogin.email login_data))]
                (users db) eq_refl) as [[u|] Hf].
    2: { unfold login in Hl. rewrite Hf in Hl. discriminate. }
    rewrite (login_eq _ _ _ _ Hf) in Hl.
    apply find_one_Some in Hf as [Hin Hm].
    apply matches_field_eq in Hm; [|done].
    unfold py_item in Hl.
    destruct (u !! "password") as [[| | |h| |]|] eqn:Hp; try discriminate.
    cbn in Hl.
    destruct (bcrypt_checkpw _ h) as [[|]|] eqn:Hc; try discriminate.
    cbn in Hl.
    destruct (u !! "id") as [sub|] eqn:Hid; [|discriminate].
    destruct (u !! "email") as [em|] eqn:Hem; [|discriminate].
    destruct (u !! "name") as [nm|] eqn:Hnm; [|discriminate].
    destruct (u !! "created_at") as [cr|] eqn:Hcr; [|discriminate].
    cbn [mbind result_bind] in Hl.
    destruct (UserResponse _) as [ur|] eqn:Hur; [|discriminate].
    apply UserResponse_Ok in Hur as ->.
    cbn [mbind result_bind] in Hl. injection Hl as <-. exists u, h, sub. cbn.
    split; [congruence|].
    repeat (split; [first [done | by rewrite ?Hem, ?Hnm, ?Hcr]|]).
    intros k Hk.
    repeat (rewrite lookup_insert_ne by (intros <-; apply Hk; repeat constructor)).
    apply lookup_singleton_ne. intros <-. apply Hk. repeat constructor.
  - intros Hall. unfold login.
    destruct (find_one_is_Ok [FieldEq "email" (VStr (UserLogin.email login_data))]
                (users db) eq_refl) as [[u|] Hf]; rewrite Hf; [|reflexivity].
    apply find_one_Some in Hf as [Hin Hm].
    apply matches_field_eq in Hm; [|done].
    rewrite Forall_forall in Hall. by destruct (Hall u Hin).
  - intros u h Hf Hp Hc. rewrite (login_eq _ _ _ _ Hf). unfold py_item.
    rewrite Hp. cbn. rewrite Hc. reflexivity.
Qed.

End Accounts.

Lemma login_checks_password_witness :
  login sample_key sample_checkpw 500 (UserLogin.mk "c@x.com" "pw") bob_store
  = Raise incorrect.
Proof.
  destruct (login_checks_password sample_key sample_checkpw 500
              (UserLogin.mk "c@x.com" "pw") bob_store) as (_ & H & _).
  apply H. constructor; [|constructor]. by vm_compute.
Defined.

Section Registration.

Variable SECRET_KEY : string.
Variable bcrypt_hashpw : string → string → string.
Variable bcrypt_checkpw : string → string → result bool.

Lemma find_one_no_match (q : query) (coll : list doc) :
  forallb clause_ok q = true →
  Forall (fun d => matches q d = false) coll → find_one q coll = Ok None.
Proof.
  intros Hq H. unfold find_one, find. rewrite Hq. cbn. f_equal.
  induction H as [|d coll Hd _ IH]; cbn; [reflexivity|]. by rewrite Hd.
Qed.

Lemma no_match_field_eq (k : string) (v : value) (coll : list doc) :
  v ≠ VNone →
  Forall (fun d : doc => d !! k ≠ Some v) coll →
  Forall (fun d => matches [FieldEq k v] d = false) coll.
Proof.
  intros Hv H. eapply Forall_impl; [exact H|]. intros d Hd. cbn beta.
  destruct (matches [FieldEq k v] d) eqn:E; [|reflexivity].
  by apply matches_field_eq in E.
Qed.

(** [signup] with an email that no stored user has. *)
Lemma signup_new_email (uuid salt : string) (now now' : Z)
    (user_data : UserCreate.t) (db : store) :
  Forall (fun u : doc => u !! "email" ≠ Some (VStr (UserCreate.email user_data)))
    (users db) →
  signup SECRET_KEY bcrypt_hashpw uuid salt now now' user_data db
  = (Ok (Token.mk
           (create_access_token SECRET_KEY now' {[ "sub" := VStr uuid ]}
              (Some (timedelta_minutes ACCESS_TOKEN_EXPIRE_MINUTES)))
           "bearer" (user_response_of uuid now user_data)),
     mkStore
       (users db
        ++ [user_doc_of uuid (bcrypt_hashpw (UserCreate.password user_data) salt)
              now user_data])
       (tasks db)).
Proof.
  intros H. unfold signup.
  rewrite find_one_no_match; [reflexivity | reflexivity |].
  by apply no_match_field_eq.
Qed.




End Registration.



Section Session.

Variable SECRET_KEY : string.
Variable bcrypt_checkpw : string → string → result bool.

(** The lookup by identifier finds the user, when identifiers are unique. *)
Lemma find_one_unique_id (db : store) (u : doc) (s : string) :
  ids_unique db → u ∈ users db → u !! "id" = Some (VStr s) →
  find_one [FieldEq "id" (VStr s)] (users db) = Ok (Some u).
Proof.
  intros [_ Hu] Hin Hid.
  destruct (find_one_is_Ok [FieldEq "id" (VStr s)] (users db) eq_refl)
    as [[u'|] Hf].
  - rewrite Hf. destruct (find_one_Some _ _ _ Hf) as [Hin' Hm].
    apply matches_field_eq in Hm; [|done].
    by rewrite (Hu u' u Hin' Hin) by congruence.
  - pose proof (find_one_None _ _ _ Hf Hin) as Hm.
    assert (matches [FieldEq "id" (VStr s)] u = true) as Ht
      by by apply matches_field_eq.
    congruence.
Qed.

(** X15.  The token of a login authenticates the user who logged in, until
    it expires, when the users' identifiers are unique strings:
    [get_current_user] answers that user's stored document, and the profile
    of that user is the user of the login answer. *)
Theorem login_token_authenticates (now : Z) (login_data : UserLogin.t)
    (db : store) (resp : Token.t) :
  login SECRET_KEY bcrypt_checkpw now login_data db = Ok resp →
  ids_unique db →
  ∃ u,
    u ∈ users db
    ∧ u !! "email" = Some (VStr (UserLogin.email login_data))
    ∧ get_profile u = Ok (Token.user resp)
    ∧ ∀ t, t < now + timedelta_minutes 30 →
        get_current_user SECRET_KEY t (Some (Token.access_token resp)) db = Ok u.
Proof.
  intros Hl Hids.
  destruct (find_one_is_Ok [FieldEq "email" (VStr (UserLogin.email login_data))]
              (users db) eq_refl) as [[u|] Hf].
  2: { unfold login in Hl. rewrite Hf in Hl. discriminate. }
  rewrite (login_eq _ _ _ _ _ _ Hf) in Hl.
  apply find_one_Some in Hf as [Hin Hm].
  apply matches_field_eq in Hm; [|done].
  exists u. split; [exact Hin|]. split; [exact Hm|].
  destruct Hids as [Hstr Huniq].
  pose proof (proj1 (Forall_forall _ _) Hstr u Hin) as [s Hs].
  unfold get_profile. unfold py_item in *. rewrite Hs in *.
  destruct (u !! "password") as [h|]; [|discriminate].
  cbn [mbind result_bind] in *.
  destruct (verify_password bcrypt_checkpw _ h) as [[|]|]; try discriminate.
  cbn [mbind result_bind] in *.
  destruct (u !! "email") as [e|]; [|discriminate].
  destruct (u !! "name") as [n|]; [|discriminate].
  destruct (u !! "created_at") as [c|]; [|discriminate].
  cbn [mbind result_bind] in *.
  destruct (UserResponse _) as [ur|] eqn:Hur; [|discriminate].
  cbn [mbind result_bind] in Hl. injection Hl as <-. split; [reflexivity|].
  intros t Ht. cbn [Token.access_token].
  rewrite create_access_token_eq.
  rewrite get_current_user_live; [|exact Ht | done].
  by rewrite (find_one_unique_id db u s).
Qed.

End Session.

Lemma login_token_authenticates_witness :
  ∃ resp,
    login sample_key sample_checkpw 150 (UserLogin.mk "a@x.com" "pw") alice_store
    = Ok resp
    ∧ get_current_user sample_key 1000 (Some (Token.access_token resp))
        alice_store = Ok alice_doc.
Proof.
  assert (Hl : login sample_key sample_checkpw 150 (UserLogin.mk "a@x.com" "pw")
                 alice_store
               = Ok (Token.mk
                       (create_access_token sample_key 150 {[ "sub" := VStr "u1" ]}
                          (Some (timedelta_minutes ACCESS_TOKEN_EXPIRE_MINUTES)))
                       "bearer" (user_response_of "u1" 100 alice))).
  { reflexivity. }
  destruct (login_token_authenticates sample_key sample_checkpw 150
              (UserLogin.mk "a@x.com" "pw") alice_store _ Hl)
    as (u & Hin & _ & _ & Ha).
  { split; [constructor; [by exists "u1" | constructor]|].
    intros u1 u2 H1%list_elem_of_singleton H2%list_elem_of_singleton _.
    congruence. }
  eexists. split; [exact Hl|].
  apply list_elem_of_singleton in Hin. subst u. apply Ha. reflexivity.
Defined.

(** * The statistics *)

Lemma count_cons (p : doc → bool) (t : doc) (l : list doc) :
  count p (t :: l) = (if p t then 1 else 0) + count p l.
Proof.
  unfold count. cbn [List.filter]. destruct (p t); cbn [length]; lia.
Qed.

Lemma count_nonneg (p : doc → bool) (l : list doc) : 0 ≤ count p l.
Proof. unfold count. lia. Qed.

Lemma count_le (p q : doc → bool) (l : list doc) :
  (∀ t, p t = true → q t = true) → count p l ≤ count q l.
Proof.
  intros H. induction l as [|t l IH]; [reflexivity|].
  rewrite !count_cons. specialize (H t).
  destruct (p t), (q t); first [lia | by specialize (H eq_refl)].
Qed.

Lemma count_negb (p : doc → bool) (l : list doc) :
  count p l + count (fun t => negb (p t)) l = Z.of_nat (length l).
Proof.
  induction l as [|t l IH]; [reflexivity|].
  rewrite !count_cons. cbn [length]. destruct (p t); cbn [negb]; lia.
Qed.

(** The value of the overdue test of the two routes, when it has one. *)
Lemma overdue_of_overdue_on (today : date) (task : doc) (b : bool) :
  overdue_of today (py_get task "due_date" VNone) (is_completed task) = Ok b →
  b = overdue_on today task.
Proof.
  intros H. apply overdue_of_spec in H. unfold overdue_on.
  destruct b.
  - destruct (proj1 H eq_refl) as (d & -> & -> & ->). reflexivity.
  - destruct (due_date_of task) as [d|]; [|reflexivity].
    destruct (negb (is_completed task) && date_ltb d today) eqn:E; [|reflexivity].
    apply andb_prop in E as [E1 E2]. apply negb_true_iff in E1.
    apply (proj2 H). by exists d.
Qed.

(** The overdue test of the statistics loop is the one of the normalizer. *)
Lemma stats_overdue_step (today : date) (task : doc) (o : Z) :
  (if truthy (py_get task "due_date" VNone)
      && negb (truthy (py_get task "completed" (VBool false)))
   then due_date ← read_due_date task;
        b ← lt_today today due_date;
        Ok (if (b : bool) then o + 1 else o)
   else Ok o)
  = (b ← overdue_of today (py_get task "due_date" VNone) (is_completed task);
     Ok (if (b : bool) then o + 1 else o)).
Proof.
  unfold overdue_of, is_completed, read_due_date, py_item, py_get.
  destruct (truthy (default (VBool false) (task !! "completed")));
    cbn [negb]; rewrite ?andb_false_r; [reflexivity|]. rewrite !andb_true_r.
  destruct (task !! "due_date") as [[|b|n|s|d|t]|];
    try change (default VNone (Some ?x)) with x; try reflexivity.
  - destruct (truthy (VBool b)); reflexivity.
  - destruct (truthy (VInt n)); reflexivity.
  - destruct (truthy (VStr s)); [|reflexivity]. cbn [mbind result_bind].
    destruct (fromisoformat_date s); reflexivity.
Qed.

Lemma high_priority_eq (task : doc) :
  py_eqb (py_get task "priority" VNone) (VStr "high") = high_priority task.
Proof.
  unfold high_priority, py_get.
  destruct (task !! "priority") as [[| | |s| |]|]; cbn; try reflexivity.
  destruct (decide (s = "high")) as [->|Hn]; [reflexivity|].
  rewrite !bool_decide_eq_false_2; [reflexivity | congruence | congruence].
Qed.

(** What the loop of [get_task_stats] adds to the two counters. *)
Lemma stats_loop_counters (today : date) (ts : list doc)
    (o h : Z) (cats : list (value * Z)) (o' h' : Z) (cats' : list (value * Z)) :
  stats_loop today ts (o, h, cats) = Ok (o', h', cats') →
  o' = o + count (overdue_on today) ts
  ∧ h' = h + count high_priority ts
  ∧ Forall (fun t => overdue_of today (py_get t "due_date" VNone) (is_completed t)
                     = Ok (overdue_on today t)) ts.
Proof.
  revert o h cats. induction ts as [|t ts IH]; intros o h cats.
  - cbn. intros [= <- <- _]. unfold count. cbn. split; [lia|]. split; [lia|].
    constructor.
  - cbn [stats_loop]. rewrite stats_overdue_step, high_priority_eq.
    destruct (overdue_of today _ (is_completed t)) as [b|e] eqn:Hb; [|discriminate].
    cbn [mbind result_bind]. intros H. apply IH in H as (Ho & Hh & Hall).
    pose proof (overdue_of_overdue_on _ _ _ Hb) as Hbb. subst b.
    rewrite !count_cons. split; [|split].
    + destruct (overdue_on today t); lia.
    + destruct (high_priority t); lia.
    + by constructor.
Qed.

(** X16.  In the statistics, the overdue count is the number of counted
    tasks that have a due date before today and are not completed, and the
    high-priority count is the number of counted tasks whose stored priority
    is high; the overdue tasks are among the pending ones.  When the
    statistics exist, the normalizer serves each counted task, with the flag
    that the overdue count counted. *)
Theorem stats_counts_overdue_and_high (today : date) (current_user : doc)
    (db : store) (uid : value) (stats : TaskStats.t) :
  current_user !! "id" = Some uid →
  get_task_stats today current_user db = Ok stats →
  TaskStats.total stats = Z.of_nat (length (counted uid db))
  ∧ TaskStats.completed stats = count is_completed (counted uid db)
  ∧ TaskStats.overdue stats = count (overdue_on today) (counted uid db)
  ∧ TaskStats.high_priority stats = count high_priority (counted uid db)
  ∧ 0 ≤ TaskStats.overdue stats ≤ TaskStats.pending stats
  ∧ Forall (fun t => ∃ r, prepare_task_for_response today t = Ok r
                          ∧ r !! "is_overdue" = Some (VBool (overdue_on today t)))
      (counted uid db).
Proof.
  intros Hid. unfold get_task_stats, py_item, find. rewrite Hid.
  cbn [forallb clause_ok andb mbind result_bind].
  change (to_list 1000 _) with (counted uid db). set (ts := counted uid db).
  destruct (stats_loop today ts (0, 0, [])) as [[[o h] cats]|] eqn:Hl;
    [|discriminate].
  cbn [mbind result_bind]. intros [= <-].
  cbn [TaskStats.total TaskStats.completed TaskStats.overdue
       TaskStats.high_priority TaskStats.pending].
  apply stats_loop_counters in Hl as (Ho & Hh & Hall).
  split; [reflexivity|]. split; [reflexivity|].
  split; [lia|]. split; [lia|]. split.
  - pose proof (count_nonneg (overdue_on today) ts).
    pose proof (count_negb is_completed ts) as Hn.
    pose proof (count_le (overdue_on today) (fun t => negb (is_completed t)) ts)
      as Hle.
    fold (count (fun t => truthy (py_get t "completed" (VBool false))) ts).
    change (fun t => truthy (py_get t "completed" (VBool false)))
      with is_completed.
    assert (count (overdue_on today) ts ≤ count (fun t => negb (is_completed t)) ts).
    { apply Hle. intros t. unfold overdue_on.
      destruct (due_date_of t); [|discriminate].
      intros E. by apply andb_prop in E as [E _]. }
    lia.
  - eapply Forall_impl; [exact Hall|]. intros t Ht. cbn beta in *.
    rewrite prepare_unfold. fold (is_completed t). rewrite Ht.
    cbn [mbind result_bind]. eexists. split; [reflexivity|].
    rewrite lookup_insert_ne by done. apply lookup_insert_eq.
Qed.

Lemma stats_counts_overdue_and_high_witness :
  ∃ stats,
    get_task_stats (mkDate 2024 1 16) bob bob_store = Ok stats
    ∧ TaskStats.overdue stats = 1 ∧ TaskStats.high_priority stats = 0.
Proof.
  destruct (stats_loop_total (mkDate 2024 1 16) (counted (VStr "u1") bob_store)
              (0, 0, [])) as [[[o h] cats] Hl].
  { constructor; [|constructor]. right. exists (mkDate 2024 1 15).
    vm_compute. reflexivity. }
  assert (Hs : get_task_stats (mkDate 2024 1 16) bob bob_store
               = Ok (TaskStats.mk 1 0 1 o h
                       ((fun '(name, count) => (name, count, category_color name))
                          <$> cats))).
  { unfold get_task_stats, py_item, find.
    change (bob !! "id") with (Some (VStr "u1")).
    cbn [forallb clause_ok andb mbind result_bind].
    change (to_list 1000 _) with (counted (VStr "u1") bob_store).
    rewrite Hl. reflexivity. }
  eexists. split; [exact Hs|].
  destruct (stats_counts_overdue_and_high (mkDate 2024 1 16) bob bob_store
              (VStr "u1") _ eq_refl Hs) as (_ & _ & Ho & Hh & _).
  split; [rewrite Ho | rewrite Hh]; reflexivity.
Defined.

(** ** The breakdown by category *)

(** [==] is an equivalence on the values of a document. *)
Lemma py_eqb_refl (a : value) : py_eqb a a = true.
Proof. destruct a; cbn; by apply bool_decide_eq_true. Qed.

Lemma py_eqb_sym (a b : value) : py_eqb a b = py_eqb b a.
Proof.
  destruct a, b; cbn; try reflexivity;
    apply bool_decide_ext; split; congruence.
Qed.

Lemma py_eqb_trans (a b c : value) :
  py_eqb a b = true → py_eqb b c = true → py_eqb a c = true.
Proof.
  destruct a as [|x|n|s|d|t], b as [|y|m|s'|d'|t']; cbn; intros H1;
    try (apply bool_decide_eq_true in H1; try discriminate;
         injection H1 as ->; by intros H2);
    try (apply bool_decide_eq_true in H1; by intros H2);
    destruct c as [|z|k|s''|d''|t'']; cbn; intros H2;
    try (apply bool_decide_eq_true in H2; discriminate);
    try (apply bool_decide_eq_true in H2; injection H2 as <-; exact H1).
  - apply Z.eqb_eq in H1, H2. apply bool_decide_eq_true. f_equal.
    destruct x, z; congruence.
  - apply Z.eqb_eq in H1, H2. apply bool_decide_eq_true. f_equal.
    destruct y; congruence.
Qed.

Lemma py_eqb_left (a b c : value) :
  py_eqb a b = true → py_eqb a c = py_eqb b c.
Proof.
  intros H. destruct (py_eqb b c) eqn:E.
  - by apply (py_eqb_trans a b c).
  - destruct (py_eqb a c) eqn:E'; [|reflexivity].
    rewrite py_eqb_sym in H. by rewrite (py_eqb_trans b a c H E') in E.
Qed.

Lemma tally_count_category (c x : value) (cats : list (value * Z)) :
  tally c (count_category x cats)
  = tally c cats + (if py_eqb x c then 1 else 0).
Proof.
  induction cats as [|[k n] cats IH].
  - cbn. destruct (py_eqb x c); lia.
  - cbn [count_category]. destruct (py_eqb k x) eqn:E; cbn [tally].
    + rewrite (py_eqb_left k x c E). destruct (py_eqb x c); lia.
    + rewrite IH. lia.
Qed.

Lemma count_category_keys (P : value → Prop) (x : value)
    (cats : list (value * Z)) :
  P x → Forall (fun e => P e.1) cats →
  Forall (fun e => P e.1) (count_category x cats).
Proof.
  intros Hx H. induction H as [|[k n] cats Hk Hc IH].
  - by repeat constructor.
  - cbn [count_category].
    destruct (py_eqb k x); constructor; first [exact Hk | assumption].
Qed.

Lemma count_category_distinct (x : value) (cats : list (value * Z)) :
  keys_distinct cats → keys_distinct (count_category x cats).
Proof.
  induction cats as [|[k n] cats IH]; [by repeat constructor|].
  intros [Hk Hd]. cbn [count_category]. destruct (py_eqb k x) eqn:E.
  - by split.
  - split; [|by apply IH].
    by apply (count_category_keys (fun v => py_eqb k v = false)).
Qed.

Lemma count_category_positive (x : value) (cats : list (value * Z)) :
  Forall (fun e => 1 ≤ e.2) cats → Forall (fun e => 1 ≤ e.2) (count_category x cats).
Proof.
  intros H. induction H as [|[k n] cats Hk Hc IH].
  - by repeat constructor.
  - cbn [count_category]. destruct (py_eqb k x); constructor; cbn in *;
      first [lia | assumption].
Qed.

Lemma tally_absent (c : value) (cats : list (value * Z)) :
  Forall (fun e => py_eqb c e.1 = false) cats → tally c cats = 0.
Proof.
  intros H. induction H as [|[k n] cats Hk _ IH]; [reflexivity|].
  cbn [tally]. cbn in Hk. rewrite py_eqb_sym, Hk, IH. reflexivity.
Qed.

Lemma tally_entry (cats : list (value * Z)) (k : value) (n : Z) :
  keys_distinct cats → (k, n) ∈ cats → tally k cats = n.
Proof.
  induction cats as [|[k0 n0] cats IH]; intros Hd Hin.
  - by apply elem_of_nil in Hin.
  - destruct Hd as [Hk Hd]. cbn [tally].
    apply elem_of_cons in Hin as [[= <- <-]|Hin].
    + rewrite py_eqb_refl, tally_absent by done. lia.
    + rewrite Forall_forall in Hk. specialize (Hk _ Hin). cbn in Hk.
      rewrite Hk, IH by done. lia.
Qed.

Lemma tally_present (c : value) (cats : list (value * Z)) :
  tally c cats ≠ 0 → ∃ k n, (k, n) ∈ cats ∧ py_eqb k c = true.
Proof.
  induction cats as [|[k n] cats IH]; [done|]. cbn [tally].
  destruct (py_eqb k c) eqn:E.
  - intros _. exists k, n. split; [left | exact E].
  - intros H. destruct IH as (k' & n' & Hin & Hk); [lia|].
    exists k', n'. split; [by right | exact Hk].
Qed.

Lemma keys_distinct_lookup (cats : list (value * Z)) (i j : nat)
    (e1 e2 : value * Z) :
  keys_distinct cats → cats !! i = Some e1 → cats !! j = Some e2 →
  py_eqb e1.1 e2.1 = true → i = j.
Proof.
  revert i j. induction cats as [|[k n] cats IH]; intros i j Hd; [done|].
  destruct Hd as [Hk Hd]. rewrite Forall_forall in Hk.
  destruct i as [|i], j as [|j]; cbn; intros H1 H2 He.
  - reflexivity.
  - injection H1 as <-. apply list_elem_of_lookup_2 in H2.
    specialize (Hk _ H2). cbn in *. congruence.
  - injection H2 as <-. apply list_elem_of_lookup_2 in H1.
    specialize (Hk _ H1). cbn in *. rewrite py_eqb_sym in He. congruence.
  - f_equal. by apply (IH i j Hd).
Qed.

(** What the loop of [get_task_stats] does to the dictionary of categories. *)
Lemma stats_loop_categories (today : date) (ts : list doc)
    (o h : Z) (cats : list (value * Z)) (o' h' : Z) (cats' : list (value * Z)) :
  stats_loop today ts (o, h, cats) = Ok (o', h', cats') →
  (∀ c, tally c cats' = tally c cats + count (has_category c) ts)
  ∧ (keys_distinct cats → keys_distinct cats')
  ∧ (Forall (fun e => 1 ≤ e.2) cats → Forall (fun e => 1 ≤ e.2) cats').
Proof.
  revert o h cats. induction ts as [|t ts IH]; intros o h cats.
  - cbn. intros [= _ _ <-]. split; [|done]. intros c. unfold count. cbn. lia.
  - cbn [stats_loop].
    destruct (if truthy _ && negb _ then _ else _) as [o1|e]; [|discriminate].
    cbn [mbind result_bind]. intros H. apply IH in H as (Ht & Hd & Hp).
    split; [|split].
    + intros c. rewrite Ht, tally_count_category, count_cons.
      unfold has_category at 2. rewrite (py_eqb_sym c). lia.
    + intros H. by apply Hd, count_category_distinct.
    + intros H. by apply Hp, count_category_positive.
Qed.

(** X17.  In the category breakdown of the statistics, the count of an
    entry is the number of counted tasks whose category (General when the
    task has none) equals the entry's name, it is at least one, and the
    colour is the one of the table; every counted task falls under an entry,
    and no two entries have equal names. *)
Theorem stats_category_breakdown (today : date) (current_user : doc)
    (db : store) (uid : value) (stats : TaskStats.t) :
  current_user !! "id" = Some uid →
  get_task_stats today current_user db = Ok stats →
  (∀ e, e ∈ TaskStats.categories stats →
     e.1.2 = count (has_category (entry_name e)) (counted uid db)
     ∧ 1 ≤ e.1.2
     ∧ e.2 = category_color (entry_name e))
  ∧ (∀ t, t ∈ counted uid db →
       ∃ e, e ∈ TaskStats.categories stats
            ∧ has_category (entry_name e) t = true)
  ∧ (∀ i j e1 e2,
       TaskStats.categories stats !! i = Some e1 →
       TaskStats.categories stats !! j = Some e2 →
       py_eqb (entry_name e1) (entry_name e2) = true → i = j).
Proof.
  intros Hid. unfold get_task_stats, py_item, find. rewrite Hid.
  cbn [forallb clause_ok andb mbind result_bind].
  change (to_list 1000 _) with (counted uid db). set (ts := counted uid db).
  destruct (stats_loop today ts (0, 0, [])) as [[[o h] cats]|] eqn:Hl;
    [|discriminate].
  cbn [mbind result_bind]. intros [= <-]. cbn [TaskStats.categories].
  apply stats_loop_categories in Hl as (Ht & Hd & Hp).
  specialize (Hd I). specialize (Hp (Forall_nil_2 _)).
  split; [|split].
  - intros e He. apply list_elem_of_fmap in He as ([k n] & -> & Hin).
    cbn. unfold entry_name. cbn.
    pose proof (tally_entry cats k n Hd Hin) as Hn.
    rewrite Ht in Hn. cbn [tally] in Hn.
    rewrite Forall_forall in Hp. pose proof (Hp _ Hin) as Hpos. cbn in Hpos.
    split; [lia|]. split; [exact Hpos | reflexivity].
  - intros t Hin.
    set (c := py_get t "category" (VStr "General")).
    destruct (tally_present c cats) as (k & n & Hk & He).
    { rewrite Ht. cbn [tally].
      apply list_elem_of_split in Hin as (l1 & l2 & E).
      pose proof (count_nonneg (has_category c) l1).
      pose proof (count_nonneg (has_category c) l2).
      assert (count (has_category c) ts
              = count (has_category c) l1
                + (1 + count (has_category c) l2)) as ->; [|lia].
      rewrite E. unfold count. rewrite List.filter_app, length_app.
      assert (Hc : has_category c t = true) by apply py_eqb_refl.
      cbn [List.filter]. rewrite Hc. cbn [length]. lia. }
    exists (k, n, category_color k). split; [|exact He].
    apply list_elem_of_fmap. by exists (k, n).
  - intros i j e1 e2 H1 H2 He.
    rewrite list_lookup_fmap in H1, H2.
    destruct (cats !! i) as [[k1 n1]|] eqn:E1; [|discriminate].
    destruct (cats !! j) as [[k2 n2]|] eqn:E2; [|discriminate].
    injection H1 as <-. injection H2 as <-.
    by apply (keys_distinct_lookup cats i j _ _ Hd E1 E2).
Qed.

Lemma stats_category_breakdown_witness :
  ∃ stats,
    get_task_stats (mkDate 2024 1 16) bob bob_store = Ok stats
    ∧ ∀ e, e ∈ TaskStats.categories stats → 1 ≤ e.1.2.
Proof.
  destruct (stats_loop_total (mkDate 2024 1 16) (counted (VStr "u1") bob_store)
              (0, 0, [])) as [[[o h] cats] Hl].
  { constructor; [|constructor]. right. exists (mkDate 2024 1 15).
    vm_compute. reflexivity. }
  assert (Hs : get_task_stats (mkDate 2024 1 16) bob bob_store
               = Ok (TaskStats.mk 1 0 1 o h
                       ((fun '(name, count) => (name, count, category_color name))
                          <$> cats))).
  { unfold get_task_stats, py_item, find.
    change (bob !! "id") with (Some (VStr "u1")).
    cbn [forallb clause_ok andb mbind result_bind].
    change (to_list 1000 _) with (counted (VStr "u1") bob_store).
    rewrite Hl. reflexivity. }
  eexists. split; [exact Hs|]. intros e He.
  destruct (stats_category_breakdown (mkDate 2024 1 16) bob bob_store
              (VStr "u1") _ eq_refl Hs) as (H & _ & _).
  by apply H.
Defined.

(** * The category list *)

Lemma str_le_trans (a b c : string) : str_le a b → str_le b c → str_le a c.
Proof.
  unfold str_le. intros H1 H2.
  destruct (String.compare a b) eqn:E1; [| |done].
  - by rewrite (cmp_eq_l a b c E1).
  - destruct (String.compare b c) eqn:E2; [| |done].
    + by rewrite <- (cmp_eq_r String.compare a b c E2), E1.
    + by rewrite (cmp_trans a b c Lt E1 E2).
Qed.

Global Instance VStr_inj : Inj (=) (=) VStr.
Proof. by intros a b [= ->]. Qed.

(** [sorted] on strings: defined, a rearrangement, and in order. *)
Lemma py_insert_strings (x : string) (l : list string) :
  ∃ r, py_insert (VStr x) (VStr <$> l) = Ok (VStr <$> r)
       ∧ r ≡ₚ x :: l
       ∧ (StronglySorted str_le l → StronglySorted str_le r).
Proof.
  induction l as [|y l IH].
  - exists [x]. split; [reflexivity|]. split; [reflexivity|].
    intros _. by repeat constructor.
  - cbn [fmap list_fmap py_insert py_lt mbind result_bind].
    destruct (String.compare y x) eqn:E.
    + exists (x :: y :: l). split; [reflexivity|]. split; [reflexivity|].
      intros Hs. constructor; [exact Hs|].
      assert (Hxy : str_le x y).
      { unfold str_le. by rewrite (cmp_antisym x y), E. }
      constructor; [exact Hxy|].
      apply StronglySorted_inv in Hs as [_ Hy].
      eapply Forall_impl; [exact Hy|]. intros z Hz. by apply (str_le_trans x y z).
    + destruct IH as (r & -> & Hp & Hs). cbn [mbind result_bind].
      exists (y :: r). split; [reflexivity|]. split.
      * rewrite Hp. apply Permutation_swap.
      * intros Hyl. apply StronglySorted_inv in Hyl as [Hl Hy].
        constructor; [by apply Hs|]. rewrite Hp. constructor; [|exact Hy].
        unfold str_le. by rewrite E.
    + exists (x :: y :: l). split; [reflexivity|]. split; [reflexivity|].
      intros Hs. constructor; [exact Hs|].
      assert (Hxy : str_le x y).
      { unfold str_le. by rewrite (cmp_antisym x y), E. }
      constructor; [exact Hxy|].
      apply StronglySorted_inv in Hs as [_ Hy].
      eapply Forall_impl; [exact Hy|]. intros z Hz. by apply (str_le_trans x y z).
Qed.

Lemma py_sorted_strings (l : list string) :
  ∃ r, py_sorted (VStr <$> l) = Ok (VStr <$> r)
       ∧ r ≡ₚ l ∧ StronglySorted str_le r.
Proof.
  induction l as [|x l (r & Hr & Hp & Hs)].
  - exists []. split; [reflexivity|]. split; [reflexivity | constructor].
  - cbn [fmap list_fmap py_sorted]. change (list_fmap string value VStr l) with (VStr <$> l).
    rewrite Hr. cbn [mbind result_bind].
    destruct (py_insert_strings x r) as (r' & Hr' & Hp' & Hs').
    exists r'. split; [exact Hr'|]. split; [by rewrite Hp', Hp | by apply Hs'].
Qed.

(** In order and without repetition is in strict order. *)
Lemma sorted_NoDup_strict (l : list string) :
  StronglySorted str_le l → NoDup l → StronglySorted str_lt l.
Proof.
  induction 1 as [|a l Hs IH Ha]; intros Hn; [constructor|].
  apply NoDup_cons in Hn as [Hn1 Hn2]. constructor; [by apply IH|].
  rewrite Forall_forall in Ha. apply Forall_forall. intros b Hb.
  specialize (Ha b Hb). unfold str_le, str_lt in *.
  destruct (String.compare a b) eqn:E; [|reflexivity|done].
  apply String.compare_eq_iff in E. by subst.
Qed.

(** [category in categories], on strings. *)
Lemma existsb_py_eqb_str (d : string) (l : list string) :
  existsb (py_eqb (VStr d)) (VStr <$> l) = bool_decide (d ∈ l).
Proof.
  induction l as [|y l IHl].
  - cbn. symmetry. apply bool_decide_eq_false. apply not_elem_of_nil.
  - cbn [fmap list_fmap existsb].
    change (list_fmap string value VStr l) with (VStr <$> l).
    rewrite IHl. cbn [py_eqb].
    destruct (decide (d = y)) as [->|Hn].
    + rewrite (bool_decide_eq_true_2 (VStr y = VStr y)) by reflexivity.
      cbn [orb]. symmetry. apply bool_decide_eq_true. left.
    + rewrite (bool_decide_eq_false_2 (VStr d = VStr y)) by congruence.
      cbn [orb]. apply bool_decide_ext. rewrite elem_of_cons. tauto.
Qed.

(** The loop over the default categories, on strings. *)
Lemma add_defaults_fold (ds l : list string) :
  ∃ l',
    fold_left
      (fun categories category =>
         if existsb (py_eqb category) categories then categories
         else categories ++ [category])
      (VStr <$> ds) (VStr <$> l)
    = VStr <$> l'
    ∧ (∀ s, s ∈ l' ↔ s ∈ l ∨ s ∈ ds)
    ∧ (NoDup l → NoDup l').
Proof.
  revert l. induction ds as [|d ds IH]; intros l.
  - exists l. split; [reflexivity|]. split; [|done].
    intros s. rewrite elem_of_nil. tauto.
  - cbn [fmap list_fmap fold_left].
    change (list_fmap string value VStr) with (@fmap list _ string value VStr).
    rewrite existsb_py_eqb_str. destruct (bool_decide (d ∈ l)) eqn:Hd.
    + apply bool_decide_eq_true in Hd.
      destruct (IH l) as (l' & -> & Hm & Hn). exists l'.
      split; [reflexivity|]. split; [|exact Hn].
      intros s. rewrite Hm, elem_of_cons. split; [tauto|].
      intros [H|[->|H]]; tauto.
    + apply bool_decide_eq_false in Hd.
      change [VStr d] with (VStr <$> [d]). rewrite <- fmap_app.
      destruct (IH (l ++ [d])) as (l' & -> & Hm & Hn). exists l'.
      split; [reflexivity|]. split.
      * intros s. rewrite Hm, elem_of_app, list_elem_of_singleton, elem_of_cons.
        tauto.
      * intros Hl. apply Hn. apply NoDup_app. split; [exact Hl|].
        split; [|apply NoDup_singleton].
        intros x Hx Hx'. apply list_elem_of_singleton in Hx'. by subst.
Qed.

(** The comprehension over the results of the pipeline. *)
Lemma truthy_ids_eq (results : list doc) :
  Forall (fun r : doc => is_Some (r !! "_id")) results →
  truthy_ids results
  = Ok (List.filter truthy ((fun r : doc => default VNone (r !! "_id")) <$> results)).
Proof.
  induction 1 as [|r results [v Hv] _ IH]; [reflexivity|].
  cbn [truthy_ids fmap list_fmap List.filter]. unfold py_item. rewrite Hv, IH.
  cbn [mbind result_bind default from_option id].
  change (id v) with v. destruct (truthy v); reflexivity.
Qed.

Lemma strings_of (vs : list value) :
  Forall (fun v => ∃ s, v = VStr s) vs → ∃ l, vs = VStr <$> l.
Proof.
  induction 1 as [|v vs [s ->] _ [l ->]]; [by exists []|]. by exists (s :: l).
Qed.

Lemma categories_in_use_ok (uid : value) (db : store) (v : value) :
  Forall category_ok (tasks db) → v ∈ categories_in_use uid db →
  v = VNone ∨ ∃ s, v = VStr s.
Proof.
  intros Hok Hv. unfold categories_in_use in Hv.
  apply elem_of_remove_dups, list_elem_of_fmap in Hv as (t & -> & Ht).
  apply list_elem_of_In, filter_In in Ht as [Ht _]. apply list_elem_of_In in Ht.
  rewrite Forall_forall in Hok. specialize (Hok t Ht). unfold category_ok in Hok.
  destruct (default VNone (t !! "category")); try done; [by left | right; by eexists].
Qed.

(** The identifiers of the groups that [get_categories] reads. *)
Lemma group_ids (uid : value) (db : store) :
  let results :=
    to_list 100 (sort_docs [("_id", 1)]
      (group_by_category (List.filter (matches [FieldEq "user_id" uid]) (tasks db)))) in
  let ws := (fun r : doc => default VNone (r !! "_id")) <$> results in
  Forall (fun r : doc => is_Some (r !! "_id")) results
  ∧ NoDup ws
  ∧ (∀ v, v ∈ ws → v ∈ categories_in_use uid db)
  ∧ ((length (categories_in_use uid db) ≤ 100)%nat →
     ∀ v, v ∈ categories_in_use uid db → v ∈ ws).
Proof.
  intros results ws.
  set (mk := fun v : value => ({[ "_id" := v ]} : doc)).
  set (idof := fun r : doc => default VNone (r !! "_id")).
  set (sorted := sort_docs [("_id", 1)] (mk <$> categories_in_use uid db)).
  assert (Hres : results = take 100 sorted) by reflexivity.
  assert (Hperm : idof <$> sorted ≡ₚ categories_in_use uid db).
  { assert (Hid : ∀ vs : list value, idof <$> (mk <$> vs) = vs).
    { induction vs as [|v vs IH]; [reflexivity|]. rewrite !fmap_cons, IH.
      reflexivity. }
    unfold sorted. rewrite sort_docs_perm. by rewrite Hid. }
  assert (Hws : ws = take 100 (idof <$> sorted)).
  { unfold ws. rewrite Hres. apply fmap_take. }
  split; [|split; [|split]].
  - rewrite Hres. apply Forall_forall. intros r Hr.
    apply subseteq_take in Hr. unfold sorted in Hr.
    rewrite sort_docs_perm in Hr. apply list_elem_of_fmap in Hr as (v & -> & _).
    exists v. apply lookup_singleton_eq.
  - rewrite Hws. apply (sublist_NoDup _ (idof <$> sorted)); [|apply sublist_take].
    rewrite Hperm. apply NoDup_remove_dups.
  - intros v Hv. rewrite Hws in Hv. apply subseteq_take in Hv.
    by rewrite Hperm in Hv.
  - intros Hlen v Hv. rewrite Hws, take_ge; [by rewrite Hperm|].
    by rewrite Hperm.
Qed.

(** X18.  When the categories of the stored tasks are strings (or absent,
    or null), [get_categories] answers a list of strings in strictly
    ascending order, so without repetition, that holds the six default
    categories; every other entry is a non-empty category of a task of the
    user, and every such category is in the list when the user's tasks have
    at most a hundred distinct categories. *)
Theorem get_categories_sorted_with_defaults (current_user : doc) (db : store)
    (uid : value) :
  current_user !! "id" = Some uid →
  Forall category_ok (tasks db) →
  ∃ l : list string,
    get_categories current_user db = Ok (VStr <$> l)
    ∧ StronglySorted str_lt l
    ∧ (∀ s, VStr s ∈ default_categories → s ∈ l)
    ∧ (∀ s, s ∈ l →
         VStr s ∈ default_categories
         ∨ (s ≠ "" ∧ VStr s ∈ categories_in_use uid db))
    ∧ ((length (categories_in_use uid db) ≤ 100)%nat →
       ∀ s, s ≠ "" → VStr s ∈ categories_in_use uid db → s ∈ l).
Proof.
  intros Hid Hok. unfold get_categories, py_item, find. rewrite Hid.
  cbn [forallb clause_ok andb mbind result_bind]. cbv zeta.
  destruct (group_ids uid db) as (Hsome & Hnd & Hsub & Hall).
  rewrite (truthy_ids_eq _ Hsome). cbn [mbind result_bind].
  set (ws := (fun r : doc => default VNone (r !! "_id")) <$> _) in *.
  assert (Hstr : Forall (fun v => ∃ s, v = VStr s) (List.filter truthy ws)).
  { apply Forall_forall. intros v Hv.
    apply list_elem_of_In, filter_In in Hv as [Hv Ht]. apply list_elem_of_In in Hv.
    destruct (categories_in_use_ok uid db v Hok (Hsub v Hv)) as [->|H];
      [discriminate | exact H]. }
  destruct (strings_of _ Hstr) as [l0 Hl0]. rewrite Hl0.
  assert (Hmem : ∀ s, s ∈ l0 ↔ s ≠ "" ∧ VStr s ∈ ws).
  { intros s. rewrite <- (list_elem_of_fmap_inj VStr), <- Hl0.
    rewrite list_elem_of_In, filter_In, <- list_elem_of_In. cbn [truthy].
    rewrite negb_true_iff, String.eqb_neq. tauto. }
  assert (Hnd0 : NoDup l0).
  { apply (NoDup_fmap VStr). rewrite <- Hl0.
    apply NoDup_ListNoDup, List.NoDup_filter, NoDup_ListNoDup, Hnd. }
  destruct (add_defaults_fold
              ["General"; "Work"; "Personal"; "Health"; "Learning"; "Shopping"] l0)
    as (l1 & Hl1 & Hm1 & Hn1).
  change (add_defaults (VStr <$> l0)) with
    (fold_left
       (fun categories category =>
          if existsb (py_eqb category) categories then categories
          else categories ++ [category])
       (VStr <$> ["General"; "Work"; "Personal"; "Health"; "Learning"; "Shopping"])
       (VStr <$> l0)).
  rewrite Hl1.
  destruct (py_sorted_strings l1) as (l & -> & Hp & Hs).
  exists l. split; [reflexivity|]. split; [|split; [|split]].
  - apply sorted_NoDup_strict; [exact Hs|]. rewrite Hp. by apply Hn1.
  - intros s Hd. rewrite Hp. apply Hm1. right.
    change default_categories with
      (VStr <$> ["General"; "Work"; "Personal"; "Health"; "Learning"; "Shopping"])
      in Hd.
    by apply (list_elem_of_fmap_inj VStr) in Hd.
  - intros s Hsl. rewrite Hp in Hsl. apply Hm1 in Hsl as [H|H].
    + right. apply Hmem in H as [H1 H2]. split; [exact H1 | by apply Hsub].
    + left. exact (list_elem_of_fmap_2 VStr _ _ H).
  - intros Hlen s Hne Hin. rewrite Hp. apply Hm1. left. apply Hmem.
    split; [exact Hne | by apply Hall].
Qed.

Lemma get_categories_sorted_with_defaults_witness :
  ∃ l, get_categories bob errands_store = Ok (VStr <$> l)
       ∧ "Errands" ∈ l ∧ "General" ∈ l.
Proof.
  assert (Hu : categories_in_use (VStr "u1") errands_store
               = [VStr "Errands"; VStr "General"]) by by vm_compute.
  destruct (get_categories_sorted_with_defaults bob errands_store (VStr "u1")
              eq_refl) as (l & Hl & _ & Hd & _ & Hall).
  { constructor; [exact I|]. constructor; [exact I|]. constructor. }
  exists l. split; [exact Hl|]. split.
  - apply Hall; [rewrite Hu; cbn; lia | done | rewrite Hu; left].
  - apply Hd. left.
Defined.

(** * Writing, then reading *)

Lemma update_task_no_user (now : Z) (today : date) (task_id : string)
    (task_update : TaskUpdate.t) (current_user : doc) (db : store) :
  current_user !! "id" = None →
  update_task now today task_id task_update current_user db
  = (Raise (KeyError "id"), db).
Proof. intros H. unfold update_task, py_item. by rewrite H. Qed.

Lemma update_task_missing (now : Z) (today : date) (task_id : string)
    (task_update : TaskUpdate.t) (current_user : doc) (db : store)
    (uid : value) :
  current_user !! "id" = Some uid → stored_task task_id uid db = None →
  update_task now today task_id task_update current_user db
  = (Raise not_found, db).
Proof.
  intros Hid Hn. unfold update_task, py_item. rewrite Hid.
  fold (task_filter task_id uid). unfold stored_task in Hn.
  destruct (find_one_is_Ok (task_filter task_id uid) (tasks db) eq_refl)
    as [o Ho].
  rewrite Ho in Hn |- *. by subst o.
Qed.

Lemma delete_task_missing (task_id : string) (current_user : doc) (db : store)
    (uid : value) :
  current_user !! "id" = Some uid → stored_task task_id uid db = None →
  delete_task task_id current_user db = (Raise not_found, db).
Proof.
  intros Hid H. unfold delete_task, py_item. rewrite Hid.
  cbn [forallb clause_ok andb]. fold (task_filter task_id uid).
  by rewrite (delete_first_none _ _ (stored_task_None _ _ _ H)).
Qed.

Lemma delete_task_found (task_id : string) (current_user : doc) (db : store)
    (uid : value) (t : doc) :
  current_user !! "id" = Some uid → stored_task task_id uid db = Some t →
  ∃ l1 l2,
    tasks db = l1 ++ t :: l2
    ∧ Forall (fun d => matches (task_filter task_id uid) d = false) l1
    ∧ matches (task_filter task_id uid) t = true
    ∧ delete_task task_id current_user db
      = (Ok "Task deleted successfully", mkStore (users db) (l1 ++ l2)).
Proof.
  intros Hid H. unfold delete_task, py_item. rewrite Hid.
  cbn [forallb clause_ok andb]. fold (task_filter task_id uid).
  apply stored_task_Some, find_one_split in H as (l1 & l2 & Hl & Hl1 & Ht).
  exists l1, l2. by rewrite Hl, (delete_first_split _ _ _ _ Hl1 Ht).
Qed.

Lemma stored_task_no_match (task_id : string) (uid : value) (db : store) :
  Forall (fun d => matches (task_filter task_id uid) d = false) (tasks db) →
  stored_task task_id uid db = None.
Proof.
  intros H. unfold stored_task. by rewrite find_one_no_match.
Qed.

(** Two updates with the same request leave the fields of the later one. *)
Lemma update_fields_twice (now now' : Z) (tu : TaskUpdate.t) (t : doc) :
  update_fields now' tu ∪ (update_fields now tu ∪ t) = update_fields now' tu ∪ t.
Proof.
  apply map_eq. intros k. unfold update_fields.
  destruct (decide (k = "updated_at")) as [->|Hk].
  - rewrite !(lookup_union_Some_l _ _ _ (VDateTime now'));
      [reflexivity | apply lookup_insert_eq | apply lookup_insert_eq].
  - destruct (update_data_of tu !! k) as [v|] eqn:E.
    + rewrite !(lookup_union_Some_l _ _ _ v);
        [reflexivity | by rewrite lookup_insert_ne | by rewrite lookup_insert_ne].
    + rewrite !lookup_union_r; [reflexivity | by rewrite lookup_insert_ne ..].
Qed.

(** X19.  Reading a task right after an update gives the answer of the
    update, an error included; and repeating an update with the same request
    leaves the store as one update at the later time does. *)
Theorem update_then_read (now : Z) (today : date) (task_id : string)
    (task_update : TaskUpdate.t) (current_user : doc) (db : store) :
  get_task today task_id current_user
    (update_task now today task_id task_update current_user db).2
  = (update_task now today task_id task_update current_user db).1
  ∧ ∀ now',
      (update_task now' today task_id task_update current_user
         (update_task now today task_id task_update current_user db).2).2
      = (update_task now' today task_id task_update current_user db).2.
Proof.
  destruct (current_user !! "id") as [uid|] eqn:Hid.
  2: { rewrite update_task_no_user by done. cbn [fst snd]. split.
       - unfold get_task, py_item. by rewrite Hid.
       - intros now'. by rewrite update_task_no_user. }
  destruct (stored_task task_id uid db) as [t|] eqn:Hs.
  2: { rewrite (update_task_missing _ _ _ _ _ _ uid) by done. cbn [fst snd].
       split.
       - by rewrite (get_task_eq _ _ _ _ uid), Hs.
       - intros now'. by rewrite (update_task_missing _ _ _ _ _ _ uid). }
  pose proof (update_task_stored now today task_id task_update current_user db
                uid t Hid Hs) as Hafter.
  split.
  - rewrite (get_task_eq _ _ _ _ uid Hid), Hafter.
    rewrite (update_task_eq _ _ _ _ _ _ _ _ Hid (stored_task_Some _ _ _ _ Hs)).
    by destruct (bool_decide _).
  - intros now'. apply stored_task_Some in Hafter.
    rewrite (update_task_eq now' _ _ _ _ _ _ _ Hid Hafter).
    pose proof (stored_task_Some _ _ _ _ Hs) as Hf.
    rewrite (update_task_eq now' _ _ _ _ db _ _ Hid Hf).
    rewrite (update_task_eq now _ _ _ _ db _ _ Hid Hf).
    destruct (bool_decide (update_data_of task_update = ∅)); [reflexivity|].
    cbn [fst snd users tasks]. f_equal.
    destruct (find_one_split _ _ _ Hf) as (l1 & l2 & -> & Hl1 & Hm).
    rewrite (set_first_split _ _ _ _ _ Hl1 Hm).
    rewrite (set_first_split _ _ _ _ _ Hl1 Hm).
    rewrite (set_first_split _ _ _ _ _ Hl1);
      [|by rewrite matches_update_fields].
    by rewrite update_fields_twice.
Qed.

(** * The identifiers of the tasks *)

Lemma set_first_ids (q : query) (upd : doc) (coll : list doc) :
  upd !! "id" = None →
  (fun t : doc => t !! "id") <$> set_first q upd coll
  = (fun t : doc => t !! "id") <$> coll.
Proof.
  intros Hu. induction coll as [|d coll IH]; [reflexivity|].
  cbn [set_first]. destruct (matches q d).
  - rewrite !fmap_cons. by rewrite lookup_union_r.
  - rewrite !fmap_cons. by rewrite IH.
Qed.

Lemma update_fields_no_id (now : Z) (tu : TaskUpdate.t) :
  update_fields now tu !! "id" = None.
Proof.
  apply update_data_keys. intros Hin. apply list_elem_of_In in Hin. cbn in Hin.
  repeat (destruct Hin as [Hin|Hin]; [discriminate|]). exact Hin.
Qed.

(** With distinct identifiers, a filter has no second match. *)
Lemma unique_match (task_id : string) (uid : value) (l1 l2 : list doc) (t : doc) :
  NoDup ((fun t : doc => t !! "id") <$> (l1 ++ t :: l2)) →
  matches (task_filter task_id uid) t = true →
  Forall (fun d => matches (task_filter task_id uid) d = false) l2.
Proof.
  intros Hn Ht. apply matches_task_filter in Ht as [Ht _].
  rewrite fmap_app, fmap_cons in Hn.
  apply NoDup_app in Hn as (_ & _ & Hn). apply NoDup_cons in Hn as [Hn _].
  apply Forall_forall. intros d Hd.
  destruct (matches (task_filter task_id uid) d) eqn:E; [|reflexivity].
  apply matches_task_filter in E as [E _]. exfalso. apply Hn.
  rewrite Ht, <- E. by apply (list_elem_of_fmap_2 (fun t : doc => t !! "id")).
Qed.

(** X20.  When no two stored tasks share an identifier, a deleted task is
    gone: after a successful [delete_task] the store has one task less and
    the same users, and reading, updating or deleting the task again is
    answered 404 and changes nothing. *)
Theorem delete_then_read (today : date) (task_id : string) (current_user : doc)
    (db db' : store) (message : string) :
  task_ids_unique db →
  delete_task task_id current_user db = (Ok message, db') →
  users db' = users db
  ∧ (length (tasks db') + 1 = length (tasks db))%nat
  ∧ task_ids_unique db'
  ∧ get_task today task_id current_user db' = Raise not_found
  ∧ delete_task task_id current_user db' = (Raise not_found, db')
  ∧ ∀ now task_update,
      update_task now today task_id task_update current_user db'
      = (Raise not_found, db').
Proof.
  intros Hu Hd.
  destruct (current_user !! "id") as [uid|] eqn:Hid.
  2: { unfold delete_task, py_item in Hd. rewrite Hid in Hd. discriminate. }
  destruct (stored_task task_id uid db) as [t|] eqn:Hs.
  2: { rewrite (delete_task_missing _ _ _ uid) in Hd by done. discriminate. }
  destruct (delete_task_found _ _ _ _ _ Hid Hs) as (l1 & l2 & Hl & Hl1 & Ht & He).
  rewrite He in Hd. injection Hd as _ <-. cbn [users tasks].
  unfold task_ids_unique, task_ids in *. rewrite Hl in Hu. cbn [tasks].
  assert (Hnone : stored_task task_id uid (mkStore (users db) (l1 ++ l2)) = None).
  { apply stored_task_no_match. cbn [tasks]. apply Forall_app. split; [exact Hl1|].
    by apply (unique_match task_id uid l1 l2 t). }
  split; [reflexivity|]. split.
  { rewrite Hl, !length_app. cbn [length]. lia. }
  split.
  { rewrite fmap_app, fmap_cons in Hu. rewrite fmap_app.
    apply NoDup_app in Hu as (H1 & H2 & H3). apply NoDup_cons in H3 as [_ H3].
    apply NoDup_app. split; [exact H1|]. split; [|exact H3].
    intros x Hx Hx'. apply (H2 x Hx). by right. }
  split; [by rewrite (get_task_eq _ _ _ _ uid Hid), Hnone|].
  split; [by apply (delete_task_missing _ _ _ uid)|].
  intros now task_update. by apply (update_task_missing _ _ _ _ _ _ uid).
Qed.

Lemma delete_then_read_witness :
  ∃ db',
    delete_task "t1" bob shared_store = (Ok "Task deleted successfully", db')
    ∧ get_task (mkDate 2024 1 16) "t1" bob db' = Raise not_found.
Proof.
  destruct (delete_task_found "t1" bob shared_store (VStr "u1") bob_task
              eq_refl eq_refl) as (l1 & l2 & _ & _ & _ & He).
  assert (Hu : task_ids_unique shared_store).
  { unfold task_ids_unique, task_ids.
    change (tasks shared_store) with [carol_task; bob_task].
    rewrite !fmap_cons. apply NoDup_cons. split; [|apply NoDup_singleton].
    intros H. apply list_elem_of_singleton in H. vm_compute in H.
    discriminate H. }
  eexists. split; [exact He|].
  destruct (delete_then_read (mkDate 2024 1 16) "t1" bob shared_store _ _ Hu He)
    as (_ & _ & _ & Hg & _).
  exact Hg.
Defined.

(** X21.  The task routes keep the identifiers of the stored tasks
    distinct: [create_task] when the new identifier is not in use, and
    [update_task] and [delete_task] always; an update leaves the list of
    identifiers as it is. *)
Theorem task_ids_stay_unique (today : date) (current_user : doc) (db : store) :
  task_ids_unique db →
  (∀ uuid now task_data,
     Forall (fun t : doc => t !! "id" ≠ Some (VStr uuid)) (tasks db) →
     task_ids_unique (create_task uuid now today task_data current_user db).2)
  ∧ (∀ now task_id task_update,
       task_ids (update_task now today task_id task_update current_user db).2
       = task_ids db)
  ∧ (∀ task_id, task_ids_unique (delete_task task_id current_user db).2).
Proof.
  intros Hu. split; [|split].
  - intros uuid now task_data Hfresh. unfold create_task, py_item.
    destruct (current_user !! "id") as [uid|]; [|exact Hu].
    unfold task_ids_unique, task_ids in *. cbn [snd tasks].
    rewrite fmap_app. apply NoDup_app. split; [exact Hu|]. split.
    + intros x Hx Hx'. apply list_elem_of_fmap in Hx as (t & -> & Ht).
      rewrite Forall_forall in Hfresh. apply (Hfresh t Ht).
      cbn in Hx'. apply list_elem_of_singleton in Hx'. rewrite Hx'.
      reflexivity.
    + cbn. apply NoDup_singleton.
  - intros now task_id task_update.
    destruct (current_user !! "id") as [uid|] eqn:Hid;
      [|by rewrite update_task_no_user].
    destruct (stored_task task_id uid db) as [t|] eqn:Hs;
      [|by rewrite (update_task_missing _ _ _ _ _ _ uid)].
    rewrite (update_task_eq _ _ _ _ _ _ _ _ Hid (stored_task_Some _ _ _ _ Hs)).
    destruct (bool_decide _); [reflexivity|]. unfold task_ids. cbn [snd tasks].
    apply set_first_ids, update_fields_no_id.
  - intros task_id.
    destruct (current_user !! "id") as [uid|] eqn:Hid.
    2: { unfold delete_task, py_item. by rewrite Hid. }
    destruct (stored_task task_id uid db) as [t|] eqn:Hs;
      [|by rewrite (delete_task_missing _ _ _ uid)].
    destruct (delete_task_found _ _ _ _ _ Hid Hs) as (l1 & l2 & Hl & _ & _ & ->).
    unfold task_ids_unique, task_ids in *. cbn [snd tasks]. rewrite Hl in Hu.
    rewrite fmap_app, fmap_cons in Hu. rewrite fmap_app.
    apply NoDup_app in Hu as (H1 & H2 & H3). apply NoDup_cons in H3 as [_ H3].
    apply NoDup_app. split; [exact H1|]. split; [|exact H3].
    intros x Hx Hx'. apply (H2 x Hx). by right.
Qed.

Lemma task_ids_stay_unique_witness :
  task_ids_unique
    (create_task "t2" 300 (mkDate 2024 1 16) new_task bob bob_store).2.
Proof.
  destruct (task_ids_stay_unique (mkDate 2024 1 16) bob bob_store) as (H & _).
  { unfold task_ids_unique, task_ids. cbn. apply NoDup_singleton. }
  apply H. constructor; [discriminate | constructor].
Defined.

(** * The users stay distinct *)

Section Distinct.

Variable SECRET_KEY : string.
Variable bcrypt_hashpw : string → string → string.

(** [signup] either refuses and leaves the store, or the email is new and
    one user is added. *)
Lemma signup_cases (uuid salt : string) (now now' : Z)
    (user_data : UserCreate.t) (db : store) :
  (signup SECRET_KEY bcrypt_hashpw uuid salt now now' user_data db).2 = db
  ∨ (Forall (fun u : doc => u !! "email" ≠ Some (VStr (UserCreate.email user_data)))
       (users db)
     ∧ (signup SECRET_KEY bcrypt_hashpw uuid salt now now' user_data db).2
       = mkStore
           (users db
            ++ [user_doc_of uuid (bcrypt_hashpw (UserCreate.password user_data) salt)
                  now user_data])
           (tasks db)).
Proof.
  set (q := [FieldEq "email" (VStr (UserCreate.email user_data))]).
  destruct (find_one_is_Ok q (users db) eq_refl) as [[u'|] Hf].
  - left. unfold signup. fold q. rewrite Hf.
    apply find_one_Some in Hf as [_ Hm].
    by rewrite (matches_eq_found _ _ _ _ Hm).
  - right.
    assert (Hnew : Forall (fun u : doc =>
                     u !! "email" ≠ Some (VStr (UserCreate.email user_data)))
                     (users db)).
    { apply Forall_forall. intros u Hu He.
      pose proof (find_one_None _ _ u Hf Hu) as Hm.
      assert (matches q u = true) as Ht by by apply matches_field_eq.
      congruence. }
    split; [exact Hnew|]. by rewrite signup_new_email.
Qed.

(** X22.  [signup] leaves the tasks alone and keeps the users distinct: no
    two users share an email after it when none did before, and the
    identifiers stay unique strings when the new identifier is not in
    use. *)
Theorem signup_keeps_users_distinct (uuid salt : string) (now now' : Z)
    (user_data : UserCreate.t) (db : store) :
  let db' := (signup SECRET_KEY bcrypt_hashpw uuid salt now now' user_data db).2 in
  tasks db' = tasks db
  ∧ (emails_unique db → emails_unique db')
  ∧ (ids_unique db →
     Forall (fun u : doc => u !! "id" ≠ Some (VStr uuid)) (users db) →
     ids_unique db').
Proof.
  cbv zeta.
  destruct (signup_cases uuid salt now now' user_data db) as [->|[Hnew ->]];
    [done|].
  set (u := user_doc_of uuid _ now user_data).
  split; [reflexivity|]. split.
  - unfold emails_unique. cbn [users]. intros Hu. rewrite fmap_app.
    apply NoDup_app. split; [exact Hu|]. split; [|apply NoDup_singleton].
    intros x Hx Hx'. apply list_elem_of_fmap in Hx as (v & -> & Hv).
    apply list_elem_of_singleton in Hx'. rewrite Forall_forall in Hnew.
    by apply (Hnew v Hv).
  - intros [Hstr Huniq] Hfresh. split; cbn [users].
    + apply Forall_app. split; [exact Hstr|].
      constructor; [by exists uuid | constructor].
    + rewrite Forall_forall in Hfresh.
      intros u1 u2 H1 H2 He.
      apply elem_of_app in H1 as [H1|H1], H2 as [H2|H2];
        rewrite ?list_elem_of_singleton in *; subst.
      * by apply Huniq.
      * exfalso. by apply (Hfresh u1 H1).
      * exfalso. apply (Hfresh u2 H2). by rewrite <- He.
      * reflexivity.
Qed.

End Distinct.

Lemma signup_keeps_users_distinct_witness :
  emails_unique
    (signup sample_key sample_hashpw "u2" "s" 200 201 alice
       (signup sample_key sample_hashpw "u1" "s" 100 101 alice empty_store).2).2.
Proof.
  apply signup_keeps_users_distinct, signup_keeps_users_distinct.
  apply NoDup_nil_2.
Defined.
